(** * LED controller: BLE command layer and device registry

    A shallow embedding of [js/ble-controller-pro.js] (class
    [BLEController]) and [js/device-manager.js] (object [DEVICE_CONFIG]
    and class [DeviceManager]), followed by the properties of the command
    encoder, the command transport, the session and the registry.

    The bytes, indices and clock readings the code computes with are
    integers and are modelled by [Z]; the values a caller hands to
    [parseInt] are modelled by [JS.Value], numbers through their string
    form.  Strings are sequences of UTF-8 bytes.  Asynchronous platform
    calls are modelled by an environment of oracles, consulted in call
    order, and every call is recorded in a trace. *)

From Stdlib Require Import ZArith String Ascii List Bool Lia Permutation.
Import ListNotations.
Local Open Scope Z_scope.

(* ================================================================== *)
(** * JavaScript values and the built-ins the source relies on *)
(* ================================================================== *)

Module JS.

(** The arguments a caller may hand to [setColorRGB], [setEffect] and
    [rgbToHex].  A string is the sequence of bytes of its UTF-8 encoding,
    as the string literals of this file are.  [JSInt z] is the number the
    integer literal [z] denotes and [JSDecimal m e] the number the literal
    [m e e] denotes ([JSDecimal 37 (-1)] is 3.7 and [JSDecimal 1 21] is
    1e21): the double nearest to it, ties to even.  Objects and arrays
    reach [parseInt] through their string form and are covered by
    [JSString]. *)
Inductive Value : Type :=
| JSUndefined
| JSNull
| JSBool (b : bool)
| JSNaN
| JSInfinity (negative : bool)
| JSInt (z : Z)
| JSDecimal (mantissa exponent : Z)
| JSString (s : string).

Definition code (c : ascii) : Z := Z.of_nat (nat_of_ascii c).

(** StrWhiteSpaceChar (WhiteSpace and LineTerminator), by the length of
    the encoding.  One byte: TAB, LF, VT, FF, CR and SP. *)
Definition is_white_space (c : ascii) : bool :=
  let n := code c in
  (n =? 32) || ((9 <=? n) && (n <=? 13)).

(** Two bytes: U+00A0. *)
Definition is_white_space2 (c1 c2 : ascii) : bool :=
  (code c1 =? 0xC2) && (code c2 =? 0xA0).

(** Three bytes: U+1680, U+2000 to U+200A, U+2028, U+2029, U+202F,
    U+205F, U+3000 and U+FEFF. *)
Definition is_white_space3 (c1 c2 c3 : ascii) : bool :=
  let b1 := code c1 in
  let b2 := code c2 in
  let b3 := code c3 in
  ((b1 =? 0xE1) && (b2 =? 0x9A) && (b3 =? 0x80))
  || ((b1 =? 0xE2) && (b2 =? 0x80)
      && (((0x80 <=? b3) && (b3 <=? 0x8A)) || (b3 =? 0xA8) || (b3 =? 0xA9)
          || (b3 =? 0xAF)))
  || ((b1 =? 0xE2) && (b2 =? 0x81) && (b3 =? 0x9F))
  || ((b1 =? 0xE3) && (b2 =? 0x80) && (b3 =? 0x80))
  || ((b1 =? 0xEF) && (b2 =? 0xBB) && (b3 =? 0xBF)).

(** The string without its leading white space characters. *)
Fixpoint trim_start (s : string) : string :=
  match s with
  | String c1 r1 =>
      if is_white_space c1 then trim_start r1
      else
        match r1 with
        | String c2 r2 =>
            if is_white_space2 c1 c2 then trim_start r2
            else
              match r2 with
              | String c3 r3 =>
                  if is_white_space3 c1 c2 c3 then trim_start r3 else s
              | EmptyString => s
              end
        | EmptyString => s
        end
  | EmptyString => s
  end.

(** Whether the string is exactly one white space character. *)
Definition white_space_char (s : string) : bool :=
  match s with
  | String c1 EmptyString => is_white_space c1
  | String c1 (String c2 EmptyString) => is_white_space2 c1 c2
  | String c1 (String c2 (String c3 EmptyString)) => is_white_space3 c1 c2 c3
  | _ => false
  end.

(** Whether the string starts with a white space character. *)
Definition starts_with_white_space (s : string) : bool :=
  match s with
  | String c1 r1 =>
      is_white_space c1
      || match r1 with
         | String c2 r2 =>
             is_white_space2 c1 c2
             || match r2 with
                | String c3 _ => is_white_space3 c1 c2 c3
                | EmptyString => false
                end
         | EmptyString => false
         end
  | EmptyString => false
  end.

(** Whether the string consists of white space characters only. *)
Definition blank (s : string) : bool := String.eqb (trim_start s) "".

(** Value of a character as a digit: 0-9, then a-z and A-Z from 10 on. *)
Definition digit_value (c : ascii) : option Z :=
  let n := Z.of_nat (nat_of_ascii c) in
  if (48 <=? n) && (n <=? 57) then Some (n - 48)
  else if (97 <=? n) && (n <=? 122) then Some (n - 87)
  else if (65 <=? n) && (n <=? 90) then Some (n - 55)
  else None.

(** The longest prefix of radix digits, read as a number; [None] when the
    prefix is empty. *)
Fixpoint read_digits (radix : Z) (s : string) (acc : option Z) : option Z :=
  match s with
  | String c rest =>
      match digit_value c with
      | Some d =>
          if d <? radix
          then read_digits radix rest
                 (Some (match acc with Some a => a * radix + d | None => d end))
          else acc
      | None => acc
      end
  | EmptyString => acc
  end.

Definition strip_sign (s : string) : Z * string :=
  match s with
  | String "-"%char rest => (-1, rest)
  | String "+"%char rest => (1, rest)
  | _ => (1, s)
  end.

Definition strip_hex_prefix (s : string) : Z * string :=
  match s with
  | String "0"%char (String "x"%char rest) => (16, rest)
  | String "0"%char (String "X"%char rest) => (16, rest)
  | _ => (10, s)
  end.

(** [parseInt(string)] without a radix argument: the integer the leading
    digits denote; [None] is NaN.  The number the code obtains is the
    double nearest to that integer, which [Math.min(255, _)] and
    [Math.max(0, _)] treat as they treat the integer. *)
Definition parseInt_string (s : string) : option Z :=
  let '(sign, s1) := strip_sign (trim_start s) in
  let '(radix, s2) := strip_hex_prefix s1 in
  option_map (Z.mul sign) (read_digits radix s2 None).

(** ** Number::toString *)

Definition digit_char (d : Z) : ascii := ascii_of_nat (Z.to_nat (48 + d)).

Fixpoint decimal_digits (fuel : nat) (n : Z) (rest : string) : string :=
  match fuel with
  | O => rest
  | S fuel' =>
      if n <? 10 then String (digit_char n) rest
      else decimal_digits fuel' (n / 10) (String (digit_char (n mod 10)) rest)
  end.

(** The decimal digits of an integer [n >= 0]. *)
Definition decimal (n : Z) : string :=
  decimal_digits (S (Z.to_nat (Z.log2 n))) n EmptyString.

Fixpoint zeros (n : nat) : string :=
  match n with
  | O => EmptyString
  | S n' => String "0"%char (zeros n')
  end.

(** The integer nearest to [num / den], ties to even ([den > 0]). *)
Definition round_half_even (num den : Z) : Z :=
  let q := num / den in
  let r := num mod den in
  if 2 * r <? den then q
  else if den <? 2 * r then q + 1
  else if Z.even q then q else q + 1.

(** The fraction [num / den] times [base ^ e], for [e] of either sign. *)
Definition scale (base : Z) (num den e : Z) : Z * Z :=
  if 0 <=? e then (num * base ^ e, den) else (num, den * base ^ (- e)).

(** Whether [base ^ e <= num / den]. *)
Definition pow_le (base e num den : Z) : bool :=
  let '(n, d) := scale base num den (- e) in d <=? n.

(** The largest [l] with [2 ^ l <= num / den], for [num, den > 0]. *)
Definition floor_log2 (num den : Z) : Z :=
  let l := Z.log2 num - Z.log2 den in
  if pow_le 2 l num den then l else l - 1.

(** The largest [l] with [10 ^ l <= num / den], for [num, den > 0]: the
    estimate from the binary logarithm is off by at most one. *)
Definition floor_log10 (num den : Z) : Z :=
  let est := floor_log2 num den * 1233 / 4096 in
  if pow_le 10 (est + 1) num den then est + 1
  else if pow_le 10 est num den then est
  else est - 1.

(** A finite double [mantissa * 2 ^ exponent >= 0] in canonical form (the
    mantissa below 2^53, and at least 2^52 unless the exponent is -1074),
    or the overflow to Infinity. *)
Inductive Double : Type :=
| Finite (mantissa exponent : Z)
| Overflow.

(** The Number value of the real [num / den > 0]: the nearest double, ties
    to the even mantissa. *)
Definition to_double (num den : Z) : Double :=
  let e := Z.max (floor_log2 num den - 52) (-1074) in
  let '(n, d) := scale 2 num den (- e) in
  let m := round_half_even n d in
  let '(m, e) := if m =? 2 ^ 53 then (2 ^ 52, e + 1) else (m, e) in
  if 971 <? e then Overflow else Finite m e.

Definition Double_eqb (x y : Double) : bool :=
  match x, y with
  | Finite m e, Finite m' e' => (m =? m') && (e =? e')
  | Overflow, Overflow => true
  | _, _ => false
  end.

(** The integers [s] and [n] of Number::toString for the double
    [m * 2 ^ e > 0], where [10 ^ (n0 - 1) <= m * 2 ^ e < 10 ^ n0]: [s] has
    [k] digits, [s * 10 ^ (n - k)] has this double as its Number value, and
    [k] is as small as possible.  For each [k] in turn the two [k]-digit
    decimals next to the value, [f * 10 ^ (n0 - k)] and
    [(f + 1) * 10 ^ (n0 - k)], are tried; of two that qualify the closer
    one is taken, the even one on a tie.  Seventeen digits always
    suffice. *)
Fixpoint shortest (fuel : nat) (k : Z) (m e : Z) (n0 : Z) : Z * Z :=
  let '(vn, vd) := scale 2 m 1 e in
  let '(fnum, fden) := scale 10 vn vd (k - n0) in
  let f := fnum / fden in
  let valid s :=
    let '(cn, cd) := scale 10 s 1 (n0 - k) in
    Double_eqb (to_double cn cd) (Finite m e) in
  let upper_closer :=
    let '(sum, den) := scale 10 (2 * f + 1) 1 (n0 - k) in
    match Z.compare (sum * vd) (2 * vn * den) with
    | Lt => true
    | Eq => Z.odd f
    | Gt => false
    end in
  let nearest := if upper_closer then f + 1 else f in
  let pick s := if s =? 10 ^ k then (10 ^ (k - 1), n0 + 1) else (s, n0) in
  match valid f, valid (f + 1) with
  | true, true => pick nearest
  | true, false => pick f
  | false, true => pick (f + 1)
  | false, false =>
      match fuel with
      | O => pick nearest
      | S fuel' => shortest fuel' (k + 1) m e n0
      end
  end.

(** Number::toString of the double [m * 2 ^ e > 0]: decimal notation when
    [-5 <= n <= 21], exponent notation otherwise. *)
Definition finite_toString (m e : Z) : string :=
  let '(vn, vd) := scale 2 m 1 e in
  let n0 := floor_log10 vn vd + 1 in
  let '(s, n) := shortest 16 1 m e n0 in
  let digits := decimal s in
  let k := Z.of_nat (String.length digits) in
  if (-5 <=? n) && (n <=? 21) then
    if k <=? n then (digits ++ zeros (Z.to_nat (n - k)))%string
    else if 0 <? n then
      (String.substring 0 (Z.to_nat n) digits ++ "."
       ++ String.substring (Z.to_nat n) (Z.to_nat (k - n)) digits)%string
    else ("0." ++ zeros (Z.to_nat (- n)) ++ digits)%string
  else
    let sign := if 0 <=? n - 1 then "+"%string else "-"%string in
    let exponent := (sign ++ decimal (Z.abs (n - 1)))%string in
    match digits with
    | String d EmptyString => (digits ++ "e" ++ exponent)%string
    | String d rest => (String d ("." ++ rest) ++ "e" ++ exponent)%string
    | EmptyString => digits
    end.

(** The string form of the number written [mantissa e exponent].  An
    integer of magnitude up to 2^53 is a double, and its shortest digits
    are its own. *)
Definition Number_toString (mantissa exponent : Z) : string :=
  if mantissa =? 0 then "0"%string
  else
    let sign := if mantissa <? 0 then "-"%string else ""%string in
    if (exponent =? 0) && (Z.abs mantissa <=? 2 ^ 53)
    then (sign ++ decimal (Z.abs mantissa))%string
    else
      let '(num, den) := scale 10 (Z.abs mantissa) 1 exponent in
      match to_double num den with
      | Overflow => (sign ++ "Infinity")%string
      | Finite m e =>
          if m =? 0 then "0"%string else (sign ++ finite_toString m e)%string
      end.

(** The string form of an integer by the general route, for comparison
    with its decimal digits. *)
Definition integer_toString (z : Z) : string :=
  match to_double z 1 with
  | Overflow => "Infinity"%string
  | Finite m e => finite_toString m e
  end.

(** ToString. *)
Definition ToString (v : Value) : string :=
  match v with
  | JSUndefined => "undefined"%string
  | JSNull => "null"%string
  | JSBool b => if b then "true"%string else "false"%string
  | JSNaN => "NaN"%string
  | JSInfinity negative => if negative then "-Infinity"%string else "Infinity"%string
  | JSInt z => Number_toString z 0
  | JSDecimal m e => Number_toString m e
  | JSString s => s
  end.

(** [parseInt(v)]: the argument is converted to a string first. *)
Definition parseInt (v : Value) : option Z := parseInt_string (ToString v).

(** [x || 0] on a number: NaN and 0 are falsy. *)
Definition or_zero (x : option Z) : Z :=
  match x with
  | Some z => z
  | None => 0
  end.

(** [new Uint8Array(array)] on an array of integers: each element is
    reduced modulo 2^8. *)
Definition Uint8Array (a : list Z) : list Z :=
  map (fun z => z mod 256) a.

Definition is_byte (z : Z) : Prop := 0 <= z <= 255.

(** The string with the given bytes. *)
Definition utf8 (bytes : list Z) : string :=
  fold_right (fun b s => String (ascii_of_nat (Z.to_nat b)) s) EmptyString bytes.

(** A string that is empty or starts with a decimal digit. *)
Definition digits_or_empty (s : string) : Prop :=
  s = EmptyString \/ exists d s', s = String (digit_char d) s' /\ 0 <= d < 10.

(** U+00A0 (no-break space) and U+3000 (ideographic space). *)
Definition nbsp : string := utf8 [0xC2; 0xA0].
Definition ideographic_space : string := utf8 [0xE3; 0x80; 0x80].

End JS.

(* ================================================================== *)
(** * Command tables *)
(* ================================================================== *)

Inductive Protocol : Type := ELK_BLEDOM | GENERIC.

(** [this.COMMANDS] of [BLEController]. *)
Module COMMANDS.

Definition POWER_ON (p : Protocol) : list Z :=
  match p with
  | ELK_BLEDOM => [0x7e; 0x04; 0x04; 0x01; 0xff; 0xff; 0xff; 0x00; 0xef]
  | GENERIC => [0x7e; 0x00; 0x04; 0xf0; 0x00; 0x01; 0xff; 0x00; 0xef]
  end.

Definition POWER_OFF (p : Protocol) : list Z :=
  match p with
  | ELK_BLEDOM => [0x7e; 0x04; 0x04; 0x00; 0xff; 0xff; 0xff; 0x00; 0xef]
  | GENERIC => [0x7e; 0x00; 0x04; 0x00; 0x00; 0x00; 0xff; 0x00; 0xef]
  end.

Definition COLOR (p : Protocol) (r g b : Z) : list Z :=
  match p with
  | ELK_BLEDOM => [0x7e; 0x07; 0x05; 0x03; r; g; b; 0x00; 0xef]
  | GENERIC =>
      let checksum := Z.land (r + g + b) 0xFF in
      [0x7e; 0x00; 0x05; 0x03; r; g; b; 0x00; checksum; 0xef]
  end.

Definition BRIGHTNESS (p : Protocol) (level : Z) : list Z :=
  match p with
  | ELK_BLEDOM => [0x7e; 0x04; 0x01; level; 0xff; 0xff; 0xff; 0x00; 0xef]
  | GENERIC => [0x7e; 0x00; 0x01; level; 0xff; 0xff; 0xff; 0x00; 0xef]
  end.

Definition EFFECT (p : Protocol) (id : Z) : list Z :=
  match p with
  | ELK_BLEDOM => [0x7e; 0x05; 0x03; id; 0x03; 0xff; 0xff; 0x00; 0xef]
  | GENERIC =>
      let effectId := Z.min 255 (Z.max 0 id) in
      [0x7e; 0x00; 0x03; effectId; 0x03; 0xff; 0xff; 0x00; 0xef]
  end.

End COMMANDS.

(** The five operations of a command table, with their arguments. *)
Inductive Operation : Type :=
| OpPowerOn
| OpPowerOff
| OpColor (r g b : Z)
| OpBrightness (level : Z)
| OpEffect (id : Z).

(** [DEVICE_CONFIG.PROTOCOLS[..].commands] of the device manager; the
    table has no effect entry. *)
Module DEVICE_CONFIG.

Definition on (p : Protocol) : list Z :=
  match p with
  | ELK_BLEDOM => [0x7E; 0x00; 0x04; 0x01; 0x00; 0x00; 0x00; 0xEF]
  | GENERIC => [0x01; 0xFF]
  end.

Definition off (p : Protocol) : list Z :=
  match p with
  | ELK_BLEDOM => [0x7E; 0x00; 0x04; 0x00; 0x00; 0x00; 0x00; 0xEF]
  | GENERIC => [0x01; 0x00]
  end.

Definition color (p : Protocol) (r g b : Z) : list Z :=
  match p with
  | ELK_BLEDOM => [0x7E; 0x00; 0x05; r; g; b; 0x00; 0xEF]
  | GENERIC => [0x02; r; g; b]
  end.

Definition brightness (p : Protocol) (val : Z) : list Z :=
  match p with
  | ELK_BLEDOM => [0x7E; 0x00; 0x0E; val; 0x00; 0x00; 0x00; 0xEF]
  | GENERIC => [0x03; val]
  end.

End DEVICE_CONFIG.

(** The frame [BLEController] hands to [sendCommand] for an operation. *)
Definition controller_frame (p : Protocol) (op : Operation) : list Z :=
  match op with
  | OpPowerOn => COMMANDS.POWER_ON p
  | OpPowerOff => COMMANDS.POWER_OFF p
  | OpColor r g b => COMMANDS.COLOR p r g b
  | OpBrightness level => COMMANDS.BRIGHTNESS p level
  | OpEffect id => COMMANDS.EFFECT p id
  end.

(** The frame [DeviceManager.sendHardwareCommand] builds for an operation;
    ['effect'] is not a command of that table. *)
Definition manager_frame (p : Protocol) (op : Operation) : option (list Z) :=
  match op with
  | OpPowerOn => Some (DEVICE_CONFIG.on p)
  | OpPowerOff => Some (DEVICE_CONFIG.off p)
  | OpColor r g b => Some (DEVICE_CONFIG.color p r g b)
  | OpBrightness val => Some (DEVICE_CONFIG.brightness p val)
  | OpEffect _ => None
  end.

(** Start and end sentinel of a frame. *)
Definition START : Z := 0x7E.
Definition END_ : Z := 0xEF.

Definition framed (f : list Z) : Prop :=
  (8 <= length f <= 10)%nat /\ hd_error f = Some START /\ last f 0 = END_.

(** The channel validation of [setColorRGB]:
    [Math.max(0, Math.min(255, parseInt(x) || 0))]. *)
Definition validate_channel (x : JS.Value) : Z :=
  Z.max 0 (Z.min 255 (JS.or_zero (JS.parseInt x))).

(** The command [setColorRGB(r, g, b)] builds before sending it. *)
Definition setColorRGB_command (p : Protocol) (r g b : JS.Value) : list Z :=
  COMMANDS.COLOR p (validate_channel r) (validate_channel g) (validate_channel b).

(** The bytes of a color frame outside the three channel positions. *)
Definition non_channel_bytes (frame : list Z) : list Z :=
  firstn 4 frame ++ skipn 7 frame.


(* ================================================================== *)
(** * The BLE controller: session state, platform and effects *)
(* ================================================================== *)

Module BLE.

(** Platform objects (GATT server, service, characteristic) are opaque. *)
Definition Handle : Type := nat.

(** A [BluetoothDevice]; its [gatt] attribute is nullable. *)
Record Device : Type := mkDevice {
  dev_name : string;
  dev_id : string;
  dev_gatt : bool
}.

(** The fields of a [BLEController] the modelled methods read or write. *)
Record Controller : Type := mkController {
  device : option Device;
  server : option Handle;
  service : option Handle;
  characteristic : option Handle;
  isConnected : bool;
  protocol : option Protocol;
  deviceName : option string;
  deviceId : option string;
  lastCommandTime : Z
}.

(** The state the constructor leaves. *)
Definition new_controller : Controller :=
  mkController None None None None false None None None 0.

Definition SERVICES (p : Protocol) : string :=
  match p with
  | ELK_BLEDOM => "0000fff0-0000-1000-8000-00805f9b34fb"
  | GENERIC => "0000ffe0-0000-1000-8000-00805f9b34fb"
  end.

Definition CHARACTERISTICS (p : Protocol) : string :=
  match p with
  | ELK_BLEDOM => "0000fff3-0000-1000-8000-00805f9b34fb"
  | GENERIC => "0000ffe1-0000-1000-8000-00805f9b34fb"
  end.

(** Minimum spacing between two commands, in milliseconds. *)
Definition commandDelay : Z := 50.

Inductive Error : Type :=
| TypeError
| NetworkError
| Timeout.

(** How the race between [writeValue] and the 5000 ms timer ends. *)
Inductive WriteResult : Type :=
| Written
| Rejected
| TimedOut.

(** The three [setTimeout] waits of [sendCommand]. *)
Inductive SleepReason : Type :=
| FloodProtection
| Acknowledge
| RetryBackoff.

(** One interaction with the platform, with what it answered. *)
Inductive Event : Type :=
| EvDateNow (t : Z)
| EvSleep (why : SleepReason) (ms : Z)
| EvGattConnected (open : bool)
| EvGattConnect (r : option Handle)
| EvGattDisconnect
| EvGetPrimaryService (uuid : string) (r : option Handle)
| EvGetCharacteristic (uuid : string) (r : option Handle)
| EvWriteValue (c : Handle) (data : list Z) (r : WriteResult).

(** The platform's answers.  Each oracle is indexed by the number of
    interactions that took place before the call, so an answer may depend
    on everything that happened so far. *)
Record Platform : Type := mkPlatform {
  date_now : nat -> Z;
  gatt_connected : nat -> bool;
  gatt_connect : nat -> option Handle;
  getPrimaryService : nat -> option Handle;
  getCharacteristic : nat -> option Handle;
  writeValue : nat -> WriteResult
}.

Inductive Outcome (A : Type) : Type :=
| Returned (a : A)
| Thrown (e : Error).
Arguments Returned {A} a.
Arguments Thrown {A} e.

(** A method body: it runs against a platform, starting at interaction
    number [tick], on a controller; it returns or throws, leaves a
    controller (field updates made before a throw persist) and the
    interactions it performed, oldest first. *)
Definition M (A : Type) : Type :=
  Platform -> nat -> Controller -> Outcome A * Controller * list Event.

Definition ret {A} (a : A) : M A :=
  fun _ _ c => (Returned a, c, []).

Definition bind {A B} (m : M A) (f : A -> M B) : M B :=
  fun pf tick c =>
    let '(r, c1, t1) := m pf tick c in
    match r with
    | Returned a =>
        let '(r2, c2, t2) := f a pf (length t1 + tick)%nat c1 in
        (r2, c2, t1 ++ t2)
    | Thrown e => (Thrown e, c1, t1)
    end.

Definition throw {A} (e : Error) : M A :=
  fun _ _ c => (Thrown e, c, []).

(** [try { m } catch (error) { h error }]. *)
Definition try_catch {A} (m : M A) (h : Error -> M A) : M A :=
  fun pf tick c =>
    let '(r, c1, t1) := m pf tick c in
    match r with
    | Returned a => (Returned a, c1, t1)
    | Thrown e =>
        let '(r2, c2, t2) := h e pf (length t1 + tick)%nat c1 in
        (r2, c2, t1 ++ t2)
    end.

Definition gets {A} (f : Controller -> A) : M A :=
  fun _ _ c => (Returned (f c), c, []).

Definition modify (f : Controller -> Controller) : M unit :=
  fun _ _ c => (Returned tt, f c, []).

(** A platform call that answers [a] and is recorded as [ev a]. *)
Definition interact {A} (oracle : Platform -> nat -> A) (ev : A -> Event) : M A :=
  fun pf tick c => let a := oracle pf tick in (Returned a, c, [ev a]).

Declare Scope ble_scope.
Delimit Scope ble_scope with ble.
Notation "x <- m ;; k" := (bind m (fun x => k))
  (at level 100, m at next level, right associativity) : ble_scope.
Notation "m ;;; k" := (bind m (fun _ => k))
  (at level 100, right associativity) : ble_scope.
Local Open Scope ble_scope.

Definition set_server (h : Handle) (c : Controller) : Controller :=
  mkController (device c) (Some h) (service c) (characteristic c)
    (isConnected c) (protocol c) (deviceName c) (deviceId c) (lastCommandTime c).

Definition set_service (h : Handle) (c : Controller) : Controller :=
  mkController (device c) (server c) (Some h) (characteristic c)
    (isConnected c) (protocol c) (deviceName c) (deviceId c) (lastCommandTime c).

Definition set_characteristic (h : Handle) (c : Controller) : Controller :=
  mkController (device c) (server c) (service c) (Some h)
    (isConnected c) (protocol c) (deviceName c) (deviceId c) (lastCommandTime c).

Definition set_isConnected (b : bool) (c : Controller) : Controller :=
  mkController (device c) (server c) (service c) (characteristic c)
    b (protocol c) (deviceName c) (deviceId c) (lastCommandTime c).

Definition set_lastCommandTime (t : Z) (c : Controller) : Controller :=
  mkController (device c) (server c) (service c) (characteristic c)
    (isConnected c) (protocol c) (deviceName c) (deviceId c) t.

(** What [disconnect] assigns: [isConnected = false] and the four handles
    set to [null]. *)
Definition clear_session (c : Controller) : Controller :=
  mkController None None None None
    false (protocol c) (deviceName c) (deviceId c) (lastCommandTime c).

Definition Date_now : M Z := interact date_now EvDateNow.

Definition sleep (why : SleepReason) (ms : Z) : M unit :=
  fun _ _ c => (Returned tt, c, [EvSleep why ms]).

(** [await p] for a platform promise that resolves to a handle or
    rejects. *)
Definition await_handle (oracle : Platform -> nat -> option Handle)
  (ev : option Handle -> Event) : M Handle :=
  r <- interact oracle ev ;;
  match r with
  | Some h => ret h
  | None => throw NetworkError
  end.

(** [this.device.gatt.connected]; reading [gatt] of a missing device, or
    [connected] of a missing [gatt], is a TypeError. *)
Definition device_gatt_connected : M bool :=
  d <- gets device ;;
  match d with
  | Some dv =>
      if dev_gatt dv then interact gatt_connected EvGattConnected
      else throw TypeError
  | None => throw TypeError
  end.

(** [reconnect()].  The result is [true], [false] or, when there is no
    device or no [gatt], [undefined] ([None]). *)
Definition reconnect : M (option bool) :=
  try_catch
    (d <- gets device ;;
     match d with
     | Some dv =>
         if dev_gatt dv then
           srv <- await_handle gatt_connect EvGattConnect ;;
           modify (set_server srv) ;;;
           p <- gets protocol ;;
           match p with
           | Some proto =>
               svc <- await_handle getPrimaryService
                        (EvGetPrimaryService (SERVICES proto)) ;;
               modify (set_service svc) ;;;
               chr <- await_handle getCharacteristic
                        (EvGetCharacteristic (CHARACTERISTICS proto)) ;;
               modify (set_characteristic chr) ;;;
               ret (Some true)
           | None => throw TypeError
           end
         else ret None
     | None => ret None
     end)
    (fun _ => modify (set_isConnected false) ;;; ret (Some false)).

(** [Promise.race([this.characteristic.writeValue(data), timer(5000)])]. *)
Definition write_with_timeout (data : list Z) : M unit :=
  ch <- gets characteristic ;;
  match ch with
  | Some h =>
      r <- interact writeValue (EvWriteValue h data) ;;
      match r with
      | Written => ret tt
      | Rejected => throw NetworkError
      | TimedOut => throw Timeout
      end
  | None => throw TypeError
  end.

(** The [try] block of one iteration of the loop of [sendCommand]; it
    returns [true] or throws. *)
Definition send_attempt (command : list Z) : M bool :=
  now <- Date_now ;;
  last <- gets lastCommandTime ;;
  let timeSinceLastCommand := now - last in
  (if timeSinceLastCommand <? commandDelay
   then sleep FloodProtection (commandDelay - timeSinceLastCommand)
   else ret tt) ;;;
  open <- device_gatt_connected ;;
  (if negb open then (reconnect ;;; ret tt) else ret tt) ;;;
  let data := JS.Uint8Array command in
  write_with_timeout data ;;;
  t <- Date_now ;;
  modify (set_lastCommandTime t) ;;;
  sleep Acknowledge 50 ;;;
  ret true.

(** [for (let attempt = 1; attempt <= retries; attempt++) { try .. catch .. }]
    followed by [return false].  [remaining] counts the iterations left,
    [retries + 1 - attempt]. *)
Fixpoint send_loop (command : list Z) (retries : nat) (remaining : nat)
  (attempt : nat) : M bool :=
  match remaining with
  | O => ret false
  | S remaining' =>
      r <- try_catch (b <- send_attempt command ;; ret (Some b))
             (fun _ => ret None) ;;
      match r with
      | Some b => ret b
      | None =>
          if Nat.eqb attempt retries then ret false
          else
            sleep RetryBackoff (100 * Z.of_nat attempt) ;;;
            send_loop command retries remaining' (S attempt)
      end
  end.

(** [sendCommand(command, retries = 3)]. *)
Definition sendCommand (command : list Z) (retries : nat) : M bool :=
  connected <- gets isConnected ;;
  ch <- gets characteristic ;;
  match negb connected, ch with
  | false, Some _ => send_loop command retries retries 1
  | _, _ => ret false
  end.

(** [setColorRGB(r, g, b)]; indexing [COMMANDS] by a [null] protocol is a
    TypeError. *)
Definition setColorRGB (r g b : JS.Value) : M bool :=
  p <- gets protocol ;;
  match p with
  | Some proto => sendCommand (setColorRGB_command proto r g b) 3
  | None => throw TypeError
  end.

(** [disconnect()]. *)
Definition disconnect : M unit :=
  d <- gets device ;;
  (match d with
   | Some dv =>
       if dev_gatt dv then
         open <- interact gatt_connected EvGattConnected ;;
         if open then (fun _ _ c => (Returned tt, c, [EvGattDisconnect]))
         else ret tt
       else throw TypeError
   | None => ret tt
   end) ;;;
  modify clear_session.

(** The writes of a trace and its retry waits, in order. *)
Inductive Step : Type :=
| Write
| Backoff (ms : Z).

Fixpoint steps (t : list Event) : list Step :=
  match t with
  | [] => []
  | EvWriteValue _ _ _ :: t' => Write :: steps t'
  | EvSleep RetryBackoff ms :: t' => Backoff ms :: steps t'
  | _ :: t' => steps t'
  end.

Definition is_write (e : Event) : bool :=
  match e with
  | EvWriteValue _ _ _ => true
  | _ => false
  end.

Definition write_attempts (t : list Event) : nat :=
  length (filter is_write t).

(** An interaction that, if it is a write, writes [data]. *)
Definition carries (data : list Z) (e : Event) : Prop :=
  match e with
  | EvWriteValue _ d _ => d = data
  | _ => True
  end.

(** A session that holds a resolved characteristic and the device, with
    its GATT server, it was resolved on. *)
Definition Connected_handles (c : Controller) : Prop :=
  (exists h, characteristic c = Some h) /\
  (exists d, device c = Some d /\ dev_gatt d = true).

(** A session in state Connected: it passes the guard of [sendCommand]
    and holds the device it was connected through. *)
Definition Connected (c : Controller) : Prop :=
  isConnected c = true /\ Connected_handles c.

(** The state [disconnect] ends in. *)
Definition Disconnected (c : Controller) : Prop :=
  isConnected c = false /\ device c = None /\ server c = None /\
  service c = None /\ characteristic c = None.

(** A platform on which no write goes through. *)
Definition always_fails (pf : Platform) : Prop :=
  forall k, writeValue pf k <> Written.

(** The writes and retry waits of [remaining] failed iterations that
    start at iteration number [attempt]: a wait of [100 * attempt] ms
    follows every failed write but the last. *)
Fixpoint failed_steps (remaining attempt : nat) : list Step :=
  match remaining with
  | O => []
  | S O => [Write]
  | S remaining' =>
      Write :: Backoff (100 * Z.of_nat attempt) :: failed_steps remaining' (S attempt)
  end.

(** A session connected through characteristic 3 of an ELK-BLEDOM strip. *)
Definition sample_device : Device := mkDevice "ELK-BLEDOM-42"%string "k3Yb0Q=="%string true.

Definition sample_session : Controller :=
  mkController (Some sample_device) (Some 1%nat) (Some 2%nat) (Some 3%nat) true
    (Some ELK_BLEDOM) (Some "ELK-BLEDOM-42"%string) (Some "k3Yb0Q=="%string) 0.

(** A platform whose link is down: [gatt.connected] reads [false],
    [gatt.connect()] rejects and so does every write. *)
Definition link_down : Platform :=
  mkPlatform (fun _ => 1000) (fun _ => false) (fun _ => None)
    (fun _ => None) (fun _ => None) (fun _ => Rejected).

(** A platform whose link is up but whose writes time out. *)
Definition unresponsive : Platform :=
  mkPlatform (fun k => 1000 + 10 * Z.of_nat k) (fun _ => true) (fun _ => Some 7%nat)
    (fun _ => Some 8%nat) (fun _ => Some 9%nat) (fun _ => TimedOut).

End BLE.

(* ================================================================== *)
(** * The device manager: devices, groups and connection history *)
(* ================================================================== *)

Module Registry.

(** A device object, as documented at the head of the device manager. *)
Record DeviceRecord : Type := mkDeviceRecord {
  id : string;
  name : string;
  originalName : string;
  mac : string;
  protocol : string;
  autoConnect : bool;
  group : option string;
  favorite : bool;
  rssi : option Z;
  lastConnected : option Z;
  connectionCount : Z;
  notes : string;
  createdAt : Z;
  updatedAt : Z
}.

(** A group object, as [createGroup] builds it. *)
Record Group : Type := mkGroup {
  g_id : string;
  g_name : string;
  g_description : string;
  g_devices : list string;
  parentGroup : option string;
  subGroups : list string;
  level : Z;
  g_createdAt : Z;
  g_updatedAt : Z
}.

Inductive Action : Type := connected | disconnected | failed.

Record HistoryEntry : Type := mkHistoryEntry {
  h_deviceId : string;
  h_deviceName : string;
  h_action : Action;
  h_timestamp : Z
}.

(** The lists a [DeviceManager] holds.  The copies the methods write to
    [localStorage] are never read back by them and are left out. *)
Record Manager : Type := mkManager {
  devices : list DeviceRecord;
  groups : list Group;
  connectionHistory : list HistoryEntry
}.

Inductive Result (A : Type) : Type :=
| Ok (a : A)
| Throw (message : string).
Arguments Ok {A} a.
Arguments Throw {A} message.

(** Truthiness of a group reference: [null] and the empty string are
    falsy. *)
Definition truthy (g : option string) : bool :=
  match g with
  | Some s => negb (String.eqb s "")
  | None => false
  end.

(** The id a group reference holds; [null] holds none. *)
Definition or_empty (g : option string) : string :=
  match g with
  | Some s => s
  | None => ""
  end.

(** [a === b] on two group references. *)
Definition option_eqb (a b : option string) : bool :=
  match a, b with
  | Some x, Some y => String.eqb x y
  | None, None => true
  | _, _ => false
  end.

Definition has_id (i : string) (d : DeviceRecord) : bool := String.eqb (id d) i.
Definition has_g_id (i : string) (g : Group) : bool := String.eqb (g_id g) i.

(** [this.devices.find(d => d.id === deviceId) || null]. *)
Definition getDeviceById (deviceId : string) (m : Manager) : option DeviceRecord :=
  find (has_id deviceId) (devices m).

(** [this.groups.find(g => g.id === groupId)]. *)
Definition find_group (groupId : string) (m : Manager) : option Group :=
  find (has_g_id groupId) (groups m).

(** [array.findIndex(p)]; [None] stands for -1. *)
Fixpoint findIndex {A} (p : A -> bool) (l : list A) : option nat :=
  match l with
  | [] => None
  | x :: l' =>
      if p x then Some O
      else option_map S (findIndex p l')
  end.

(** Assignment through the reference [find] returned: the first element
    that satisfies [p] is replaced by its update. *)
Fixpoint update_first {A} (p : A -> bool) (f : A -> A) (l : list A) : list A :=
  match l with
  | [] => []
  | x :: l' => if p x then f x :: l' else x :: update_first p f l'
  end.

(** [array.splice(index, 1)]. *)
Fixpoint splice1 {A} (index : nat) (l : list A) : list A :=
  match index, l with
  | _, [] => []
  | O, _ :: l' => l'
  | S i, x :: l' => x :: splice1 i l'
  end.

Definition set_group (g : option string) (d : DeviceRecord) : DeviceRecord :=
  mkDeviceRecord (id d) (name d) (originalName d) (mac d) (protocol d)
    (autoConnect d) g (favorite d) (rssi d) (lastConnected d)
    (connectionCount d) (notes d) (createdAt d) (updatedAt d).

Definition set_updatedAt (t : Z) (d : DeviceRecord) : DeviceRecord :=
  mkDeviceRecord (id d) (name d) (originalName d) (mac d) (protocol d)
    (autoConnect d) (group d) (favorite d) (rssi d) (lastConnected d)
    (connectionCount d) (notes d) (createdAt d) t.

Definition set_g_devices (l : list string) (g : Group) : Group :=
  mkGroup (g_id g) (g_name g) (g_description g) l (parentGroup g)
    (subGroups g) (level g) (g_createdAt g) (g_updatedAt g).

Definition set_g_updatedAt (t : Z) (g : Group) : Group :=
  mkGroup (g_id g) (g_name g) (g_description g) (g_devices g) (parentGroup g)
    (subGroups g) (level g) (g_createdAt g) t.

(** [devices.filter(id => id !== deviceId)]. *)
Definition without (deviceId : string) (l : list string) : list string :=
  filter (fun i => negb (String.eqb i deviceId)) l.

(** [devices.includes(deviceId)]. *)
Definition includes (deviceId : string) (l : list string) : bool :=
  existsb (String.eqb deviceId) l.

(** [if (!group.devices.includes(deviceId)) group.devices.push(deviceId)]. *)
Definition push_member (deviceId : string) (g : Group) : Group :=
  if includes deviceId (g_devices g) then g
  else set_g_devices (g_devices g ++ [deviceId]) g.

(** [addDeviceToGroup(deviceId, groupId)]; [tg] and [td] are the two
    readings of [Date.now()]. *)
Definition addDeviceToGroup (deviceId groupId : string) (tg td : Z)
  (m : Manager) : Result Manager :=
  match getDeviceById deviceId m with
  | None => Throw "Gerät nicht gefunden"
  | Some device =>
      match find_group groupId m with
      | None => Throw "Gruppe nicht gefunden"
      | Some _ =>
          let groups1 :=
            if truthy (group device) then
              match group device with
              | Some old =>
                  update_first (has_g_id old)
                    (fun g => set_g_devices (without deviceId (g_devices g)) g)
                    (groups m)
              | None => groups m
              end
            else groups m in
          let groups2 :=
            update_first (has_g_id groupId)
              (fun g => set_g_updatedAt tg (push_member deviceId g)) groups1 in
          let devices1 :=
            update_first (has_id deviceId)
              (fun d => set_updatedAt td (set_group (Some groupId) d))
              (devices m) in
          Ok (mkManager devices1 groups2 (connectionHistory m))
      end
  end.

(** [deleteGroup(groupId)]. *)
Definition deleteGroup (groupId : string) (m : Manager) : Result Manager :=
  match findIndex (has_g_id groupId) (groups m) with
  | None => Throw "Gruppe nicht gefunden"
  | Some index =>
      let devices1 :=
        map (fun d =>
               match group d with
               | Some g => if String.eqb g groupId then set_group None d else d
               | None => d
               end) (devices m) in
      Ok (mkManager devices1 (splice1 index (groups m)) (connectionHistory m))
  end.

(** [addToHistory(device, action)]; [now] is the reading of [Date.now()]. *)
Definition addToHistory (device : DeviceRecord) (action : Action) (now : Z)
  (m : Manager) : Manager :=
  let entry := mkHistoryEntry (id device) (name device) action now in
  let unshifted := entry :: connectionHistory m in
  let kept :=
    if (100 <? length unshifted)%nat then firstn 100 unshifted
    else unshifted in
  mkManager (devices m) (groups m) kept.

(** One call of [addToHistory] with its arguments and clock reading. *)
Record HistoryCall : Type := mkHistoryCall {
  call_device : DeviceRecord;
  call_action : Action;
  call_now : Z
}.

Definition entry_of (c : HistoryCall) : HistoryEntry :=
  mkHistoryEntry (id (call_device c)) (name (call_device c))
    (call_action c) (call_now c).

(** A sequence of [addToHistory] calls, first call first. *)
Definition addToHistory_all (calls : list HistoryCall) (m : Manager) : Manager :=
  fold_left (fun acc c => addToHistory (call_device c) (call_action c) (call_now c) acc)
    calls m.

(** A small registry: one strip and three nested groups,
    living room > lamp > bulb, the strip being a member of the lamp
    group. *)
Definition strip : DeviceRecord :=
  mkDeviceRecord "k3Yb0Q==" "Strip" "ELK-BLEDOM-42" "k3Yb0Q==" "ELK_BLEDOM"
    false (Some "device_2_lamp"%string) false None None 0 "" 1000 1000.

Definition living_room : Group :=
  mkGroup "device_1_living" "Living Room" "" [] None ["device_2_lamp"%string] 0 1000 1000.

Definition lamp : Group :=
  mkGroup "device_2_lamp" "Lamp" "" ["k3Yb0Q=="%string] (Some "device_1_living"%string)
    ["device_3_bulb"%string] 1 1001 1001.

Definition bulb : Group :=
  mkGroup "device_3_bulb" "Bulb" "" [] (Some "device_2_lamp"%string) [] 2 1002 1002.

Definition sample_manager : Manager :=
  mkManager [strip] [living_room; lamp; bulb] [].

(** 150 calls of [addToHistory], the k-th at clock reading k. *)
Definition calls150 : list HistoryCall :=
  map (fun k => mkHistoryCall strip connected (Z.of_nat k)) (seq 1 150).

End Registry.

(* ================================================================== *)
(** * The BLE controller: the remaining commands and helpers *)
(* ================================================================== *)

Module BLEOps.

Import BLE.
Local Open Scope ble_scope.

(** [setPower(state)]: the table entry is picked by the truthiness of
    [state]; indexing [COMMANDS] by a [null] protocol is a TypeError. *)
Definition setPower (state : bool) : M bool :=
  p <- gets protocol ;;
  match p with
  | Some proto =>
      sendCommand (if state then COMMANDS.POWER_ON proto
                   else COMMANDS.POWER_OFF proto) 3
  | None => throw TypeError
  end.

(** The validation of [setEffect]:
    [Math.max(0, Math.min(255, parseInt(effectId) || 0))]. *)
Definition validate_effect (effectId : JS.Value) : Z :=
  Z.max 0 (Z.min 255 (JS.or_zero (JS.parseInt effectId))).

(** [setEffect(effectId)]. *)
Definition setEffect (effectId : JS.Value) : M bool :=
  p <- gets protocol ;;
  match p with
  | Some proto => sendCommand (COMMANDS.EFFECT proto (validate_effect effectId)) 3
  | None => throw TypeError
  end.

(** [parseInt(string, 16)]: with radix 16 an optional [0x] prefix is
    skipped and the digits are read in base 16; [None] is NaN. *)
Definition parseInt16 (s : string) : option Z :=
  let '(sign, s1) := JS.strip_sign (JS.trim_start s) in
  let s2 := snd (JS.strip_hex_prefix s1) in
  option_map (Z.mul sign) (JS.read_digits 16 s2 None).

(** A number, or NaN, as an argument value. *)
Definition number (x : option Z) : JS.Value :=
  match x with
  | Some z => JS.JSInt z
  | None => JS.JSNaN
  end.

(** [s.substring(from, to)] for [from <= to]. *)
Definition substring (from to : nat) (s : string) : string :=
  String.substring from (to - from) s.

(** [hexColor.startsWith('#') ? hexColor.substring(1) : hexColor]. *)
Definition strip_hash (hexColor : string) : string :=
  match hexColor with
  | String "#"%char rest => rest
  | _ => hexColor
  end.

(** [setColor(hexColor)] on a string. *)
Definition setColor (hexColor : string) : M bool :=
  let hex := strip_hash hexColor in
  let r := parseInt16 (substring 0 2 hex) in
  let g := parseInt16 (substring 2 4 hex) in
  let b := parseInt16 (substring 4 6 hex) in
  setColorRGB (number r) (number g) (number b).

(** The digit of [n] in [0, 15], as [toString(16)] prints it. *)
Definition hex_digit (n : Z) : ascii :=
  ascii_of_nat (Z.to_nat (if n <? 10 then 48 + n else 87 + n)).

(** The digits of [n > 0] before [acc], most significant first. *)
Fixpoint hex_digits (fuel : nat) (n : Z) (acc : string) : string :=
  match fuel with
  | O => acc
  | S fuel' =>
      if n =? 0 then acc
      else hex_digits fuel' (n / 16) (String (hex_digit (n mod 16)) acc)
  end.

(** [n.toString(16)] for an integer [n >= 0]. *)
Definition toString16 (n : Z) : string :=
  if n =? 0 then "0"%string else hex_digits (S (Z.to_nat n)) n EmptyString.

(** [s.padStart(2, '0')]. *)
Definition padStart2 (s : string) : string :=
  match s with
  | EmptyString => "00"%string
  | String c EmptyString => String "0"%char s
  | _ => s
  end.

(** [rgbToHex(r, g, b)]. *)
Definition rgbToHex (r g b : JS.Value) : string :=
  let hex x := padStart2 (toString16 (validate_channel x)) in
  ("#" ++ hex r ++ hex g ++ hex b)%string.

(** The class [[a-f\d]] under the [i] flag. *)
Definition is_hex_char (c : ascii) : bool :=
  let n := Z.of_nat (nat_of_ascii c) in
  ((48 <=? n) && (n <=? 57)) || ((97 <=? n) && (n <=? 102))
  || ((65 <=? n) && (n <=? 70)).

(** [hexToRgb(hex)]: the match of
    [/^#?([a-f\d]{2})([a-f\d]{2})([a-f\d]{2})$/i], each group read by
    [parseInt(.., 16)]; [None] is [null]. *)
Definition hexToRgb (hex : string) : option (option Z * option Z * option Z) :=
  match strip_hash hex with
  | String c1 (String c2 (String c3 (String c4 (String c5 (String c6 EmptyString))))) =>
      if forallb is_hex_char [c1; c2; c3; c4; c5; c6]
      then Some (parseInt16 (String c1 (String c2 EmptyString)),
                 parseInt16 (String c3 (String c4 EmptyString)),
                 parseInt16 (String c5 (String c6 EmptyString)))
      else None
  | _ => None
  end.

(** An entry of [getConnectedDevices()]. *)
Record ConnectedDevice : Type := mkConnectedDevice {
  cd_name : option string;
  cd_mac : option string;
  cd_id : option string;
  cd_protocol : option Protocol
}.

(** [getConnectedDevices()]. *)
Definition getConnectedDevices (c : Controller) : list ConnectedDevice :=
  match isConnected c, device c with
  | true, Some _ =>
      [mkConnectedDevice (deviceName c) (deviceId c) (deviceId c) (protocol c)]
  | _, _ => []
  end.

(** [getConnectionStatus()]: the flag and, if a device is held, its name,
    id and protocol. *)
Definition getConnectionStatus (c : Controller)
  : bool * option (option string * option string * option Protocol) :=
  (isConnected c,
   match device c with
   | Some _ => Some (deviceName c, deviceId c, protocol c)
   | None => None
   end).

(** The outcome of the writes of a trace, in order. *)
Fixpoint write_results (t : list Event) : list WriteResult :=
  match t with
  | [] => []
  | EvWriteValue _ _ r :: t' => r :: write_results t'
  | _ :: t' => write_results t'
  end.

(** The outcome of [sendCommand] against the results of the writes it
    made, in order: at most [budget] writes, all failed ones first, and
    [true] exactly when one more write went through and ended the call. *)
Definition budget_outcome (budget : nat) (r : Outcome bool) (ws : list WriteResult)
  : Prop :=
  exists fails,
    Forall (fun w => w <> Written) fails
    /\ (length ws <= budget)%nat
    /\ ((r = Returned false /\ ws = fails)
        \/ (r = Returned true /\ ws = fails ++ [Written])).

(** A platform whose link is open and whose writes go through. *)
Definition responsive (pf : Platform) : Prop :=
  (forall k, gatt_connected pf k = true) /\ (forall k, writeValue pf k = Written).

(** A responsive platform: the clock reads 1030 and then advances. *)
Definition healthy : Platform :=
  mkPlatform (fun k => 1030 + Z.of_nat k) (fun _ => true) (fun _ => Some 7%nat)
    (fun _ => Some 8%nat) (fun _ => Some 9%nat) (fun _ => Written).

(** The sample session, its last command sent at clock reading 1000. *)
Definition recent_session : Controller := set_lastCommandTime 1000 sample_session.

(** The check that the two hex digits printed for [n] read back as [n]. *)
Definition hex_pair_ok (n : Z) : bool :=
  match padStart2 (toString16 n) with
  | String c1 (String c2 EmptyString) =>
      is_hex_char c1 && is_hex_char c2
      && match parseInt16 (String c1 (String c2 EmptyString)) with
         | Some z => z =? n
         | None => false
         end
  | _ => false
  end.

End BLEOps.

(* ================================================================== *)
(** * The BLE controller in the browser: scan, connect and recovery *)
(* ================================================================== *)

Module Host.

Import BLE.

(** What a method of this layer throws. *)
Inductive HostError : Type :=
| Raised (e : Error)
| BluetoothUnavailable
| RequestRejected
| NoDevice.

(** An interaction of this layer: a platform interaction of a modelled
    method, the device picker, the registration of the
    [gattserverdisconnected] listener, or a [setTimeout] wait. *)
Inductive HostEvent : Type :=
| OnPlatform (e : Event)
| EvRequestDevice (r : option Device)
| EvAddEventListener
| EvDelay (ms : Z).

(** The browser: the platform, whether [navigator.bluetooth] exists, and
    what the device picker answers ([None]: the promise rejects, as when
    the user cancels). *)
Record Browser : Type := mkBrowser {
  platform : Platform;
  bluetooth : bool;
  requestDevice : nat -> option Device
}.

Inductive Completion (A : Type) : Type :=
| Done (a : A)
| Failed (e : HostError).
Arguments Done {A} a.
Arguments Failed {A} e.

Definition H (A : Type) : Type :=
  Browser -> nat -> Controller -> Completion A * Controller * list HostEvent.

Definition hret {A} (a : A) : H A :=
  fun _ _ c => (Done a, c, []).

Definition hbind {A B} (m : H A) (f : A -> H B) : H B :=
  fun br tick c =>
    let '(r, c1, t1) := m br tick c in
    match r with
    | Done a =>
        let '(r2, c2, t2) := f a br (length t1 + tick)%nat c1 in
        (r2, c2, t1 ++ t2)
    | Failed e => (Failed e, c1, t1)
    end.

Definition hthrow {A} (e : HostError) : H A :=
  fun _ _ c => (Failed e, c, []).

Definition htry {A} (m : H A) (h : HostError -> H A) : H A :=
  fun br tick c =>
    let '(r, c1, t1) := m br tick c in
    match r with
    | Done a => (Done a, c1, t1)
    | Failed e =>
        let '(r2, c2, t2) := h e br (length t1 + tick)%nat c1 in
        (r2, c2, t1 ++ t2)
    end.

Definition hgets {A} (f : Controller -> A) : H A :=
  fun _ _ c => (Done (f c), c, []).

Definition hmodify (f : Controller -> Controller) : H unit :=
  fun _ _ c => (Done tt, f c, []).

Definition emit (e : HostEvent) : H unit :=
  fun _ _ c => (Done tt, c, [e]).

(** A method of the controller modelled on the platform alone, run in the
    browser. *)
Definition lift {A} (m : M A) : H A :=
  fun br tick c =>
    let '(r, c1, t1) := m (platform br) tick c in
    (match r with
     | Returned a => Done a
     | Thrown e => Failed (Raised e)
     end, c1, map OnPlatform t1).

Declare Scope host_scope.
Delimit Scope host_scope with host.
Notation "x <- m ;; k" := (hbind m (fun x => k))
  (at level 100, m at next level, right associativity) : host_scope.
Notation "m ;;; k" := (hbind m (fun _ => k))
  (at level 100, right associativity) : host_scope.
Local Open Scope host_scope.

Definition set_device (d : Device) (c : Controller) : Controller :=
  mkController (Some d) (server c) (service c) (characteristic c)
    (isConnected c) (protocol c) (deviceName c) (deviceId c) (lastCommandTime c).

(** The four assignments of [connect] after the characteristic is
    resolved. *)
Definition set_connected (p : option Protocol) (d : Device) (c : Controller)
  : Controller :=
  mkController (device c) (server c) (service c) (characteristic c)
    true p (Some (dev_name d)) (Some (dev_id d)) (lastCommandTime c).

(** [SERVICES[protocol] || SERVICES.ELK_BLEDOM]; [None] is a protocol
    value that is no key of the table. *)
Definition service_uuid (p : option Protocol) : string :=
  match p with
  | Some proto => SERVICES proto
  | None => SERVICES ELK_BLEDOM
  end.

Definition characteristic_uuid (p : option Protocol) : string :=
  match p with
  | Some proto => CHARACTERISTICS proto
  | None => CHARACTERISTICS ELK_BLEDOM
  end.

(** [scan(protocol)]. *)
Definition scan : H Device :=
  fun br tick c =>
    if bluetooth br then
      match requestDevice br tick with
      | Some d => (Done d, set_device d c, [EvRequestDevice (Some d)])
      | None => (Failed RequestRejected, c, [EvRequestDevice None])
      end
    else (Failed BluetoothUnavailable, c, []).

(** [await p] for a platform promise resolving to a handle. *)
Definition hawait (oracle : Platform -> nat -> option Handle)
  (ev : option Handle -> Event) : H Handle :=
  lift (await_handle oracle ev).

(** [connect(deviceId, protocol)]; [deviceId] is not used by the body. *)
Definition connect (p : option Protocol) : H bool :=
  htry
    (held <- hgets device ;;
     (match held with
      | Some _ => hret tt
      | None => scan ;;; hret tt
      end) ;;;
     held' <- hgets device ;;
     match held' with
     | None => hthrow NoDevice
     | Some d =>
         if dev_gatt d then
           srv <- hawait gatt_connect EvGattConnect ;;
           hmodify (set_server srv) ;;;
           svc <- hawait getPrimaryService (EvGetPrimaryService (service_uuid p)) ;;
           hmodify (set_service svc) ;;;
           chr <- hawait getCharacteristic
                    (EvGetCharacteristic (characteristic_uuid p)) ;;
           hmodify (set_characteristic chr) ;;;
           hmodify (set_connected p d) ;;;
           emit EvAddEventListener ;;;
           hret true
         else hthrow (Raised TypeError)
     end)
    (fun e => hmodify (set_isConnected false) ;;; hthrow e).

(** One iteration of the loop of [attemptReconnect], after its wait:
    [Some true] leaves the method, [None] goes on. *)
Definition reconnect_attempt : H (option bool) :=
  htry
    (held <- hgets device ;;
     match held with
     | Some d =>
         if dev_gatt d then
           p <- hgets protocol ;;
           connect p ;;;
           hret (Some true)
         else hret None
     | None => hret None
     end)
    (fun _ => hret None).

(** [for (let attempt = 1; attempt <= maxAttempts; attempt++)] of
    [attemptReconnect], with [remaining] iterations left. *)
Fixpoint reconnect_loop (remaining : nat) : H bool :=
  match remaining with
  | O => hret false
  | S remaining' =>
      emit (EvDelay 3000) ;;;
      r <- reconnect_attempt ;;
      match r with
      | Some b => hret b
      | None => reconnect_loop remaining'
      end
  end.

(** [attemptReconnect()]: [maxAttempts = 3], [delay = 3000]. *)
Definition attemptReconnect : H bool := reconnect_loop 3.

(** [runTestSequence()]. *)
Definition runTestSequence : H bool :=
  connected <- hgets isConnected ;;
  if negb connected then hret false
  else
    htry
      (lift (setColorRGB (JS.JSInt 255) (JS.JSInt 0) (JS.JSInt 0)) ;;;
       emit (EvDelay 500) ;;;
       lift (setColorRGB (JS.JSInt 0) (JS.JSInt 255) (JS.JSInt 0)) ;;;
       emit (EvDelay 500) ;;;
       lift (setColorRGB (JS.JSInt 0) (JS.JSInt 0) (JS.JSInt 255)) ;;;
       emit (EvDelay 500) ;;;
       lift (setColorRGB (JS.JSInt 255) (JS.JSInt 255) (JS.JSInt 255)) ;;;
       emit (EvDelay 500) ;;;
       hret true)
      (fun _ => hret false).

(** The calls of [gatt.connect()] in a trace, the picker calls and the
    waits. *)
Definition is_gatt_connect (e : HostEvent) : bool :=
  match e with
  | OnPlatform (EvGattConnect _) => true
  | _ => false
  end.

Definition is_request (e : HostEvent) : bool :=
  match e with
  | EvRequestDevice _ => true
  | _ => false
  end.

Fixpoint delays (t : list HostEvent) : list Z :=
  match t with
  | [] => []
  | EvDelay ms :: t' => ms :: delays t'
  | _ :: t' => delays t'
  end.

(** A browser in which every [gatt.connect()] rejects. *)
Definition unreachable (br : Browser) : Prop :=
  forall k, gatt_connect (platform br) k = None.

(** The number of interactions of a trace that satisfy [f]. *)
Definition counts (f : HostEvent -> bool) (t : list HostEvent) : nat :=
  length (filter f t).

Definition is_listener (e : HostEvent) : bool :=
  match e with
  | EvAddEventListener => true
  | _ => false
  end.

(** A browser whose link is down: every [gatt.connect()] rejects and the
    picker is cancelled. *)
Definition dead_browser : Browser := mkBrowser link_down true (fun _ => None).

End Host.

(* ================================================================== *)
(** * The device manager: the remaining operations *)
(* ================================================================== *)

Module RegistryOps.

Import Registry.

(** [addDevice(device)]. *)
Definition addDevice (device : DeviceRecord) (m : Manager) : bool * Manager :=
  if existsb (has_id (id device)) (devices m) then (false, m)
  else (true, mkManager (devices m ++ [device]) (groups m) (connectionHistory m)).

(** The string without its trailing white space characters: it is cut
    where the rest is white space only. *)
Fixpoint trim_end (s : string) : string :=
  match s with
  | EmptyString => EmptyString
  | String c rest => if JS.blank s then EmptyString else String c (trim_end rest)
  end.

(** [s.trim()]. *)
Definition trim (s : string) : string := trim_end (JS.trim_start s).

Definition set_name (n : string) (d : DeviceRecord) : DeviceRecord :=
  mkDeviceRecord (id d) n (originalName d) (mac d) (protocol d)
    (autoConnect d) (group d) (favorite d) (rssi d) (lastConnected d)
    (connectionCount d) (notes d) (createdAt d) (updatedAt d).

Definition set_protocol (p : string) (d : DeviceRecord) : DeviceRecord :=
  mkDeviceRecord (id d) (name d) (originalName d) (mac d) p
    (autoConnect d) (group d) (favorite d) (rssi d) (lastConnected d)
    (connectionCount d) (notes d) (createdAt d) (updatedAt d).

Definition set_autoConnect (b : bool) (d : DeviceRecord) : DeviceRecord :=
  mkDeviceRecord (id d) (name d) (originalName d) (mac d) (protocol d)
    b (group d) (favorite d) (rssi d) (lastConnected d)
    (connectionCount d) (notes d) (createdAt d) (updatedAt d).

Definition set_favorite (b : bool) (d : DeviceRecord) : DeviceRecord :=
  mkDeviceRecord (id d) (name d) (originalName d) (mac d) (protocol d)
    (autoConnect d) (group d) b (rssi d) (lastConnected d)
    (connectionCount d) (notes d) (createdAt d) (updatedAt d).

(** Assignment to the fields of the device [getDeviceById] returned. *)
Definition update_device (deviceId : string) (f : DeviceRecord -> DeviceRecord)
  (m : Manager) : Manager :=
  mkManager (update_first (has_id deviceId) f (devices m)) (groups m)
    (connectionHistory m).

(** [renameDevice(deviceId, newName)]; [now] is the reading of
    [Date.now()]. *)
Definition renameDevice (deviceId newName : string) (now : Z) (m : Manager)
  : Result Manager :=
  if String.eqb newName "" || String.eqb (trim newName) ""
  then Throw "Name darf nicht leer sein"
  else
    match getDeviceById deviceId m with
    | None => Throw "Gerät nicht gefunden"
    | Some _ =>
        Ok (update_device deviceId
              (fun d => set_updatedAt now (set_name (trim newName) d)) m)
    end.

(** The [id] of an entry of [DEVICE_CONFIG.PROTOCOLS]. *)
Definition protocol_id (p : Protocol) : string :=
  match p with
  | ELK_BLEDOM => "ELK_BLEDOM"
  | GENERIC => "GENERIC"
  end.

Definition PROTOCOLS : list Protocol := [ELK_BLEDOM; GENERIC].

(** [DEVICE_CONFIG.PROTOCOLS.find(p => p.id === protocol)]. *)
Definition find_protocol (protocol : string) : option Protocol :=
  find (fun p => String.eqb (protocol_id p) protocol) PROTOCOLS.

(** [setDeviceProtocol(deviceId, protocol)]. *)
Definition setDeviceProtocol (deviceId protocol : string) (now : Z) (m : Manager)
  : Result Manager :=
  if negb (existsb (String.eqb protocol) (map protocol_id PROTOCOLS))
  then Throw "Ungültiges Protokoll"
  else
    match getDeviceById deviceId m with
    | None => Throw "Gerät nicht gefunden"
    | Some _ =>
        Ok (update_device deviceId
              (fun d => set_updatedAt now (set_protocol protocol d)) m)
    end.

(** [toggleAutoConnect(deviceId)]: the new flag and the registry. *)
Definition toggleAutoConnect (deviceId : string) (now : Z) (m : Manager)
  : Result (bool * Manager) :=
  match getDeviceById deviceId m with
  | None => Throw "Gerät nicht gefunden"
  | Some device =>
      Ok (negb (autoConnect device),
          update_device deviceId
            (fun d => set_updatedAt now (set_autoConnect (negb (autoConnect d)) d)) m)
  end.

(** [toggleFavorite(deviceId)]. *)
Definition toggleFavorite (deviceId : string) (now : Z) (m : Manager)
  : Result (bool * Manager) :=
  match getDeviceById deviceId m with
  | None => Throw "Gerät nicht gefunden"
  | Some device =>
      Ok (negb (favorite device),
          update_device deviceId
            (fun d => set_updatedAt now (set_favorite (negb (favorite d)) d)) m)
  end.

(** [deleteDevice(deviceId)]; [confirmed] is the answer of [confirm()]. *)
Definition deleteDevice (deviceId : string) (confirmed : bool) (m : Manager)
  : Result (bool * Manager) :=
  match findIndex (has_id deviceId) (devices m) with
  | None => Throw "Gerät nicht gefunden"
  | Some index =>
      if confirmed
      then Ok (true, mkManager (splice1 index (devices m)) (groups m)
                       (connectionHistory m))
      else Ok (false, m)
  end.

Definition getFavoriteDevices (m : Manager) : list DeviceRecord :=
  filter favorite (devices m).

Definition getAutoConnectDevices (m : Manager) : list DeviceRecord :=
  filter autoConnect (devices m).

(** [getDevicesByGroup(groupId)]. *)
Definition getDevicesByGroup (groupId : string) (m : Manager) : list DeviceRecord :=
  filter (fun d => option_eqb (group d) (Some groupId)) (devices m).

(** [getSubGroups(groupId)]. *)
Definition getSubGroups (groupId : string) (m : Manager) : list Group :=
  filter (fun g => option_eqb (parentGroup g) (Some groupId)) (groups m).

(** [getMainGroups()]. *)
Definition getMainGroups (m : Manager) : list Group :=
  filter (fun g => negb (truthy (parentGroup g))) (groups m).

(** [getGroupLevel(groupId)], a recursion along the parent references;
    [fuel] bounds its depth and [None] means the bound was reached. *)
Fixpoint getGroupLevel (fuel : nat) (groupId : string) (gs : list Group) : option Z :=
  match fuel with
  | O => None
  | S fuel' =>
      match find (has_g_id groupId) gs with
      | None => Some 0
      | Some g =>
          if truthy (parentGroup g)
          then option_map (fun l => l + 1)
                 (getGroupLevel fuel' (or_empty (parentGroup g)) gs)
          else Some 0
      end
  end.

Definition set_subGroups (l : list string) (g : Group) : Group :=
  mkGroup (g_id g) (g_name g) (g_description g) (g_devices g) (parentGroup g)
    l (level g) (g_createdAt g) (g_updatedAt g).

(** [createGroup(name, description, parentGroupId)].  [newId] is what
    [generateId()] returns; [tc], [tu] and [tp] are the readings of
    [Date.now()] for [createdAt], [updatedAt] and the parent's
    [updatedAt].  The result is [None] when [fuel] does not suffice for
    [getGroupLevel]. *)
Definition createGroup (fuel : nat) (name description : string)
  (parentGroupId : option string) (newId : string) (tc tu tp : Z) (m : Manager)
  : option (Result (Group * Manager)) :=
  if String.eqb name "" || (String.length (trim name) =? 0)%nat
  then Some (Throw "Gruppenname darf nicht leer sein")
  else
    let lvl :=
      if truthy parentGroupId
      then option_map (fun l => l + 1)
             (getGroupLevel fuel (or_empty parentGroupId) (groups m))
      else Some 0 in
    match lvl with
    | None => None
    | Some l =>
        let g := mkGroup newId (trim name) description [] parentGroupId [] l tc tu in
        let groups1 :=
          if truthy parentGroupId
          then update_first (has_g_id (or_empty parentGroupId))
                 (fun p => set_g_updatedAt tp (set_subGroups (subGroups p ++ [newId]) p))
                 (groups m)
          else groups m in
        Some (Ok (g, mkManager (devices m) (groups1 ++ [g]) (connectionHistory m)))
    end.

(** [removeDeviceFromGroup(deviceId)]; [tg] and [td] are the readings of
    [Date.now()]. *)
Definition removeDeviceFromGroup (deviceId : string) (tg td : Z) (m : Manager)
  : bool * Manager :=
  match getDeviceById deviceId m with
  | None => (false, m)
  | Some device =>
      if truthy (group device) then
        let groups1 :=
          update_first (has_g_id (or_empty (group device)))
            (fun g => set_g_updatedAt tg
                        (set_g_devices (without deviceId (g_devices g)) g))
            (groups m) in
        let devices1 :=
          update_first (has_id deviceId)
            (fun d => set_updatedAt td (set_group None d)) (devices m) in
        (true, mkManager devices1 groups1 (connectionHistory m))
      else (false, m)
  end.

(** [array.slice(0, limit)] for an integer [limit]: a negative [limit]
    counts from the end. *)
Definition slice0 {A} (limit : Z) (l : list A) : list A :=
  if limit <? 0 then firstn (Z.to_nat (Z.max 0 (Z.of_nat (length l) + limit))) l
  else firstn (Z.to_nat limit) l.

(** [getHistory(limit = 20)]. *)
Definition getHistory (limit : Z) (m : Manager) : list HistoryEntry :=
  slice0 limit (connectionHistory m).

(** [getDeviceHistory(deviceId, limit = 10)]. *)
Definition getDeviceHistory (deviceId : string) (limit : Z) (m : Manager)
  : list HistoryEntry :=
  slice0 limit (filter (fun e => String.eqb (h_deviceId e) deviceId)
                  (connectionHistory m)).

(** [clearHistory()]. *)
Definition clearHistory (m : Manager) : Manager :=
  mkManager (devices m) (groups m) [].

Inductive RSSILevel : Type := unknown | excellent | good | fair | poor | weak.

(** [getRSSILevel(rssi)] for an integer reading or [null]; [null] and 0
    are falsy. *)
Definition getRSSILevel (rssi : option Z) : RSSILevel :=
  match rssi with
  | None => unknown
  | Some r =>
      if r =? 0 then unknown
      else if -50 <=? r then excellent
      else if -70 <=? r then good
      else if -80 <=? r then fair
      else if -90 <=? r then poor
      else weak
  end.

(** The [data] argument of [sendHardwareCommand]: each property may be
    missing. *)
Record CommandData : Type := mkCommandData {
  data_r : option Z;
  data_g : option Z;
  data_b : option Z;
  data_value : option Z
}.

(** [currentDevice.hardwareConnection]: the characteristic and the
    protocol name stored at connection time. *)
Record HardwareConnection : Type := mkHardwareConnection {
  hw_characteristic : BLE.Handle;
  hw_protocol : string
}.

(** The frame [sendHardwareCommand] builds in its [switch]; [None] when
    [cmd] stays undefined, [Throw] for an unknown command. *)
Definition hardware_frame (p : Protocol) (command : string)
  (data : option CommandData) : Result (option (list Z)) :=
  if String.eqb command "color" then
    match data with
    | Some (mkCommandData (Some r) (Some g) (Some b) _) =>
        Ok (Some (JS.Uint8Array (DEVICE_CONFIG.color p r g b)))
    | _ => Ok None
    end
  else if String.eqb command "brightness" then
    match data with
    | Some (mkCommandData _ _ _ (Some v)) =>
        Ok (Some (JS.Uint8Array (DEVICE_CONFIG.brightness p v)))
    | _ => Ok None
    end
  else if String.eqb command "on" then Ok (Some (JS.Uint8Array (DEVICE_CONFIG.on p)))
  else if String.eqb command "off" then Ok (Some (JS.Uint8Array (DEVICE_CONFIG.off p)))
  else Throw ("Unbekannter Befehl: " ++ command).

(** [sendHardwareCommand(command, data)].  [connection] is
    [currentDevice.hardwareConnection], [None] when there is no current
    device or it has none; [accepted] tells whether [writeValue]
    resolves.  The result comes with the write that was issued, if any. *)
Definition sendHardwareCommand (connection : option HardwareConnection)
  (command : string) (data : option CommandData) (accepted : bool)
  : Result bool * option (BLE.Handle * list Z) :=
  match connection with
  | None => (Throw "Keine Hardware-Verbindung", None)
  | Some hw =>
      match find_protocol (hw_protocol hw) with
      | None => (Throw "Protokoll nicht gefunden", None)
      | Some p =>
          match hardware_frame p command data with
          | Throw msg => (Throw msg, None)
          | Ok None => (Ok false, None)
          | Ok (Some cmd) =>
              (if accepted then Ok true else Throw "NetworkError",
               Some (hw_characteristic hw, cmd))
          end
      end
  end.

(** Every member a group lists is a known device that names this group
    as its own (groups are looked up by a non-empty id). *)
Definition members_consistent (m : Manager) : Prop :=
  forall g G i,
    g <> ""%string ->
    find_group g m = Some G ->
    In i (g_devices G) ->
    exists dev, getDeviceById i m = Some dev /\ group dev = Some g.


(** The registry a fresh [DeviceManager] holds on empty storage. *)
Definition empty_manager : Manager := mkManager [] [] [].

(** Whether a string ends with a white space character. *)
Fixpoint ends_with_white_space (s : string) : bool :=
  match s with
  | EmptyString => false
  | String _ rest => JS.white_space_char s || ends_with_white_space rest
  end.

(** A call of a registry method that keeps every listed member's device,
    with its arguments and the values it reads from the clock and from
    [generateId()]. *)
Inductive Call : Type :=
| CallAddDevice (device : DeviceRecord)
| CallRenameDevice (deviceId newName : string) (now : Z)
| CallSetDeviceProtocol (deviceId protocol : string) (now : Z)
| CallToggleAutoConnect (deviceId : string) (now : Z)
| CallToggleFavorite (deviceId : string) (now : Z)
| CallCreateGroup (fuel : nat) (name description : string)
    (parentGroupId : option string) (newId : string) (tc tu tp : Z)
| CallAddDeviceToGroup (deviceId groupId : string) (tg td : Z)
| CallRemoveDeviceFromGroup (deviceId : string) (tg td : Z)
| CallAddToHistory (device : DeviceRecord) (action : Action) (now : Z)
| CallClearHistory.

(** The registry after a call; a call that throws has changed nothing. *)
Definition after_call (m : Manager) (c : Call) : Manager :=
  match c with
  | CallAddDevice device => snd (addDevice device m)
  | CallRenameDevice deviceId newName now =>
      match renameDevice deviceId newName now m with Ok m' => m' | Throw _ => m end
  | CallSetDeviceProtocol deviceId protocol now =>
      match setDeviceProtocol deviceId protocol now m with Ok m' => m' | Throw _ => m end
  | CallToggleAutoConnect deviceId now =>
      match toggleAutoConnect deviceId now m with Ok (_, m') => m' | Throw _ => m end
  | CallToggleFavorite deviceId now =>
      match toggleFavorite deviceId now m with Ok (_, m') => m' | Throw _ => m end
  | CallCreateGroup fuel name description parentGroupId newId tc tu tp =>
      match createGroup fuel name description parentGroupId newId tc tu tp m with
      | Some (Ok (_, m')) => m'
      | _ => m
      end
  | CallAddDeviceToGroup deviceId groupId tg td =>
      match addDeviceToGroup deviceId groupId tg td m with Ok m' => m' | Throw _ => m end
  | CallRemoveDeviceFromGroup deviceId tg td =>
      snd (removeDeviceFromGroup deviceId tg td m)
  | CallAddToHistory device action now => addToHistory device action now m
  | CallClearHistory => clearHistory m
  end.

Definition after_calls (calls : list Call) (m : Manager) : Manager :=
  fold_left after_call calls m.

(** Order of the signal levels, weakest first; [unknown] is below all. *)
Definition rank (l : RSSILevel) : Z :=
  match l with
  | unknown => -1
  | weak => 0
  | poor => 1
  | fair => 2
  | good => 3
  | excellent => 4
  end.

(** A device as [scanForDevices] records it on first discovery. *)
Definition discovered : DeviceRecord :=
  mkDeviceRecord "k3Yb0Q==" "ELK-BLEDOM-42" "ELK-BLEDOM-42" "k3Yb0Q==" "ELK_BLEDOM"
    false None false None None 0 "" 1000 1000.

(** A session of calls on an empty registry: the device is discovered,
    two nested groups are created, and the device is put into the first
    and then into the second. *)
Definition sample_calls : list Call :=
  [CallAddDevice discovered;
   CallCreateGroup 5 "Living Room" "" None "device_1_living" 1001 1001 1001;
   CallCreateGroup 5 " Lamp " "" (Some "device_1_living"%string) "device_2_lamp"
     1002 1002 1002;
   CallAddDeviceToGroup "k3Yb0Q==" "device_1_living" 1003 1003;
   CallToggleFavorite "k3Yb0Q==" 1004;
   CallAddDeviceToGroup "k3Yb0Q==" "device_2_lamp" 1005 1005].


End RegistryOps.

(* ================================================================== *)
(** * The LED abstraction layer: frames written past [sendCommand] *)
(* ================================================================== *)

Module Layer.

(** [convertColorForLEDType(r, g, b)] for the [colorOrder] in force. *)
Definition convertColorForLEDType (colorOrder : string) (r g b : Z) : Z * Z * Z :=
  if String.eqb colorOrder "GRB" then (g, r, b)
  else if String.eqb colorOrder "BGR" then (b, g, r)
  else if String.eqb colorOrder "BRG" then (b, r, g)
  else if String.eqb colorOrder "GBR" then (g, b, r)
  else if String.eqb colorOrder "RBG" then (r, b, g)
  else (r, g, b).

(** The frame [setPixel(index, r, g, b)] writes, or the range error it
    throws; channels are integers, so [Math.round] keeps them. *)
Definition setPixel_frame (pixelCount index r g b : Z) : option (list Z) :=
  if pixelCount <=? index then None
  else
    Some (JS.Uint8Array
            [0x7E; 0x01;
             Z.land (Z.shiftr index 8) 0xFF; Z.land index 0xFF;
             r; g; b; 0xEF]).

(** The buffer [updateBuffer(pixelData)] fills: a header with the 16-bit
    byte count, three bytes per pixel in the converted order, and the end
    sentinel. *)
Definition pixel_bytes (colorOrder : string) (pixel : Z * Z * Z) : list Z :=
  let '(r, g, b) := pixel in
  let '(cr, cg, cb) := convertColorForLEDType colorOrder r g b in
  [cr mod 256; cg mod 256; cb mod 256].

Definition updateBuffer_cmd (colorOrder : string) (pixelData : list (Z * Z * Z))
  : list Z :=
  let bufferSize := 3 * Z.of_nat (length pixelData) in
  [0x7E; 0x02; Z.land (Z.shiftr bufferSize 8) 0xFF; Z.land bufferSize 0xFF]
  ++ flat_map (pixel_bytes colorOrder) pixelData
  ++ [0xEF].

(** [cmd.slice(from, to)] for [from <= to]. *)
Definition slice {A} (from to : nat) (l : list A) : list A :=
  firstn (to - from) (skipn from l).

(** [for (let i = 0; i < cmd.length; i += 512)]: the chunks written,
    starting at offset [i]; [fuel] bounds the iterations. *)
Fixpoint chunks_from (fuel i : nat) (cmd : list Z) : list (list Z) :=
  match fuel with
  | O => []
  | S fuel' =>
      if (i <? length cmd)%nat
      then slice i (Nat.min (i + 512) (length cmd)) cmd
           :: chunks_from fuel' (i + 512) cmd
      else []
  end.

(** The values [updateBuffer] hands to [writeValue], in order: the whole
    buffer, or its chunks when it is longer than 512 bytes. *)
Definition updateBuffer_writes (colorOrder : string)
  (pixelData : list (Z * Z * Z)) : list (list Z) :=
  let cmd := updateBuffer_cmd colorOrder pixelData in
  if (512 <? length cmd)%nat then chunks_from (length cmd) 0 cmd
  else [cmd].

End Layer.

(* ================================================================== *)
(** * Properties of the command encoder *)
(* ================================================================== *)

Section Encoder.

Import JS.

Lemma Uint8Array_bytes (a : list Z) : Forall is_byte (Uint8Array a).
Proof.
  unfold Uint8Array, is_byte.
  induction a as [|z a IH]; simpl; constructor; auto.
  pose proof (Z.mod_pos_bound z 256 ltac:(lia)). lia.
Qed.

Lemma Uint8Array_id (a : list Z) : Forall is_byte a -> Uint8Array a = a.
Proof.
  unfold Uint8Array, is_byte.
  induction 1 as [|z a Hz _ IH]; simpl; [reflexivity|].
  rewrite IH, Z.mod_small by lia. reflexivity.
Qed.

Lemma land_0xFF (z : Z) : Z.land z 0xFF = z mod 256.
Proof. change 0xFF with (Z.ones 8). rewrite Z.land_ones by lia. reflexivity. Qed.

Lemma validate_channel_byte (x : Value) : is_byte (validate_channel x).
Proof. unfold validate_channel, is_byte. lia. Qed.

Lemma validate_channel_cases (x : Value) :
  validate_channel x =
  match parseInt x with
  | None => 0
  | Some z => if z <? 0 then 0 else if 255 <? z then 255 else z
  end.
Proof.
  unfold validate_channel.
  destruct (parseInt x) as [z|]; simpl; [|reflexivity].
  destruct (Z.ltb_spec z 0); destruct (Z.ltb_spec 255 z); lia.
Qed.

Lemma COLOR_bytes (p : Protocol) (r g b : Z) :
  is_byte r -> is_byte g -> is_byte b -> Forall is_byte (COMMANDS.COLOR p r g b).
Proof.
  intros Hr Hg Hb.
  assert (Hc : is_byte (Z.land (r + g + b) 0xFF)).
  { rewrite land_0xFF. unfold is_byte.
    pose proof (Z.mod_pos_bound (r + g + b) 256 ltac:(lia)). lia. }
  destruct p; simpl; repeat constructor; auto; unfold is_byte; try lia;
    try apply Hr; try apply Hg; try apply Hb; try apply Hc.
Qed.

(** ** The string form of integers *)

Lemma digit_value_digit_char (d : Z) :
  0 <= d < 10 -> digit_value (digit_char d) = Some d.
Proof.
  intros H.
  assert (E : d = 0 \/ d = 1 \/ d = 2 \/ d = 3 \/ d = 4 \/ d = 5 \/ d = 6
              \/ d = 7 \/ d = 8 \/ d = 9) by lia.
  repeat destruct E as [E|E]; subst d; reflexivity.
Qed.

Lemma decimal_digits_S (fuel : nat) (n : Z) (rest : string) :
  decimal_digits (S fuel) n rest
  = if n <? 10 then String (digit_char n) rest
    else decimal_digits fuel (n / 10) (String (digit_char (n mod 10)) rest).
Proof. reflexivity. Qed.

(** Reading the digits of [n] written in front of [rest] gives [n] and
    goes on with [rest]. *)
Lemma read_decimal_digits (fuel : nat) :
  forall n rest,
    0 <= n < 10 ^ Z.of_nat (S fuel) ->
    read_digits 10 (decimal_digits (S fuel) n rest) None
    = read_digits 10 rest (Some n).
Proof.
  induction fuel as [|fuel IH]; intros n rest Hn.
  - change (10 ^ Z.of_nat 1) with 10 in Hn.
    cbn [decimal_digits]. destruct (Z.ltb_spec n 10); [|lia].
    cbn [read_digits]. rewrite digit_value_digit_char by lia.
    destruct (Z.ltb_spec n 10); [reflexivity|lia].
  - rewrite decimal_digits_S. destruct (Z.ltb_spec n 10) as [Hlt|Hge].
    + cbn [read_digits]. rewrite digit_value_digit_char by lia.
      destruct (Z.ltb_spec n 10); [reflexivity|lia].
    + rewrite IH.
      * cbn [read_digits].
        pose proof (Z.mod_pos_bound n 10 ltac:(lia)) as Hm.
        rewrite digit_value_digit_char by lia.
        destruct (Z.ltb_spec (n mod 10) 10); [|lia].
        f_equal. f_equal. pose proof (Z.div_mod n 10 ltac:(lia)). lia.
      * rewrite Nat2Z.inj_succ, Z.pow_succ_r in Hn by lia.
        split; [apply Z.div_pos; lia|].
        apply Z.div_lt_upper_bound; lia.
Qed.

Lemma decimal_fuel (n : Z) : 0 <= n -> n < 10 ^ Z.of_nat (S (Z.to_nat (Z.log2 n))).
Proof.
  intros Hn. rewrite Nat2Z.inj_succ, Z2Nat.id by apply Z.log2_nonneg.
  destruct (Z.eq_dec n 0) as [->|Hz]; [reflexivity|].
  pose proof (Z.log2_spec n ltac:(lia)) as (_ & Hl).
  eapply Z.lt_le_trans; [exact Hl|].
  apply Z.pow_le_mono_l. lia.
Qed.

Lemma decimal_digits_shape (fuel : nat) :
  forall n rest,
    0 <= n ->
    digits_or_empty rest ->
    exists d s,
      decimal_digits (S fuel) n rest = String (digit_char d) s
      /\ 0 <= d < 10 /\ digits_or_empty s.
Proof.
  induction fuel as [|fuel IH]; intros n rest Hn Hrest.
  - cbn [decimal_digits]. destruct (Z.ltb_spec n 10).
    + exists n, rest. split; [reflexivity|]. split; [lia|exact Hrest].
    + pose proof (Z.mod_pos_bound n 10 ltac:(lia)).
      exists (n mod 10), rest. split; [reflexivity|]. split; [lia|exact Hrest].
  - rewrite decimal_digits_S. destruct (Z.ltb_spec n 10).
    + exists n, rest. split; [reflexivity|]. split; [lia|exact Hrest].
    + apply IH; [apply Z.div_pos; lia|].
      right. exists (n mod 10), rest. split; [reflexivity|].
      apply Z.mod_pos_bound. lia.
Qed.

Ltac digit_cases d H :=
  let E := fresh "E" in
  assert (E : d = 0 \/ d = 1 \/ d = 2 \/ d = 3 \/ d = 4 \/ d = 5 \/ d = 6
              \/ d = 7 \/ d = 8 \/ d = 9) by lia;
  clear H; repeat destruct E as [E|E]; subst d.

(** A string of decimal digits is read as it stands: nothing is trimmed,
    there is no sign of its own and no hexadecimal prefix. *)
Lemma parseInt_string_digits (d : Z) (s : string) :
  0 <= d < 10 ->
  digits_or_empty s ->
  parseInt_string (String (digit_char d) s)
  = option_map (Z.mul 1) (read_digits 10 (String (digit_char d) s) None)
  /\ parseInt_string (String "-" (String (digit_char d) s))
     = option_map (Z.mul (-1)) (read_digits 10 (String (digit_char d) s) None).
Proof.
  intros Hd [->|(d2 & s2 & -> & Hd2)].
  - digit_cases d Hd; split; reflexivity.
  - digit_cases d Hd; digit_cases d2 Hd2; destruct s2 as [|c3 r3]; split; reflexivity.
Qed.

(** [parseInt] gives an integer of magnitude up to 2^53 back. *)
Lemma parseInt_JSInt (z : Z) : Z.abs z <= 2 ^ 53 -> parseInt (JSInt z) = Some z.
Proof.
  intros Hz. unfold parseInt, ToString, Number_toString.
  destruct (Z.eqb_spec z 0) as [->|Hnz]; [reflexivity|].
  rewrite Z.eqb_refl. destruct (Z.leb_spec (Z.abs z) (2 ^ 53)); [|lia].
  cbn [andb].
  assert (Ha : 0 <= Z.abs z) by lia.
  unfold decimal.
  destruct (decimal_digits_shape (Z.to_nat (Z.log2 (Z.abs z))) (Z.abs z) EmptyString
              Ha (or_introl eq_refl)) as (d & s & Hshape & Hd & Hs).
  pose proof (read_decimal_digits (Z.to_nat (Z.log2 (Z.abs z))) (Z.abs z) EmptyString
                (conj Ha (decimal_fuel _ Ha))) as Hread.
  rewrite Hshape in *. change (read_digits 10 EmptyString (Some (Z.abs z)))
    with (Some (Z.abs z)) in Hread.
  destruct (parseInt_string_digits d s Hd Hs) as (Hpos & Hneg).
  destruct (Z.ltb_spec z 0).
  - cbn [append]. rewrite Hneg, Hread. cbn [option_map]. f_equal. lia.
  - cbn [append]. rewrite Hpos, Hread. cbn [option_map]. f_equal. lia.
Qed.

Lemma validate_channel_JSInt (z : Z) :
  Z.abs z <= 2 ^ 53 ->
  validate_channel (JSInt z) = if z <? 0 then 0 else if 255 <? z then 255 else z.
Proof.
  intros Hz. rewrite validate_channel_cases, parseInt_JSInt by exact Hz. reflexivity.
Qed.

(** The general route of Number::toString prints the integers below as
    their decimal digits. *)
Example integer_toString_samples :
  forallb (fun z => String.eqb (integer_toString z) (decimal z))
    (map Z.of_nat (seq 1 300)
     ++ [1000; 65535; 1000000; 123456789; 999999999999999; 10 ^ 15 + 1;
         2 ^ 52; 2 ^ 52 + 1; 2 ^ 53 - 1; 2 ^ 53])
  = true.
Proof. vm_compute. reflexivity. Qed.

Example ToString_samples :
  ToString (JSInt 255) = "255"%string
  /\ ToString (JSInt (-7)) = "-7"%string
  /\ ToString (JSDecimal 37 (-1)) = "3.7"%string
  /\ ToString (JSDecimal (-5) (-1)) = "-0.5"%string
  /\ ToString (JSDecimal 30000000000000004 (-17)) = "0.30000000000000004"%string
  /\ ToString (JSDecimal 1 (-6)) = "0.000001"%string
  /\ ToString (JSDecimal 5 (-7)) = "5e-7"%string
  /\ ToString (JSDecimal 5 (-324)) = "5e-324"%string
  /\ ToString (JSInt (2 ^ 53 + 1)) = "9007199254740992"%string
  /\ ToString (JSInt (2 ^ 63)) = "9223372036854776000"%string
  /\ ToString (JSInt (10 ^ 20)) = "100000000000000000000"%string
  /\ ToString (JSDecimal 1 21) = "1e+21"%string
  /\ ToString (JSInt (10 ^ 21)) = "1e+21"%string
  /\ ToString (JSInt (2 ^ 70)) = "1.1805916207174113e+21"%string
  /\ ToString (JSDecimal 1 23) = "1e+23"%string
  /\ ToString (JSDecimal 17976931348623157 292) = "1.7976931348623157e+308"%string
  /\ ToString (JSDecimal 2 308) = "Infinity"%string.
Proof. vm_compute. repeat split. Qed.

Example parseInt_samples :
  parseInt (JSString "12abc") = Some 12
  /\ parseInt (JSString "  -7") = Some (-7)
  /\ parseInt (JSString "0x1F") = Some 31
  /\ parseInt (JSString "abc") = None
  /\ parseInt (JSString "") = None
  /\ parseInt JSUndefined = None
  /\ parseInt (JSString (nbsp ++ "12")) = Some 12
  /\ parseInt (JSString (ideographic_space ++ "12")) = Some 12
  /\ parseInt (JSDecimal 37 (-1)) = Some 3
  /\ parseInt (JSDecimal 5 (-7)) = Some 5
  /\ parseInt (JSDecimal 1 21) = Some 1.
Proof. vm_compute. repeat split. Qed.

Example validate_channel_samples :
  validate_channel (JSInt 300) = 255
  /\ validate_channel (JSInt (-5)) = 0
  /\ validate_channel (JSInt 128) = 128
  /\ validate_channel (JSString "abc") = 0
  /\ validate_channel JSNaN = 0
  /\ validate_channel (JSString "999") = 255
  /\ validate_channel (JSInfinity false) = 0
  /\ validate_channel (JSDecimal 2555 (-1)) = 255
  /\ validate_channel (JSInt (10 ^ 20)) = 255.
Proof. vm_compute. repeat split. Qed.

Example setColorRGB_command_sample :
  setColorRGB_command GENERIC (JSInt 300) (JSString "abc") (JSInt 200)
  = [0x7e; 0x00; 0x05; 0x03; 255; 0; 200; 0x00; 199; 0xef].
Proof. vm_compute. reflexivity. Qed.



(** C5.  The GENERIC color frame carries, between the reserved byte and
    the end sentinel, a checksum byte equal to (r+g+b) mod 256; the
    ELK_BLEDOM color frame consists of constants and the three channels
    only, with no checksum byte. *)
Theorem generic_color_checksum (r g b : Z) :
  COMMANDS.COLOR GENERIC r g b
    = [0x7e; 0x00; 0x05; 0x03; r; g; b; 0x00; (r + g + b) mod 256; 0xef]
  /\ nth 8 (COMMANDS.COLOR GENERIC r g b) 0 = (r + g + b) mod 256
  /\ COMMANDS.COLOR ELK_BLEDOM r g b
    = [0x7e; 0x07; 0x05; 0x03; r; g; b; 0x00; 0xef]
  /\ non_channel_bytes (COMMANDS.COLOR ELK_BLEDOM r g b)
    = [0x7e; 0x07; 0x05; 0x03; 0x00; 0xef]
  /\ non_channel_bytes (COMMANDS.COLOR GENERIC r g b)
    = [0x7e; 0x00; 0x05; 0x03; 0x00; (r + g + b) mod 256; 0xef].
Proof.
  unfold non_channel_bytes; simpl. rewrite land_0xFF. repeat split.
Qed.

Lemma last_map_comm {A B} (f : A -> B) (l : list A) (d : A) :
  last (map f l) (f d) = f (last l d).
Proof.
  induction l as [|x l IH]; [reflexivity|].
  destruct l; [reflexivity|]. exact IH.
Qed.

Lemma framed_Uint8Array (f : list Z) : framed f -> framed (Uint8Array f).
Proof.
  unfold framed, Uint8Array, START, END_. intros (Hlen & Hhd & Hlast).
  rewrite length_map. split; [exact Hlen|].
  destruct f as [|x f]; [discriminate|].
  simpl in Hhd. injection Hhd as ->. split; [reflexivity|].
  etransitivity; [apply (last_map_comm (fun z => z mod 256) (126 :: f) 0)|].
  cbv beta. rewrite Hlast. reflexivity.
Qed.

Lemma controller_frame_framed (p : Protocol) (op : Operation) :
  framed (controller_frame p op).
Proof.
  destruct p, op; unfold framed; simpl; repeat split; lia.
Qed.

(** C6, as the spec states it, fails on the GENERIC table of the device
    manager: its power-on frame is the two bytes 0x01 0xFF. *)
Lemma manager_generic_on_not_framed :
  manager_frame GENERIC OpPowerOn = Some [0x01; 0xFF]
  /\ ~ framed (Uint8Array [0x01; 0xFF]).
Proof.
  split; [reflexivity|].
  unfold framed; simpl. intros (Hlen & _). lia.
Qed.

(** C6, amended.  Every frame of the controller's command table, for both
    protocols and the five operations, is written as 9 or 10 bytes that
    start with 0x7E and end with 0xEF, and so is every ELK_BLEDOM frame of
    the device manager's table (8 bytes); the GENERIC frames of the device
    manager's table are 2 to 4 bytes that start with the opcode 1, 2 or 3
    and carry no sentinel. *)
Theorem outbound_frames_shape (p : Protocol) (op : Operation) :
  framed (Uint8Array (controller_frame p op))
  /\ Forall is_byte (Uint8Array (controller_frame p op))
  /\ (9 <= length (controller_frame p op) <= 10)%nat
  /\ match manager_frame ELK_BLEDOM op with
     | Some f => framed (Uint8Array f) /\ length f = 8%nat
     | None => exists i, op = OpEffect i
     end
  /\ match manager_frame GENERIC op with
     | Some f =>
         (2 <= length f <= 4)%nat
         /\ (exists opcode, hd_error f = Some opcode /\ 1 <= opcode <= 3)
         /\ ~ framed (Uint8Array f)
     | None => exists i, op = OpEffect i
     end.
Proof.
  split; [apply framed_Uint8Array, controller_frame_framed|].
  split; [apply Uint8Array_bytes|].
  split; [destruct p, op; simpl; lia|].
  split.
  - destruct op; simpl; try (split; [apply framed_Uint8Array|reflexivity]);
      try (unfold framed; simpl; repeat split; lia).
    eexists; reflexivity.
  - destruct op; simpl;
      try (split; [lia|]; split; [eexists; split; [reflexivity|lia]|];
           unfold framed; simpl; intros (Hlen & _); lia).
    eexists; reflexivity.
Qed.

End Encoder.

(* ================================================================== *)
(** * Properties of the command transport and the session *)
(* ================================================================== *)

Section Transport.

Import BLE.
Local Open Scope ble_scope.

(** Symbolic execution of a method body, leaving arithmetic folded. *)
Ltac run :=
  cbv beta iota zeta delta [send_attempt Date_now device_gatt_connected reconnect
    write_with_timeout await_handle try_catch bind interact gets modify sleep ret throw
    device server service characteristic isConnected protocol deviceName deviceId lastCommandTime
    set_server set_service set_characteristic set_isConnected set_lastCommandTime
    app length Nat.add negb].

Ltac splits := repeat match goal with |- _ /\ _ => split end.

Lemma steps_app (t1 t2 : list Event) : steps (t1 ++ t2) = steps t1 ++ steps t2.
Proof.
  induction t1 as [|e t1 IH]; [reflexivity|].
  destruct e as [| why | | | | | |]; simpl; try exact IH.
  - destruct why; simpl; try exact IH. now rewrite IH.
  - now rewrite IH.
Qed.

Lemma write_attempts_app (t1 t2 : list Event) :
  write_attempts (t1 ++ t2) = (write_attempts t1 + write_attempts t2)%nat.
Proof. unfold write_attempts. now rewrite filter_app, length_app. Qed.

Lemma send_attempt_fails (pf : Platform) (tick : nat) (c : Controller)
  (command : list Z) :
  always_fails pf -> Connected_handles c ->
  exists e c' t,
    send_attempt command pf tick c = (Thrown e, c', t)
    /\ steps t = [Write]
    /\ write_attempts t = 1%nat
    /\ Connected_handles c'
    /\ lastCommandTime c' = lastCommandTime c.
Proof.
  intros H_fail ((h & Hh) & (d & Hd & Hg)).
  destruct c as [dev srv svc chr conn proto dn di last]; simpl in *.
  subst dev chr.
  run.
  destruct (date_now pf tick - last <? commandDelay); run; rewrite Hg; run.
  all: repeat match goal with
       | H : dev_gatt ?d = true |- context [dev_gatt ?d] => rewrite H; run
       | |- context [gatt_connected ?q ?k] => destruct (gatt_connected q k) eqn:?; run
       | |- context [gatt_connect ?q ?k] => destruct (gatt_connect q k) eqn:?; run
       | |- context [match ?p with Some _ => _ | None => _ end] => is_var p; destruct p; run
       | |- context [getPrimaryService ?q ?k] => destruct (getPrimaryService q k) eqn:?; run
       | |- context [getCharacteristic ?q ?k] => destruct (getCharacteristic q k) eqn:?; run
       | |- context [writeValue ?q ?k] => 
           let E := fresh "E" in destruct (writeValue q k) eqn:E; run; [exfalso; eapply H_fail; exact E| |]
       end.
  all: do 3 eexists; (split; [reflexivity|]); cbn; unfold Connected_handles; cbn; repeat split; eauto.
Qed.


Lemma send_loop_S (command : list Z) (retries k attempt : nat)
  (pf : Platform) (tick : nat) (c : Controller) :
  send_loop command retries (S k) attempt pf tick c =
  let '(r, c1, t1) := send_attempt command pf tick c in
  match r with
  | Returned b => (Returned b, c1, t1)
  | Thrown _ =>
      if Nat.eqb attempt retries then (Returned false, c1, t1)
      else
        let '(r2, c2, t2) :=
          send_loop command retries k (S attempt) pf (S (length t1 + tick)) c1 in
        (r2, c2, t1 ++ EvSleep RetryBackoff (100 * Z.of_nat attempt) :: t2)
  end.
Proof.
  change (send_loop command retries (S k) attempt)
    with (bind (try_catch (bind (send_attempt command) (fun b => ret (Some b)))
                  (fun _ => ret None))
            (fun r => match r with
                      | Some b => ret b
                      | None =>
                          if Nat.eqb attempt retries then ret false
                          else bind (sleep RetryBackoff (100 * Z.of_nat attempt))
                                 (fun _ => send_loop command retries k (S attempt))
                      end)).
  cbv beta iota zeta delta [bind try_catch ret sleep].
  destruct (send_attempt command pf tick c) as [[[b|e] c1] t1].
  - now rewrite !app_nil_r.
  - destruct (Nat.eqb attempt retries).
    + now rewrite !app_nil_r.
    + rewrite !app_nil_r. cbn [length Nat.add app].
      destruct (send_loop command retries k (S attempt) pf (S (length t1 + tick)) c1)
        as [[r2 c2] t2].
      reflexivity.
Qed.

Ltac run' := run; cbv beta iota delta [dev_gatt].

Ltac branch :=
  repeat match goal with
    | |- context [if ?b then _ else _] =>
        lazymatch b with context [if _ then _ else _] => fail | _ => idtac end;
        destruct b; run'
    | |- context [match ?x with Some _ => _ | None => _ end] =>
        lazymatch x with context [match _ with _ => _ end] => fail | _ => idtac end;
        destruct x; run'
    | |- context [match ?x with Written => _ | Rejected => _ | TimedOut => _ end] =>
        lazymatch x with context [match _ with _ => _ end] => fail | _ => idtac end;
        destruct x; run'
    end.

(** Whatever the platform answers, an attempt writes nothing but the
    command it was given, converted to bytes. *)
Lemma send_attempt_carries (command : list Z) (pf : Platform) (tick : nat)
  (c : Controller) :
  Forall (carries (JS.Uint8Array command)) (snd (send_attempt command pf tick c)).
Proof.
  destruct c as [[[dname did [|]]|] srv svc [h|] conn [proto|] dn di last]; run'.
  all: branch.
  all: cbn [snd]; repeat constructor.
Qed.

Lemma send_loop_carries (command : list Z) (pf : Platform) (retries : nat) :
  forall (remaining attempt tick : nat) (c : Controller),
    Forall (carries (JS.Uint8Array command))
      (snd (send_loop command retries remaining attempt pf tick c)).
Proof.
  induction remaining as [|k IH]; intros attempt tick c; [constructor|].
  rewrite send_loop_S.
  pose proof (send_attempt_carries command pf tick c) as H1.
  destruct (send_attempt command pf tick c) as [[[b|e] c1] t1]; cbn [snd] in *;
    [exact H1|].
  destruct (Nat.eqb attempt retries); cbn [snd]; [exact H1|].
  specialize (IH (S attempt) (S (length t1 + tick)) c1).
  destruct (send_loop command retries k (S attempt) pf (S (length t1 + tick)) c1)
    as [[r2 c2] t2]; cbn [snd] in *.
  apply Forall_app. split; [exact H1|]. constructor; [exact I|exact IH].
Qed.

(** Every write [setColorRGB] performs carries the validated color
    command of the active protocol. *)
Lemma setColorRGB_carries (r g b : JS.Value) (pf : Platform) (tick : nat)
  (c : Controller) (p : Protocol) :
  protocol c = Some p ->
  Forall (carries (setColorRGB_command p r g b)) (snd (setColorRGB r g b pf tick c)).
Proof.
  intros Hp.
  assert (Hbytes : JS.Uint8Array (setColorRGB_command p r g b)
                   = setColorRGB_command p r g b).
  { apply Uint8Array_id, COLOR_bytes; apply validate_channel_byte. }
  unfold setColorRGB, sendCommand.
  cbv beta iota zeta delta [bind gets ret throw]. rewrite Hp.
  destruct (isConnected c); cbn [negb snd]; [|constructor].
  destruct (characteristic c); cbn [snd]; [|constructor].
  match goal with
  | |- context [send_loop ?cmd ?n ?k ?a ?q ?tk ?cc] =>
      pose proof (send_loop_carries cmd q n k a tk cc) as H;
      destruct (send_loop cmd n k a q tk cc) as [[r2 c2] t2]
  end.
  rewrite Hbytes in H. cbn [snd app] in *. exact H.
Qed.

Lemma send_loop_fails (pf : Platform) (command : list Z) (retries : nat) :
  always_fails pf ->
  forall (remaining attempt tick : nat) (c : Controller),
    Connected_handles c ->
    (attempt + remaining = S retries)%nat ->
    exists c' t,
      send_loop command retries remaining attempt pf tick c = (Returned false, c', t)
      /\ steps t = failed_steps remaining attempt
      /\ write_attempts t = remaining
      /\ Connected_handles c'
      /\ lastCommandTime c' = lastCommandTime c.
Proof.
  intros Hfail. induction remaining as [|k IH]; intros attempt tick c Hc Hsum.
  - exists c, []. splits; auto.
  - destruct (send_attempt_fails pf tick c command Hfail Hc)
      as (e & c1 & t1 & Hrun & Hsteps & Hwrites & Hc1 & Hlast).
    rewrite send_loop_S, Hrun.
    destruct k as [|k'].
    + replace (Nat.eqb attempt retries) with true
        by (symmetry; apply Nat.eqb_eq; lia).
      exists c1, t1. splits; auto.
    + replace (Nat.eqb attempt retries) with false
        by (symmetry; apply Nat.eqb_neq; lia).
      destruct (IH (S attempt) (S (length t1 + tick)) c1 Hc1 ltac:(lia))
        as (c2 & t2 & Hrun2 & Hsteps2 & Hwrites2 & Hc2 & Hlast2).
      rewrite Hrun2.
      exists c2, (t1 ++ EvSleep RetryBackoff (100 * Z.of_nat attempt) :: t2).
      split; [reflexivity|].
      rewrite steps_app, write_attempts_app, Hsteps, Hwrites.
      change (steps (EvSleep RetryBackoff ?ms :: t2)) with (Backoff ms :: steps t2).
      change (write_attempts (EvSleep RetryBackoff ?ms :: t2)) with (write_attempts t2).
      rewrite Hsteps2, Hwrites2.
      splits; auto. congruence.
Qed.

(** C1.  On a Connected session, when every write fails (rejected or
    timed out), [sendCommand(frame, 3)] returns [false] after exactly
    three write attempts; between consecutive attempts it waits 100 ms
    times the number of the attempt that failed (100 ms, then 200 ms),
    and nothing follows the third failure. *)
Theorem sendCommand_retry_budget (pf : Platform) (tick : nat) (c : Controller)
  (command : list Z) :
  Connected c -> always_fails pf ->
  exists c' t,
    sendCommand command 3 pf tick c = (Returned false, c', t)
    /\ write_attempts t = 3%nat
    /\ steps t = [Write; Backoff 100; Write; Backoff 200; Write].
Proof.
  intros (Hconn & Hc) Hfail.
  destruct (send_loop_fails pf command 3 Hfail 3 1 tick c Hc eq_refl)
    as (c' & t & Hrun & Hsteps & Hwrites & _).
  exists c', t. split; [|split; [exact Hwrites|exact Hsteps]].
  destruct Hc as ((h & Hh) & _).
  unfold sendCommand. cbv beta iota zeta delta [bind gets ret].
  rewrite Hconn, Hh. cbn [negb length Nat.add app].
  rewrite Hrun. reflexivity.
Qed.

Lemma sample_session_Connected : Connected sample_session.
Proof.
  split; [reflexivity|]. split; [exists 3%nat; reflexivity|].
  exists sample_device. split; reflexivity.
Qed.

Lemma sendCommand_retry_budget_witness :
  Connected sample_session
  /\ always_fails unresponsive
  /\ exists c' t,
       sendCommand (COMMANDS.POWER_ON ELK_BLEDOM) 3 unresponsive 0%nat sample_session
       = (Returned false, c', t)
       /\ write_attempts t = 3%nat
       /\ steps t = [Write; Backoff 100; Write; Backoff 200; Write].
Proof.
  split; [exact sample_session_Connected|].
  split; [intros k; simpl; discriminate|].
  apply (sendCommand_retry_budget unresponsive 0%nat sample_session
           (COMMANDS.POWER_ON ELK_BLEDOM)).
  - exact sample_session_Connected.
  - intros k; simpl; discriminate.
Defined.

(** The retry budget for any number of retries: [retries] failed writes,
    separated by waits of 100 ms times the attempt number. *)
Lemma retry_budget_any_retries (pf : Platform) (tick : nat) (c : Controller)
  (command : list Z) (retries : nat) :
  Connected c -> always_fails pf ->
  exists c' t,
    sendCommand command retries pf tick c = (Returned false, c', t)
    /\ write_attempts t = retries
    /\ steps t = failed_steps retries 1.
Proof.
  intros (Hconn & Hc) Hfail.
  destruct (send_loop_fails pf command retries Hfail retries 1 tick c Hc eq_refl)
    as (c' & t & Hrun & Hsteps & Hwrites & _).
  exists c', t. split; [|split; [exact Hwrites|exact Hsteps]].
  destruct Hc as ((h & Hh) & _).
  unfold sendCommand. cbv beta iota zeta delta [bind gets ret].
  rewrite Hconn, Hh. cbn [negb length Nat.add app].
  rewrite Hrun. reflexivity.
Qed.

(** When the liveness check reads a closed link, [reconnect] runs before
    the write; when it fails at [gatt.connect()], the session is marked
    not connected and the same attempt still writes through the
    characteristic it held. *)
Lemma send_attempt_after_failed_reconnect (pf : Platform) (tick : nat)
  (c : Controller) (command : list Z) (h : Handle) (d : Device) :
  characteristic c = Some h -> device c = Some d -> dev_gatt d = true ->
  commandDelay <= date_now pf tick - lastCommandTime c ->
  gatt_connected pf (S tick) = false ->
  gatt_connect pf (S (S tick)) = None ->
  writeValue pf (S (S (S tick))) <> Written ->
  exists e,
    send_attempt command pf tick c =
    (Thrown e, set_isConnected false c,
     [EvDateNow (date_now pf tick); EvGattConnected false; EvGattConnect None;
      EvWriteValue h (JS.Uint8Array command) (writeValue pf (S (S (S tick))))]).
Proof.
  intros Hh Hd Hg Hflood Hlink Hconn Hwrite.
  destruct c as [dev srv svc chr conn proto dn di last]; simpl in *.
  subst dev chr. run.
  replace (date_now pf tick - last <? commandDelay) with false
    by (symmetry; apply Z.ltb_ge; exact Hflood).
  run. rewrite Hg. run. rewrite Hlink. run. rewrite Hg. run. rewrite Hconn. run.
  destruct (writeValue pf (S (S (S tick)))); [congruence| |]; run;
    eexists; reflexivity.
Qed.

(** C2 (defect in the code).  With the link down and [gatt.connect()]
    rejecting, every one of the three attempts of [sendCommand] runs the
    recovery, sees it fail, and then still calls [writeValue] on the stale
    characteristic 3: the result of [reconnect()] is not looked at. *)
Theorem sendCommand_writes_after_failed_reconnect :
  sendCommand (COMMANDS.POWER_ON ELK_BLEDOM) 3 link_down 0%nat sample_session
  = (Returned false, set_isConnected false sample_session,
     [EvDateNow 1000; EvGattConnected false; EvGattConnect None;
      EvWriteValue 3%nat [126; 4; 4; 1; 255; 255; 255; 0; 239] Rejected;
      EvSleep RetryBackoff 100;
      EvDateNow 1000; EvGattConnected false; EvGattConnect None;
      EvWriteValue 3%nat [126; 4; 4; 1; 255; 255; 255; 0; 239] Rejected;
      EvSleep RetryBackoff 200;
      EvDateNow 1000; EvGattConnected false; EvGattConnect None;
      EvWriteValue 3%nat [126; 4; 4; 1; 255; 255; 255; 0; 239] Rejected]).
Proof. vm_compute. reflexivity. Qed.

(** C3.  On a session that is not connected, or has no resolved
    characteristic, [sendCommand] returns [false] without throwing,
    performs no platform call at all (so no write) and leaves every field
    of the controller as it was. *)
Theorem sendCommand_not_connected (pf : Platform) (tick : nat) (c : Controller)
  (command : list Z) (retries : nat) :
  isConnected c = false \/ characteristic c = None ->
  sendCommand command retries pf tick c = (Returned false, c, []).
Proof.
  unfold sendCommand, bind, gets, ret. simpl.
  intros [H | H]; rewrite H; simpl; [reflexivity|].
  destruct (isConnected c); reflexivity.
Qed.

Lemma sendCommand_not_connected_witness :
  (isConnected new_controller = false \/ characteristic new_controller = None)
  /\ sendCommand (COMMANDS.POWER_ON ELK_BLEDOM) 3 link_down 0%nat new_controller
     = (Returned false, new_controller, []).
Proof.
  split; [left; reflexivity|].
  apply sendCommand_not_connected. left; reflexivity.
Defined.

Lemma clear_session_Disconnected (c : Controller) : Disconnected (clear_session c).
Proof. unfold Disconnected; simpl; auto. Qed.

Lemma disconnect_Disconnected (pf : Platform) (tick : nat) (c : Controller) :
  Disconnected c -> disconnect pf tick c = (Returned tt, c, []).
Proof.
  intros (Hconn & Hdev & Hsrv & Hsvc & Hchr).
  destruct c as [dev srv svc chr conn proto dn di last]; simpl in *.
  subst. reflexivity.
Qed.

Lemma disconnect_runs (pf : Platform) (tick : nat) (c : Controller) :
  (forall d, device c = Some d -> dev_gatt d = true) ->
  exists t1, disconnect pf tick c = (Returned tt, clear_session c, t1).
Proof.
  intros Hgatt. unfold disconnect.
  cbv beta iota zeta delta [bind gets modify interact ret throw].
  destruct (device c) as [dv|].
  - rewrite (Hgatt dv eq_refl). cbn.
    destruct (gatt_connected pf tick); cbn; eexists; reflexivity.
  - cbn. eexists; reflexivity.
Qed.

(** C9.  [disconnect()] on a session whose device, if it holds one,
    exposes its GATT server returns without throwing and leaves the
    terminal state ([isConnected] false; device, server, service and
    characteristic cleared).  Calling [disconnect()] again, whatever the
    platform answers, returns without throwing, touches no platform object
    and leaves exactly that state; the same holds for a call on any
    session that is already in the terminal state. *)
Theorem disconnect_idempotent (pf : Platform) (tick : nat) (c : Controller) :
  (forall d, device c = Some d -> dev_gatt d = true) ->
  exists t1,
    disconnect pf tick c = (Returned tt, clear_session c, t1)
    /\ Disconnected (clear_session c)
    /\ (forall pf' tick',
          disconnect pf' tick' (clear_session c) = (Returned tt, clear_session c, []))
    /\ (forall c0 pf' tick',
          Disconnected c0 -> disconnect pf' tick' c0 = (Returned tt, c0, [])).
Proof.
  intros Hgatt. destruct (disconnect_runs pf tick c Hgatt) as (t1 & Hrun).
  exists t1. split; [exact Hrun|].
  split; [apply clear_session_Disconnected|].
  split.
  - intros. apply disconnect_Disconnected, clear_session_Disconnected.
  - intros. now apply disconnect_Disconnected.
Qed.

Lemma disconnect_idempotent_witness :
  (forall d, device sample_session = Some d -> dev_gatt d = true)
  /\ exists t1,
       disconnect unresponsive 0%nat sample_session
       = (Returned tt, clear_session sample_session, t1)
       /\ Disconnected (clear_session sample_session)
       /\ disconnect link_down 5%nat (clear_session sample_session)
          = (Returned tt, clear_session sample_session, []).
Proof.
  assert (Hgatt : forall d, device sample_session = Some d -> dev_gatt d = true)
    by (intros d [= <-]; reflexivity).
  split; [exact Hgatt|].
  destruct (disconnect_idempotent unresponsive 0%nat sample_session Hgatt)
    as (t1 & Hrun & Hd & Hagain & _).
  exists t1. split; [exact Hrun|]. split; [exact Hd|]. apply Hagain.
Defined.

End Transport.

(* ================================================================== *)
(** * Properties of the device registry *)
(* ================================================================== *)

Section RegistryProperties.

Import Registry.

(** ** Lookup after an update through a reference *)

Lemma find_group_update_first (i j : string) (f : Group -> Group) (l : list Group) :
  (forall x, g_id (f x) = g_id x) ->
  find (has_g_id i) (update_first (has_g_id j) f l)
  = if String.eqb i j then option_map f (find (has_g_id i) l)
    else find (has_g_id i) l.
Proof.
  intros Hid. unfold has_g_id.
  induction l as [|x l IH]; simpl.
  - destruct (String.eqb i j); reflexivity.
  - destruct (String.eqb_spec (g_id x) j) as [Hxj|Hxj]; simpl.
    + rewrite Hid. subst j.
      destruct (String.eqb_spec (g_id x) i) as [Hxi|Hxi].
      * subst i. rewrite String.eqb_refl. reflexivity.
      * destruct (String.eqb_spec i (g_id x)); [congruence|reflexivity].
    + destruct (String.eqb_spec (g_id x) i) as [Hxi|Hxi].
      * subst i. destruct (String.eqb_spec (g_id x) j); [congruence|reflexivity].
      * exact IH.
Qed.

Lemma find_device_update_first (i : string) (f : DeviceRecord -> DeviceRecord)
  (l : list DeviceRecord) :
  (forall x, id (f x) = id x) ->
  find (has_id i) (update_first (has_id i) f l) = option_map f (find (has_id i) l).
Proof.
  intros Hid. unfold has_id.
  induction l as [|x l IH]; simpl; [reflexivity|].
  destruct (String.eqb (id x) i) eqn:E; simpl.
  - rewrite Hid, E. reflexivity.
  - rewrite E. exact IH.
Qed.

Lemma without_not_In (d : string) (l : list string) : ~ In d (without d l).
Proof.
  unfold without. intros H. apply filter_In in H. destruct H as (_ & H).
  rewrite String.eqb_refl in H. discriminate.
Qed.


Lemma push_member_id (d : string) (g : Group) : g_id (push_member d g) = g_id g.
Proof. unfold push_member. destruct (includes d (g_devices g)); reflexivity. Qed.

(** The groups after [addDeviceToGroup], looked up by id. *)
Lemma addDeviceToGroup_groups (d g : string) (tg td : Z) (m m' : Manager)
  (dev : DeviceRecord) :
  getDeviceById d m = Some dev ->
  addDeviceToGroup d g tg td m = Ok m' ->
  forall i,
    find_group i m' =
    let before :=
      if truthy (group dev) && String.eqb i (or_empty (group dev))
      then option_map (fun x => set_g_devices (without d (g_devices x)) x)
             (find_group i m)
      else find_group i m in
    if String.eqb i g
    then option_map (fun x => set_g_updatedAt tg (push_member d x)) before
    else before.
Proof.
  unfold addDeviceToGroup, find_group. intros Hdev.
  rewrite Hdev. destruct (find (has_g_id g) (groups m)); [|discriminate].
  intros [= <-] i. simpl.
  rewrite find_group_update_first
    by (intros x; simpl; apply push_member_id).
  destruct (group dev) as [old|]; simpl.
  - destruct (String.eqb old ""); simpl; [reflexivity|].
    rewrite find_group_update_first by reflexivity.
    reflexivity.
  - reflexivity.
Qed.

Lemma addDeviceToGroup_keeps_groups (d g : string) (tg td : Z) (m m' : Manager)
  (i : string) :
  addDeviceToGroup d g tg td m = Ok m' ->
  find_group i m <> None -> find_group i m' <> None.
Proof.
  intros Hrun Hi.
  destruct (getDeviceById d m) as [dev|] eqn:Hdev.
  - rewrite (addDeviceToGroup_groups d g tg td m m' dev Hdev Hrun i). cbv zeta.
    destruct (find_group i m) as [x|]; [|congruence].
    destruct (truthy (group dev) && String.eqb i (or_empty (group dev)));
      destruct (String.eqb i g); simpl; discriminate.
  - unfold addDeviceToGroup in Hrun. rewrite Hdev in Hrun. discriminate.
Qed.

Lemma addDeviceToGroup_device (d g : string) (tg td : Z) (m : Manager)
  (dev : DeviceRecord) (G : Group) :
  getDeviceById d m = Some dev ->
  find_group g m = Some G ->
  exists m',
    addDeviceToGroup d g tg td m = Ok m'
    /\ getDeviceById d m' = Some (set_updatedAt td (set_group (Some g) dev)).
Proof.
  intros Hdev HG. unfold addDeviceToGroup. rewrite Hdev, HG.
  eexists. split; [reflexivity|].
  unfold getDeviceById in *. simpl.
  rewrite find_device_update_first by reflexivity.
  rewrite Hdev. reflexivity.
Qed.


(** ** Connection history *)

Lemma firstn_all_le {A} (n : nat) (l : list A) : (length l <= n)%nat -> firstn n l = l.
Proof. intros H. apply firstn_all2. exact H. Qed.

Lemma firstn_app_le {A} (n : nat) (l1 l2 : list A) :
  (n <= length l1)%nat -> firstn n (l1 ++ l2) = firstn n l1.
Proof.
  intros H. rewrite firstn_app.
  replace (n - length l1)%nat with 0%nat by lia.
  simpl. apply app_nil_r.
Qed.

Lemma addToHistory_history (dev : DeviceRecord) (a : Action) (now : Z) (m : Manager) :
  connectionHistory (addToHistory dev a now m)
  = firstn 100 (mkHistoryEntry (id dev) (name dev) a now :: connectionHistory m).
Proof.
  unfold addToHistory.
  cbv zeta. cbn [connectionHistory].
  destruct (Nat.ltb_spec 100 (length (mkHistoryEntry (id dev) (name dev) a now
                                        :: connectionHistory m))) as [H|H].
  - reflexivity.
  - symmetry. apply firstn_all_le. exact H.
Qed.

Lemma addToHistory_all_snoc (calls : list HistoryCall) (c : HistoryCall) (m : Manager) :
  addToHistory_all (calls ++ [c]) m
  = addToHistory (call_device c) (call_action c) (call_now c) (addToHistory_all calls m).
Proof. unfold addToHistory_all. rewrite fold_left_app. reflexivity. Qed.

Lemma addToHistory_all_history (calls : list HistoryCall) (m : Manager) :
  calls <> [] ->
  connectionHistory (addToHistory_all calls m)
  = firstn 100 (rev (map entry_of calls) ++ connectionHistory m).
Proof.
  induction calls as [|c calls IH] using rev_ind; [congruence|]. intros _.
  rewrite addToHistory_all_snoc, addToHistory_history.
  rewrite map_app, rev_app_distr. simpl rev. simpl app.
  change (mkHistoryEntry (id (call_device c)) (name (call_device c))
            (call_action c) (call_now c)) with (entry_of c).
  destruct calls as [|c0 calls0].
  - reflexivity.
  - rewrite IH by discriminate.
    change (firstn 100 (entry_of c :: ?l)) with (entry_of c :: firstn 99 l).
    rewrite firstn_firstn. reflexivity.
Qed.

(** C8.  After any non-empty sequence of [addToHistory] calls, on any
    registry, the history holds at most 100 entries: the entries of the
    calls, newest first, followed by what the history held before, cut
    after the 100th.  After 150 calls it holds exactly 100 entries, those
    of the last 100 calls in reverse order of the calls. *)
Theorem addToHistory_cap (calls : list HistoryCall) (m : Manager) :
  calls <> [] ->
  let h := connectionHistory (addToHistory_all calls m) in
  (length h <= 100)%nat
  /\ h = firstn 100 (rev (map entry_of calls) ++ connectionHistory m)
  /\ (length calls = 150%nat ->
      length h = 100%nat /\ h = rev (map entry_of (skipn 50 calls))).
Proof.
  intros Hne h. subst h. rewrite addToHistory_all_history by exact Hne.
  split; [apply firstn_le_length|]. split; [reflexivity|].
  intros Hlen.
  assert (Hrev : length (rev (map entry_of calls)) = 150%nat)
    by (rewrite length_rev, length_map; exact Hlen).
  rewrite firstn_app_le by (rewrite Hrev; repeat constructor).
  split.
  - rewrite length_firstn, Hrev. reflexivity.
  - rewrite <- (firstn_skipn 50 calls) at 1.
    assert (Hskip : length (rev (map entry_of (skipn 50 calls))) = 100%nat)
      by (rewrite length_rev, length_map, length_skipn, Hlen; reflexivity).
    rewrite map_app, rev_app_distr, firstn_app_le by (rewrite Hskip; apply le_n).
    apply firstn_all_le. rewrite Hskip. apply le_n.
Qed.

Lemma addToHistory_cap_witness :
  calls150 <> []
  /\ length calls150 = 150%nat
  /\ length (connectionHistory (addToHistory_all calls150 sample_manager)) = 100%nat
  /\ connectionHistory (addToHistory_all calls150 sample_manager)
     = rev (map entry_of (skipn 50 calls150)).
Proof.
  assert (Hne : calls150 <> []) by (vm_compute; discriminate).
  split; [exact Hne|]. split; [reflexivity|].
  apply (addToHistory_cap calls150 sample_manager Hne). reflexivity.
Defined.

(** ** Deleting a group *)

Lemma findIndex_split {A} (p : A -> bool) (l : list A) (i : nat) :
  findIndex p l = Some i ->
  exists l1 x l2,
    l = l1 ++ x :: l2 /\ p x = true /\ (forall y, In y l1 -> p y = false)
    /\ splice1 i l = l1 ++ l2.
Proof.
  revert i. induction l as [|x l IH]; intros i; simpl; [discriminate|].
  destruct (p x) eqn:Hx.
  - intros [= <-]. exists [], x, l. simpl. repeat split; auto. intros y [].
  - destruct (findIndex p l) as [j|]; [|discriminate].
    intros [= <-].
    destruct (IH j eq_refl) as (l1 & y & l2 & -> & Hy & Hl1 & Hsplice).
    exists (x :: l1), y, l2. simpl. rewrite Hsplice. repeat split; auto.
    intros z [<-|Hz]; auto.
Qed.

Lemma find_skip_middle {A} (p : A -> bool) (l1 l2 : list A) (x : A) :
  p x = false -> find p (l1 ++ x :: l2) = find p (l1 ++ l2).
Proof.
  intros Hx. induction l1 as [|y l1 IH]; simpl.
  - rewrite Hx. reflexivity.
  - destruct (p y); [reflexivity|exact IH].
Qed.

(** What [deleteGroup] does to a device: the reference to the deleted
    group is set to [null], any other is kept. *)
Lemma deleteGroup_devices (g : string) (m m' : Manager) :
  deleteGroup g m = Ok m' ->
  devices m'
  = map (fun d => if option_eqb (group d) (Some g) then set_group None d else d)
      (devices m).
Proof.
  unfold deleteGroup.
  destruct (findIndex (has_g_id g) (groups m)); [|discriminate].
  intros [= <-]. simpl. apply map_ext. intros d.
  destruct (group d) as [s|]; reflexivity.
Qed.

Lemma findIndex_Some {A} (p : A -> bool) (l : list A) :
  find p l <> None -> exists i, findIndex p l = Some i.
Proof.
  induction l as [|x l IH]; simpl; [congruence|].
  destruct (p x); [eexists; reflexivity|].
  intros H. destruct (IH H) as (i & ->). eexists; reflexivity.
Qed.

(** C10.  [deleteGroup(g)], for a group id the registry knows, succeeds;
    it removes the first group with id [g] from the list and keeps every
    other group object as it was, in the same order; it sets the group
    reference of every device that pointed to [g] to [null] and keeps
    every other device; the history is not touched.  In particular a
    group with another id is found afterwards exactly as before: a parent
    still lists [g] among its [subGroups] and a child still names [g] as
    its [parentGroup]. *)
Theorem deleteGroup_frame (g : string) (m : Manager) :
  find_group g m <> None ->
  exists m',
    deleteGroup g m = Ok m'
    /\ (exists l1 G l2,
          groups m = l1 ++ G :: l2 /\ g_id G = g
          /\ (forall x, In x l1 -> g_id x <> g)
          /\ groups m' = l1 ++ l2)
    /\ devices m'
       = map (fun d => if option_eqb (group d) (Some g) then set_group None d else d)
           (devices m)
    /\ (forall d, In d (devices m') -> group d <> Some g)
    /\ connectionHistory m' = connectionHistory m
    /\ (forall p P, p <> g -> find_group p m = Some P -> find_group p m' = Some P)
    /\ (forall p P, p <> g -> find_group p m = Some P -> In g (subGroups P) ->
          exists P', find_group p m' = Some P' /\ In g (subGroups P'))
    /\ (forall c C, c <> g -> find_group c m = Some C -> parentGroup C = Some g ->
          exists C', find_group c m' = Some C' /\ parentGroup C' = Some g).
Proof.
  intros Hfound.
  destruct (findIndex_Some _ _ Hfound) as (i & Hi).
  assert (Hrun : deleteGroup g m =
                 Ok (mkManager
                       (map (fun d => match group d with
                                      | Some g0 =>
                                          if String.eqb g0 g then set_group None d else d
                                      | None => d
                                      end) (devices m))
                       (splice1 i (groups m)) (connectionHistory m)))
    by (unfold deleteGroup; rewrite Hi; reflexivity).
  eexists. split; [exact Hrun|].
  pose proof (deleteGroup_devices g m _ Hrun) as Hdevs.
  destruct (findIndex_split _ _ _ Hi) as (l1 & G & l2 & Hgroups & HG & Hl1 & Hsplice).
  unfold has_g_id in HG. apply String.eqb_eq in HG.
  assert (Hother : forall p P, p <> g ->
            find (has_g_id p) (groups m) = Some P ->
            find (has_g_id p) (splice1 i (groups m)) = Some P).
  { intros p P Hp HP. rewrite Hsplice. rewrite Hgroups in HP.
    rewrite find_skip_middle in HP; [exact HP|].
    unfold has_g_id. apply String.eqb_neq. congruence. }
  unfold find_group. cbn [devices groups connectionHistory] in Hdevs |- *.
  split; [|split; [|split; [|split; [|split; [|split]]]]].
  - exists l1, G, l2. repeat split; auto.
    intros x Hx. specialize (Hl1 x Hx). unfold has_g_id in Hl1.
    now apply String.eqb_neq.
  - exact Hdevs.
  - rewrite Hdevs. intros d Hd. apply in_map_iff in Hd. destruct Hd as (d0 & <- & _).
    destruct (group d0) as [s0|] eqn:Hs; simpl.
    + destruct (String.eqb_spec s0 g) as [->|Hsg]; simpl; [discriminate|].
      rewrite Hs. congruence.
    + rewrite Hs. discriminate.
  - reflexivity.
  - exact Hother.
  - intros p P Hp HP Hin. exists P. split; [now apply Hother|exact Hin].
  - intros c C Hc HC Hpar. exists C. split; [now apply Hother|exact Hpar].
Qed.

Lemma deleteGroup_frame_witness :
  find_group "device_2_lamp" sample_manager <> None
  /\ exists m',
       deleteGroup "device_2_lamp" sample_manager = Ok m'
       /\ groups m' = [living_room; bulb]
       /\ devices m' = [set_group None strip]
       /\ find_group "device_1_living" m' = Some living_room
       /\ In "device_2_lamp"%string (subGroups living_room)
       /\ find_group "device_3_bulb" m' = Some bulb
       /\ parentGroup bulb = Some "device_2_lamp"%string.
Proof.
  assert (Hfound : find_group "device_2_lamp" sample_manager <> None)
    by (simpl; discriminate).
  split; [exact Hfound|].
  destruct (deleteGroup_frame "device_2_lamp" sample_manager Hfound)
    as (m' & Hrun & _ & _ & _ & _ & Hother & _).
  exists m'. split; [exact Hrun|].
  assert (Hm : m' = mkManager [set_group None strip] [living_room; bulb] [])
    by (vm_compute in Hrun; injection Hrun as <-; reflexivity).
  split; [rewrite Hm; reflexivity|].
  split; [rewrite Hm; reflexivity|].
  split; [apply Hother; [discriminate|reflexivity]|].
  split; [left; reflexivity|].
  split; [apply Hother; [discriminate|reflexivity]|].
  reflexivity.
Defined.

End RegistryProperties.

(* ================================================================== *)
(** * Further properties of the command transport and the commands *)
(* ================================================================== *)

Section Commands.

Import BLE BLEOps.
Local Open Scope ble_scope.

Ltac exec :=
  cbv beta iota zeta delta [send_attempt Date_now device_gatt_connected reconnect
    write_with_timeout await_handle try_catch bind interact gets modify sleep ret throw
    device server service characteristic isConnected protocol deviceName deviceId
    lastCommandTime
    set_server set_service set_characteristic set_isConnected set_lastCommandTime
    dev_gatt app length Nat.add negb].

Ltac cases :=
  repeat match goal with
    | |- context [if ?b then _ else _] =>
        lazymatch b with context [if _ then _ else _] => fail | _ => idtac end;
        destruct b eqn:?; exec
    | |- context [match ?x with Some _ => _ | None => _ end] =>
        lazymatch x with context [match _ with _ => _ end] => fail | _ => idtac end;
        destruct x eqn:?; exec
    | |- context [match ?x with Written => _ | Rejected => _ | TimedOut => _ end] =>
        lazymatch x with context [match _ with _ => _ end] => fail | _ => idtac end;
        destruct x eqn:?; exec
    end.

Ltac conjs := repeat match goal with |- _ /\ _ => split end.

Lemma write_results_app (t1 t2 : list Event) :
  write_results (t1 ++ t2) = write_results t1 ++ write_results t2.
Proof.
  induction t1 as [|e t1 IH]; [reflexivity|].
  destruct e; simpl; try exact IH. now rewrite IH.
Qed.

(** One attempt either returns [true] after a write that went through,
    or throws after at most one write, which failed. *)
Lemma send_attempt_outcome (command : list Z) (pf : Platform) (tick : nat)
  (c : Controller) :
  let '(r, c', t) := send_attempt command pf tick c in
  (r = Returned true /\ write_results t = [Written])
  \/ ((exists e, r = Thrown e)
      /\ (write_results t = [] \/ write_results t = [Rejected]
          \/ write_results t = [TimedOut])).
Proof.
  destruct c as [[[dname did [|]]|] srv svc [h|] conn [proto|] dn di last]; exec.
  all: cases.
  all: cbn [write_results]; eauto 8.
Qed.

Lemma send_loop_outcome (command : list Z) (pf : Platform) (retries : nat) :
  forall (remaining attempt tick : nat) (c : Controller),
    budget_outcome remaining
      (fst (fst (send_loop command retries remaining attempt pf tick c)))
      (write_results (snd (send_loop command retries remaining attempt pf tick c))).
Proof.
  induction remaining as [|k IH]; intros attempt tick c.
  - exists []. simpl. repeat split; auto.
  - rewrite send_loop_S.
    pose proof (send_attempt_outcome command pf tick c) as H1.
    destruct (send_attempt command pf tick c) as [[r1 c1] t1].
    destruct H1 as [(-> & Hw) | ((e & ->) & Hw)].
    + cbn [fst snd]. exists []. rewrite Hw. simpl.
      repeat split; auto. lia.
    + assert (Hfail : Forall (fun w => w <> Written) (write_results t1)
                      /\ (length (write_results t1) <= 1)%nat).
      { destruct Hw as [-> | [-> | ->]]; simpl; split; auto;
          repeat constructor; discriminate. }
      destruct Hfail as (Hfail & Hlen).
      destruct (Nat.eqb attempt retries).
      * cbn [fst snd]. exists (write_results t1).
        repeat split; auto. lia.
      * specialize (IH (S attempt) (S (length t1 + tick)) c1).
        destruct (send_loop command retries k (S attempt) pf (S (length t1 + tick)) c1)
          as [[r2 c2] t2].
        cbn [fst snd] in *.
        destruct IH as (fails & Hf & Hlen2 & Hcase).
        rewrite write_results_app. cbn [write_results].
        exists (write_results t1 ++ fails).
        split; [apply Forall_app; split; assumption|].
        split; [rewrite length_app; lia|].
        destruct Hcase as [(-> & ->) | (-> & ->)].
        -- left; split; reflexivity.
        -- right; split; [reflexivity|]. now rewrite app_assoc.
Qed.

(** X1.  [sendCommand] never throws, whatever the platform answers and
    whatever the session holds: it returns [true] or [false].  It makes at
    most [retries] writes; every write but the last has failed, and the
    result is [true] exactly when the last write went through. *)
Theorem sendCommand_outcome (command : list Z) (retries : nat) (pf : Platform)
  (tick : nat) (c : Controller) :
  let '(r, _, t) := sendCommand command retries pf tick c in
  budget_outcome retries r (write_results t).
Proof.
  unfold sendCommand. cbv beta iota zeta delta [bind gets ret].
  destruct (isConnected c); cbn [negb];
    [|exists []; simpl; repeat split; auto; lia].
  destruct (characteristic c);
    [|exists []; simpl; repeat split; auto; lia].
  match goal with
  | |- context [send_loop ?cmd ?n ?k ?a ?q ?tk ?cc] =>
      pose proof (send_loop_outcome cmd q n k a tk cc) as H;
      destruct (send_loop cmd n k a q tk cc) as [[r2 c2] t2]
  end.
  cbn [fst snd app] in *. exact H.
Qed.

(** X2.  On a Connected session whose link is open and whose write goes
    through, [sendCommand] (with at least one attempt allowed) reads the
    clock, waits exactly the rest of the 50 ms spacing if less than 50 ms
    have passed since the last command and does not wait otherwise,
    checks the link, writes the command once, records the clock reading
    taken after the write as [lastCommandTime], waits 50 ms and returns
    [true]; no other field changes. *)
Theorem sendCommand_flood_protection (command : list Z) (retries : nat)
  (pf : Platform) (tick : nat) (c : Controller) :
  Connected c -> responsive pf -> retries <> 0%nat ->
  let now := date_now pf tick in
  let elapsed := now - lastCommandTime c in
  exists h sent,
    characteristic c = Some h
    /\ sendCommand command retries pf tick c
       = (Returned true, set_lastCommandTime sent c,
          EvDateNow now
          :: (if elapsed <? commandDelay
              then [EvSleep FloodProtection (commandDelay - elapsed)] else [])
          ++ [EvGattConnected true; EvWriteValue h (JS.Uint8Array command) Written;
              EvDateNow sent; EvSleep Acknowledge 50]).
Proof.
  intros (Hconn & (h & Hh) & (d & Hd & Hg)) (Hlink & Hwrite) Hretries.
  destruct retries as [|k]; [congruence|].
  cbv zeta. exists h.
  unfold sendCommand. cbv beta iota zeta delta [bind gets ret].
  rewrite Hconn, Hh. cbn [negb length Nat.add app].
  rewrite send_loop_S.
  destruct c as [dev srv svc chr conn proto dn di last]; simpl in *.
  subst dev chr conn. destruct d as [dname did gatt]; simpl in Hg; subst gatt.
  exec.
  destruct (date_now pf tick - last <? commandDelay); exec;
    rewrite Hlink; exec; rewrite Hwrite; exec;
    eexists; (split; reflexivity).
Qed.

Lemma healthy_responsive : responsive healthy.
Proof. split; intros k; reflexivity. Qed.

Lemma recent_session_Connected : Connected recent_session.
Proof.
  split; [reflexivity|]. split; [exists 3%nat; reflexivity|].
  exists sample_device. split; reflexivity.
Qed.

Lemma sendCommand_flood_protection_witness :
  Connected recent_session /\ responsive healthy /\ 3%nat <> 0%nat
  /\ exists h sent,
       characteristic recent_session = Some h
       /\ sendCommand (COMMANDS.POWER_ON ELK_BLEDOM) 3 healthy 0%nat recent_session
          = (Returned true, set_lastCommandTime sent recent_session,
             EvDateNow 1030
             :: [EvSleep FloodProtection 20]
             ++ [EvGattConnected true;
                 EvWriteValue h (JS.Uint8Array (COMMANDS.POWER_ON ELK_BLEDOM)) Written;
                 EvDateNow sent; EvSleep Acknowledge 50]).
Proof.
  split; [exact recent_session_Connected|].
  split; [exact healthy_responsive|].
  split; [discriminate|].
  exact (sendCommand_flood_protection (COMMANDS.POWER_ON ELK_BLEDOM) 3 healthy 0%nat
           recent_session recent_session_Connected healthy_responsive
           ltac:(discriminate)).
Defined.

Lemma guard_rejects (command : list Z) (retries : nat) (pf : Platform) (tick : nat)
  (c : Controller) :
  isConnected c = false \/ characteristic c = None ->
  sendCommand command retries pf tick c = (Returned false, c, []).
Proof.
  unfold sendCommand. cbv beta iota zeta delta [bind gets ret].
  intros [H | H]; rewrite H; cbn; [reflexivity|].
  destruct (isConnected c); reflexivity.
Qed.

(** X3.  On a controller whose [protocol] is still [null] (it has never
    been connected), [setPower], [setEffect], [setColorRGB] and [setColor]
    throw a TypeError instead of returning [false]: the command table is
    indexed before [sendCommand] checks the connection.  Nothing is
    written and no field changes. *)
Theorem commands_need_protocol (pf : Platform) (tick : nat) (c : Controller)
  (state : bool) (effectId r g b : JS.Value) (hexColor : string) :
  protocol c = None ->
  setPower state pf tick c = (Thrown TypeError, c, [])
  /\ setEffect effectId pf tick c = (Thrown TypeError, c, [])
  /\ setColorRGB r g b pf tick c = (Thrown TypeError, c, [])
  /\ setColor hexColor pf tick c = (Thrown TypeError, c, []).
Proof.
  intros Hp. unfold setPower, setEffect, setColor, setColorRGB.
  cbv beta iota zeta delta [bind gets throw]. rewrite Hp. repeat split.
Qed.

Lemma commands_need_protocol_witness :
  protocol new_controller = None
  /\ setPower true healthy 0%nat new_controller = (Thrown TypeError, new_controller, [])
  /\ setEffect (JS.JSInt 3) healthy 0%nat new_controller
     = (Thrown TypeError, new_controller, [])
  /\ setColorRGB (JS.JSInt 255) (JS.JSInt 0) (JS.JSInt 0) healthy 0%nat new_controller
     = (Thrown TypeError, new_controller, [])
  /\ setColor "#ff0000" healthy 0%nat new_controller
     = (Thrown TypeError, new_controller, []).
Proof.
  split; [reflexivity|].
  exact (commands_need_protocol healthy 0%nat new_controller true (JS.JSInt 3)
           (JS.JSInt 255) (JS.JSInt 0) (JS.JSInt 0) "#ff0000" eq_refl).
Defined.

(** X4.  Once a protocol is recorded, every command issued while the
    session is not connected (as after [disconnect()], which keeps the
    protocol) returns [false] without throwing, without any platform call
    and without changing the controller. *)
Theorem commands_rejected_when_disconnected (pf : Platform) (tick : nat)
  (c : Controller) (p : Protocol)
  (state : bool) (effectId r g b : JS.Value) (hexColor : string) :
  protocol c = Some p ->
  isConnected c = false \/ characteristic c = None ->
  setPower state pf tick c = (Returned false, c, [])
  /\ setEffect effectId pf tick c = (Returned false, c, [])
  /\ setColorRGB r g b pf tick c = (Returned false, c, [])
  /\ setColor hexColor pf tick c = (Returned false, c, []).
Proof.
  intros Hp Hguard. unfold setPower, setEffect, setColor, setColorRGB.
  cbv beta iota zeta delta [bind gets throw]. rewrite Hp.
  cbn [length app Nat.add].
  rewrite !guard_rejects by exact Hguard. repeat split.
Qed.

Lemma commands_rejected_when_disconnected_witness :
  protocol (clear_session sample_session) = Some ELK_BLEDOM
  /\ (isConnected (clear_session sample_session) = false
      \/ characteristic (clear_session sample_session) = None)
  /\ setPower true healthy 0%nat (clear_session sample_session)
     = (Returned false, clear_session sample_session, [])
  /\ setEffect (JS.JSInt 3) healthy 0%nat (clear_session sample_session)
     = (Returned false, clear_session sample_session, [])
  /\ setColorRGB (JS.JSInt 255) (JS.JSInt 0) (JS.JSInt 0) healthy 0%nat
       (clear_session sample_session)
     = (Returned false, clear_session sample_session, [])
  /\ setColor "#ff0000" healthy 0%nat (clear_session sample_session)
     = (Returned false, clear_session sample_session, []).
Proof.
  split; [reflexivity|]. split; [left; reflexivity|].
  exact (commands_rejected_when_disconnected healthy 0%nat
           (clear_session sample_session) ELK_BLEDOM true (JS.JSInt 3)
           (JS.JSInt 255) (JS.JSInt 0) (JS.JSInt 0) "#ff0000" eq_refl
           (or_introl eq_refl)).
Defined.

Lemma validate_effect_byte (x : JS.Value) : JS.is_byte (validate_effect x).
Proof. unfold validate_effect, JS.is_byte. lia. Qed.

(** X5.  Whatever [setEffect] is given and whatever the platform does,
    every write it makes carries the 9-byte effect frame of the active
    protocol whose id byte is the input validated to [0,255] (0 for input
    without a leading integer); the second clamp of the GENERIC template
    never changes that byte. *)
Theorem setEffect_writes_clamped_id (effectId : JS.Value) (pf : Platform)
  (tick : nat) (c : Controller) (p : Protocol) :
  protocol c = Some p ->
  let frame :=
    [0x7e; match p with ELK_BLEDOM => 0x05 | GENERIC => 0x00 end; 0x03;
     validate_effect effectId; 0x03; 0xff; 0xff; 0x00; 0xef] in
  JS.is_byte (validate_effect effectId)
  /\ validate_effect effectId =
     match JS.parseInt effectId with
     | None => 0
     | Some z => if z <? 0 then 0 else if 255 <? z then 255 else z
     end
  /\ Forall (carries frame) (snd (setEffect effectId pf tick c)).
Proof.
  intros Hp frame.
  pose proof (validate_effect_byte effectId) as Hb.
  split; [exact Hb|]. split.
  { unfold validate_effect. destruct (JS.parseInt effectId) as [z|]; simpl;
      [|reflexivity].
    destruct (Z.ltb_spec z 0); destruct (Z.ltb_spec 255 z); lia. }
  assert (Hcmd : COMMANDS.EFFECT p (validate_effect effectId) = frame).
  { unfold frame, JS.is_byte in *. destruct p; simpl; [reflexivity|].
    rewrite Z.max_r, Z.min_r by lia. reflexivity. }
  assert (Hbytes : JS.Uint8Array frame = frame).
  { apply Uint8Array_id. unfold frame, JS.is_byte in *.
    destruct p; repeat constructor; lia. }
  unfold setEffect, sendCommand.
  cbv beta iota zeta delta [bind gets ret throw]. rewrite Hp, Hcmd.
  destruct (isConnected c); cbn [negb snd]; [|constructor].
  destruct (characteristic c); cbn [snd]; [|constructor].
  match goal with
  | |- context [send_loop ?cmd ?n ?k ?a ?q ?tk ?cc] =>
      pose proof (send_loop_carries cmd q n k a tk cc) as H;
      destruct (send_loop cmd n k a q tk cc) as [[r2 c2] t2]
  end.
  rewrite Hbytes in H. cbn [snd app] in *. exact H.
Qed.

Lemma setEffect_writes_clamped_id_witness :
  protocol sample_session = Some ELK_BLEDOM
  /\ validate_effect (JS.JSInt 300) = 255
  /\ Forall (carries [0x7e; 0x05; 0x03; 255; 0x03; 0xff; 0xff; 0x00; 0xef])
       (snd (setEffect (JS.JSInt 300) unresponsive 0%nat sample_session)).
Proof.
  split; [reflexivity|]. split; [reflexivity|].
  apply (setEffect_writes_clamped_id (JS.JSInt 300) unresponsive 0%nat
           sample_session ELK_BLEDOM eq_refl).
Defined.

(** X6.  [reconnect()] never throws, keeps the device, the protocol and
    [lastCommandTime], and never sets [isConnected] to [true]: after a
    success (server, service and characteristic all resolved anew) the
    flag is what it was, after a failure it is [false] and the old
    characteristic is kept; without a device, or without its GATT server,
    it returns [undefined] and does nothing. *)
Theorem reconnect_never_marks_connected (pf : Platform) (tick : nat) (c : Controller) :
  exists r c' t,
    reconnect pf tick c = (Returned r, c', t)
    /\ device c' = device c
    /\ protocol c' = protocol c
    /\ lastCommandTime c' = lastCommandTime c
    /\ match r with
       | Some true =>
           isConnected c' = isConnected c
           /\ server c' <> None /\ service c' <> None /\ characteristic c' <> None
       | Some false =>
           isConnected c' = false /\ characteristic c' = characteristic c
       | None =>
           c' = c /\ t = []
           /\ (device c = None \/ exists d, device c = Some d /\ dev_gatt d = false)
       end.
Proof.
  destruct c as [[[dname did [|]]|] srv svc chr conn [proto|] dn di last]; exec.
  all: cases.
  all: do 3 eexists; (split; [reflexivity|]); cbn;
    conjs; try reflexivity; try discriminate; eauto.
Qed.

Example validate_effect_samples :
  validate_effect (JS.JSInt 7) = 7
  /\ validate_effect (JS.JSInt 300) = 255
  /\ validate_effect (JS.JSInt (-1)) = 0
  /\ validate_effect (JS.JSString (JS.nbsp ++ "7")) = 7
  /\ validate_effect (JS.JSDecimal 25 (-1)) = 2
  /\ validate_effect (JS.JSDecimal 1 21) = 1
  /\ validate_effect JS.JSUndefined = 0.
Proof. vm_compute. repeat split. Qed.

Example rgbToHex_samples :
  rgbToHex (JS.JSInt 255) (JS.JSInt 0) (JS.JSInt 16) = "#ff0010"%string
  /\ rgbToHex (JS.JSDecimal 1 21) (JS.JSInt 300) (JS.JSString (JS.nbsp ++ "16"))
     = "#01ff10"%string
  /\ hexToRgb "#01ff10" = Some (Some 1, Some 255, Some 16)
  /\ hexToRgb "01FF10" = Some (Some 1, Some 255, Some 16)
  /\ hexToRgb "#01ff1" = None
  /\ hexToRgb "#01ff1g" = None.
Proof. vm_compute. repeat split. Qed.

Lemma hex_pair_all : forallb hex_pair_ok (map Z.of_nat (seq 0 256)) = true.
Proof. vm_compute. reflexivity. Qed.

(** A byte prints as two hex digits that read back as the byte. *)
Lemma hex_pair (n : Z) :
  JS.is_byte n ->
  exists c1 c2,
    padStart2 (toString16 n) = String c1 (String c2 EmptyString)
    /\ is_hex_char c1 = true /\ is_hex_char c2 = true
    /\ parseInt16 (String c1 (String c2 EmptyString)) = Some n.
Proof.
  intros Hn. unfold JS.is_byte in Hn.
  pose proof hex_pair_all as Hall. rewrite forallb_forall in Hall.
  specialize (Hall n).
  assert (Hin : In n (map Z.of_nat (seq 0 256))).
  { apply in_map_iff. exists (Z.to_nat n). split; [lia|].
    apply in_seq. lia. }
  specialize (Hall Hin). unfold hex_pair_ok in Hall.
  destruct (padStart2 (toString16 n)) as [|c1 [|c2 [|c3 s]]]; try discriminate.
  exists c1, c2.
  destruct (parseInt16 (String c1 (String c2 EmptyString))) as [z|];
    [|rewrite !andb_false_r in Hall; discriminate].
  apply andb_prop in Hall. destruct Hall as (Hall & Hz).
  apply andb_prop in Hall. destruct Hall as (H1 & H2).
  apply Z.eqb_eq in Hz. subst z. auto.
Qed.

(** X7.  [hexToRgb(rgbToHex(r, g, b))] gives back the three channels as
    [rgbToHex] validates them (each clamped to [0,255], 0 for input
    without a leading integer); in particular it is never [null] and no
    channel is NaN. *)
Theorem hexToRgb_rgbToHex (r g b : JS.Value) :
  hexToRgb (rgbToHex r g b)
  = Some (Some (validate_channel r), Some (validate_channel g),
          Some (validate_channel b)).
Proof.
  destruct (hex_pair _ (validate_channel_byte r)) as (r1 & r2 & Hr & Hr1 & Hr2 & Pr).
  destruct (hex_pair _ (validate_channel_byte g)) as (g1 & g2 & Hg & Hg1 & Hg2 & Pg).
  destruct (hex_pair _ (validate_channel_byte b)) as (b1 & b2 & Hb & Hb1 & Hb2 & Pb).
  unfold rgbToHex. rewrite Hr, Hg, Hb. cbn [append].
  unfold hexToRgb. cbn [strip_hash forallb].
  rewrite Hr1, Hr2, Hg1, Hg2, Hb1, Hb2. cbn [andb].
  rewrite Pr, Pg, Pb. reflexivity.
Qed.

Lemma validate_channel_idem (x : JS.Value) :
  validate_channel (JS.JSInt (validate_channel x)) = validate_channel x.
Proof.
  pose proof (validate_channel_byte x) as H. unfold JS.is_byte in H.
  rewrite validate_channel_JSInt by lia.
  destruct (Z.ltb_spec (validate_channel x) 0); [lia|].
  destruct (Z.ltb_spec 255 (validate_channel x)); [lia|reflexivity].
Qed.

(** X8.  [setColor(rgbToHex(r, g, b))] behaves exactly as
    [setColorRGB(r, g, b)]: same result, same controller, same platform
    calls, on every session and platform. *)
Theorem setColor_rgbToHex (r g b : JS.Value) (pf : Platform) (tick : nat)
  (c : Controller) :
  setColor (rgbToHex r g b) pf tick c = setColorRGB r g b pf tick c.
Proof.
  destruct (hex_pair _ (validate_channel_byte r)) as (r1 & r2 & Hr & Hr1 & Hr2 & Pr).
  destruct (hex_pair _ (validate_channel_byte g)) as (g1 & g2 & Hg & Hg1 & Hg2 & Pg).
  destruct (hex_pair _ (validate_channel_byte b)) as (b1 & b2 & Hb & Hb1 & Hb2 & Pb).
  unfold setColor, rgbToHex. rewrite Hr, Hg, Hb. cbn [append strip_hash].
  unfold substring. cbn [String.substring Nat.sub].
  rewrite Pr, Pg, Pb. cbn [number].
  unfold setColorRGB. cbv beta iota zeta delta [bind gets throw].
  destruct (protocol c) as [p|]; [|reflexivity].
  unfold setColorRGB_command. rewrite !validate_channel_idem. reflexivity.
Qed.

Lemma send_attempt_keeps_protocol (command : list Z) (pf : Platform) (tick : nat)
  (c : Controller) :
  protocol (snd (fst (send_attempt command pf tick c))) = protocol c.
Proof.
  destruct c as [[[dname did [|]]|] srv svc [h|] conn [proto|] dn di last]; exec.
  all: cases.
  all: reflexivity.
Qed.

Lemma send_loop_returns (command : list Z) (pf : Platform) (retries : nat) :
  forall (remaining attempt tick : nat) (c : Controller),
  exists b c' t,
    send_loop command retries remaining attempt pf tick c = (Returned b, c', t)
    /\ protocol c' = protocol c.
Proof.
  induction remaining as [|k IH]; intros attempt tick c.
  - exists false, c, []. split; reflexivity.
  - rewrite send_loop_S.
    pose proof (send_attempt_keeps_protocol command pf tick c) as Hp.
    destruct (send_attempt command pf tick c) as [[[b|e] c1] t1]; cbn [fst snd] in Hp.
    + do 3 eexists. split; [reflexivity|exact Hp].
    + destruct (Nat.eqb attempt retries).
      * do 3 eexists. split; [reflexivity|exact Hp].
      * destruct (IH (S attempt) (S (length t1 + tick)) c1)
          as (b & c2 & t2 & -> & Hp2).
        do 3 eexists. split; [reflexivity|congruence].
Qed.

(** With a protocol recorded, [setColorRGB] returns; the protocol stays. *)
Lemma setColorRGB_returns (r g b : JS.Value) (pf : Platform) (tick : nat)
  (c : Controller) (p : Protocol) :
  protocol c = Some p ->
  exists ok c' t,
    setColorRGB r g b pf tick c = (Returned ok, c', t) /\ protocol c' = Some p.
Proof.
  intros Hp. unfold setColorRGB, sendCommand.
  cbv beta iota zeta delta [bind gets ret throw]. rewrite Hp.
  destruct (isConnected c); cbn [negb];
    [|do 3 eexists; split; [reflexivity|exact Hp]].
  destruct (characteristic c);
    [|do 3 eexists; split; [reflexivity|exact Hp]].
  match goal with
  | |- context [send_loop ?cmd ?n ?k ?a ?q ?tk ?cc] =>
      destruct (send_loop_returns cmd q n k a tk cc) as (ok & c' & t & -> & Hp')
  end.
  do 3 eexists. split; [reflexivity|congruence].
Qed.

End Commands.

(* ================================================================== *)
(** * Properties of connection set-up and automatic recovery *)
(* ================================================================== *)

Section Recovery.

Import BLE Host.
Local Open Scope host_scope.

Ltac hexec :=
  cbv beta iota zeta delta [connect scan hawait lift await_handle htry hbind hret
    hthrow hgets hmodify emit reconnect_attempt
    bind interact ret throw
    device server service characteristic isConnected protocol deviceName deviceId
    lastCommandTime platform bluetooth requestDevice
    set_server set_service set_characteristic set_isConnected set_device set_connected
    dev_gatt dev_name dev_id map app length Nat.add negb].

Ltac hcases :=
  repeat match goal with
    | |- context [if ?b then _ else _] =>
        lazymatch b with context [if _ then _ else _] => fail | _ => idtac end;
        destruct b eqn:?; hexec
    | |- context [match ?x with Some _ => _ | None => _ end] =>
        lazymatch x with context [match _ with _ => _ end] => fail | _ => idtac end;
        destruct x eqn:?; hexec
    end.

Ltac conjs := repeat match goal with |- _ /\ _ => split end.

Lemma counts_app (f : HostEvent -> bool) (t1 t2 : list HostEvent) :
  counts f (t1 ++ t2) = (counts f t1 + counts f t2)%nat.
Proof. unfold counts. now rewrite filter_app, length_app. Qed.

Lemma delays_app (t1 t2 : list HostEvent) : delays (t1 ++ t2) = delays t1 ++ delays t2.
Proof.
  induction t1 as [|e t1 IH]; [reflexivity|].
  destruct e; simpl; try exact IH. now rewrite IH.
Qed.

Lemma delays_OnPlatform (t : list Event) : delays (map OnPlatform t) = [].
Proof. induction t as [|e t IH]; [reflexivity|exact IH]. Qed.

(** What [connect] leaves, by its completion. *)
Lemma connect_outcome (p : option Protocol) (br : Browser) (tick : nat) (c : Controller) :
  exists r c' t,
    connect p br tick c = (r, c', t)
    /\ (counts is_gatt_connect t <= 1)%nat
    /\ (device c <> None -> counts is_request t = 0%nat /\ device c' = device c)
    /\ delays t = []
    /\ match r with
       | Done b =>
           b = true /\ Connected c' /\ protocol c' = p
           /\ counts is_listener t = 1%nat
           /\ (exists d, device c' = Some d /\ deviceName c' = Some (dev_name d)
                          /\ deviceId c' = Some (dev_id d))
       | Failed _ =>
           isConnected c' = false /\ counts is_listener t = 0%nat
           /\ protocol c' = protocol c
       end.
Proof.
  destruct br as [pf bt req].
  destruct c as [[[dname did gatt]|] srv svc chr conn proto dn di last]; hexec.
  all: hcases.
  all: do 3 eexists; (split; [reflexivity|]); cbn; unfold Connected, Connected_handles; cbn;
    conjs; try reflexivity; try discriminate; try lia; eauto;
    try (intros; conjs; congruence).
Qed.

(** X9.  [connect] either returns [true] or throws.  When it returns, the
    session is Connected (flag set, characteristic resolved, device with
    its GATT server held), records the protocol it was given and the name
    and id of the device, and has registered exactly one disconnect
    listener.  When it throws, [isConnected] is [false], no listener was
    registered and the recorded protocol is unchanged.  It calls
    [gatt.connect()] at most once, and opens the device picker only when
    the controller holds no device. *)
Theorem connect_establishes_session (p : option Protocol) (br : Browser)
  (tick : nat) (c : Controller) :
  let '(r, c', t) := connect p br tick c in
  (counts is_gatt_connect t <= 1)%nat
  /\ match device c with
     | Some _ => counts is_request t = 0%nat /\ device c' = device c
     | None => (counts is_request t <= 1)%nat
     end
  /\ match r with
     | Done b =>
         b = true /\ Connected c' /\ protocol c' = p
         /\ counts is_listener t = 1%nat
         /\ (exists d, device c' = Some d /\ deviceName c' = Some (dev_name d)
                        /\ deviceId c' = Some (dev_id d))
     | Failed _ =>
         isConnected c' = false /\ counts is_listener t = 0%nat
         /\ protocol c' = protocol c
     end.
Proof.
  destruct (connect_outcome p br tick c)
    as (r & c' & t & Hrun & Hgatt & Hheld & _ & Hcase).
  assert (Hreq : device c = None -> (counts is_request t <= 1)%nat).
  { intros Hnone. revert Hrun. destruct br as [pf bt req].
    destruct c as [[d|] srv svc chr conn proto dn di last]; [discriminate|].
    hexec. hcases; intros [= <- <- <-]; cbn; lia. }
  rewrite Hrun. split; [exact Hgatt|]. split; [|exact Hcase].
  destruct (device c) as [d|]; [apply Hheld; discriminate|now apply Hreq].
Qed.

Lemma reconnect_attempt_outcome (br : Browser) (tick : nat) (c : Controller) :
  exists r c' t,
    reconnect_attempt br tick c = (Done r, c', t)
    /\ device c' = device c
    /\ delays t = []
    /\ counts is_request t = 0%nat
    /\ (counts is_gatt_connect t <= 1)%nat
    /\ match r with
       | Some b => b = true /\ Connected c'
       | None => device c = None -> c' = c /\ t = []
       end.
Proof.
  unfold reconnect_attempt.
  cbv beta iota zeta delta [htry hbind hgets hret].
  destruct (device c) as [d|] eqn:Hd.
  - destruct (dev_gatt d).
    + cbn [length app Nat.add].
      match goal with
      | |- context [connect ?p ?b ?k ?cc] =>
          destruct (connect_outcome p b k cc)
            as (r & c1 & t1 & -> & Hgatt & Hheld & Hdelays & Hcase)
      end.
      destruct (Hheld ltac:(congruence)) as (Hreq & Hdev).
      destruct r as [b|e].
      * destruct Hcase as (-> & Hconn & _).
        do 3 eexists. split; [reflexivity|]. rewrite !app_nil_r.
        conjs; auto; congruence.
      * do 3 eexists. split; [reflexivity|]. rewrite !app_nil_r.
        conjs; auto; congruence.
    + do 3 eexists. split; [reflexivity|]. cbn. conjs; auto; congruence.
  - do 3 eexists. split; [reflexivity|]. cbn. conjs; auto.
Qed.

Lemma reconnect_attempt_unreachable (br : Browser) (tick : nat) (c : Controller)
  (d : Device) :
  unreachable br -> device c = Some d -> dev_gatt d = true ->
  reconnect_attempt br tick c
  = (Done None, set_isConnected false c, [OnPlatform (EvGattConnect None)]).
Proof.
  intros Hun Hd Hg. unfold unreachable in Hun.
  destruct br as [pf bt req].
  destruct c as [dev srv svc chr conn proto dn di last]; simpl in Hd; subst dev.
  destruct d as [dname did gatt]; simpl in Hg; subst gatt.
  cbn [platform] in Hun. hexec. rewrite Hun. hexec. reflexivity.
Qed.

Lemma reconnect_loop_S (k : nat) (br : Browser) (tick : nat) (c : Controller) :
  reconnect_loop (S k) br tick c =
  let '(r, c1, t1) := reconnect_attempt br (S tick) c in
  match r with
  | Done (Some b) => (Done b, c1, EvDelay 3000 :: t1)
  | Done None =>
      let '(r2, c2, t2) := reconnect_loop k br (S (length t1 + tick)) c1 in
      (r2, c2, EvDelay 3000 :: t1 ++ t2)
  | Failed e => (Failed e, c1, EvDelay 3000 :: t1)
  end.
Proof.
  change (reconnect_loop (S k))
    with (hbind (emit (EvDelay 3000))
            (fun _ => hbind reconnect_attempt
                        (fun r => match r with
                                  | Some b => hret b
                                  | None => reconnect_loop k
                                  end))).
  cbv beta iota zeta delta [hbind emit hret].
  cbn [length Nat.add app].
  destruct (reconnect_attempt br (S tick) c) as [[[[b|]|e] c1] t1].
  - now rewrite app_nil_r.
  - replace (length t1 + S tick)%nat with (S (length t1 + tick)) by lia.
    destruct (reconnect_loop k br (S (length t1 + tick)) c1) as [[r2 c2] t2].
    reflexivity.
  - reflexivity.
Qed.

Lemma reconnect_loop_outcome (br : Browser) :
  forall (remaining tick : nat) (c : Controller),
  exists b c' t,
    reconnect_loop remaining br tick c = (Done b, c', t)
    /\ Forall (fun ms => ms = 3000) (delays t)
    /\ (length (delays t) <= remaining)%nat
    /\ (counts is_gatt_connect t <= length (delays t))%nat
    /\ counts is_request t = 0%nat
    /\ (b = true -> Connected c')
    /\ (b = false -> length (delays t) = remaining).
Proof.
  induction remaining as [|k IH]; intros tick c.
  - exists false, c, []. cbn. conjs; auto; discriminate.
  - rewrite reconnect_loop_S.
    destruct (reconnect_attempt_outcome br (S tick) c)
      as (r & c1 & t1 & -> & Hdev & Hdel & Hreq & Hgatt & Hcase).
    destruct r as [b|].
    + destruct Hcase as (-> & Hconn).
      exists true, c1, (EvDelay 3000 :: t1).
      split; [reflexivity|]. cbn [delays]. rewrite Hdel.
      change (counts ?f (EvDelay 3000 :: t1)) with (counts f t1).
      cbn. conjs; auto; try lia; discriminate.
    + destruct (IH (S (length t1 + tick)) c1)
        as (b & c2 & t2 & -> & Hall & Hlen & Hg2 & Hr2 & Ht & Hf).
      exists b, c2, (EvDelay 3000 :: t1 ++ t2).
      split; [reflexivity|]. cbn [delays].
      change (counts ?f (EvDelay 3000 :: ?l)) with (counts f l).
      rewrite delays_app, Hdel, !counts_app, Hreq, Hr2. cbn [app length].
      conjs; auto; try lia.
Qed.

(** X10.  [attemptReconnect()] never throws and never opens the device
    picker.  It waits 3000 ms before each attempt, makes at most three
    attempts and at most one [gatt.connect()] call per attempt; it returns
    [true] as soon as an attempt connects, leaving a Connected session,
    and [false] only after all three waits. *)
Theorem attemptReconnect_bounded (br : Browser) (tick : nat) (c : Controller) :
  exists b c' t,
    attemptReconnect br tick c = (Done b, c', t)
    /\ Forall (fun ms => ms = 3000) (delays t)
    /\ (length (delays t) <= 3)%nat
    /\ (counts is_gatt_connect t <= length (delays t))%nat
    /\ counts is_request t = 0%nat
    /\ if b then Connected c' else length (delays t) = 3%nat.
Proof.
  destruct (reconnect_loop_outcome br 3 tick c)
    as (b & c' & t & Hrun & Hall & Hlen & Hgatt & Hreq & Ht & Hf).
  exists b, c', t. conjs; auto.
  destruct b; auto.
Qed.

(** X11.  With a device held and every [gatt.connect()] rejected,
    [attemptReconnect()] makes exactly three attempts, each a 3000 ms wait
    followed by one rejected [gatt.connect()], returns [false] and leaves
    the session marked not connected, every other field as it was. *)
Theorem attemptReconnect_exhausted (br : Browser) (tick : nat) (c : Controller)
  (d : Device) :
  unreachable br -> device c = Some d -> dev_gatt d = true ->
  attemptReconnect br tick c
  = (Done false, set_isConnected false c,
     [EvDelay 3000; OnPlatform (EvGattConnect None);
      EvDelay 3000; OnPlatform (EvGattConnect None);
      EvDelay 3000; OnPlatform (EvGattConnect None)]).
Proof.
  intros Hun Hd Hg. unfold attemptReconnect.
  assert (Hd' : device (set_isConnected false c) = Some d) by exact Hd.
  rewrite reconnect_loop_S, (reconnect_attempt_unreachable br _ c d Hun Hd Hg).
  rewrite reconnect_loop_S,
    (reconnect_attempt_unreachable br _ (set_isConnected false c) d Hun Hd' Hg).
  rewrite reconnect_loop_S,
    (reconnect_attempt_unreachable br _ _ d Hun Hd' Hg).
  reflexivity.
Qed.

Lemma attemptReconnect_exhausted_witness :
  unreachable dead_browser
  /\ device sample_session = Some sample_device
  /\ dev_gatt sample_device = true
  /\ attemptReconnect dead_browser 0%nat sample_session
     = (Done false, set_isConnected false sample_session,
        [EvDelay 3000; OnPlatform (EvGattConnect None);
         EvDelay 3000; OnPlatform (EvGattConnect None);
         EvDelay 3000; OnPlatform (EvGattConnect None)]).
Proof.
  assert (Hun : unreachable dead_browser) by (intros k; reflexivity).
  split; [exact Hun|]. split; [reflexivity|]. split; [reflexivity|].
  exact (attemptReconnect_exhausted dead_browser 0%nat sample_session sample_device
           Hun eq_refl eq_refl).
Defined.

(** X12.  On a controller that holds no device, as [disconnect()] leaves
    it, [attemptReconnect()] waits three times 3000 ms, makes no platform
    call at all, changes nothing and returns [false]. *)
Theorem attemptReconnect_without_device (br : Browser) (tick : nat) (c : Controller) :
  device c = None ->
  attemptReconnect br tick c
  = (Done false, c, [EvDelay 3000; EvDelay 3000; EvDelay 3000]).
Proof.
  intros Hd. unfold attemptReconnect.
  assert (Hstep : forall k, reconnect_attempt br k c = (Done None, c, [])).
  { intros k. unfold reconnect_attempt.
    cbv beta iota zeta delta [htry hbind hgets hret]. rewrite Hd. reflexivity. }
  rewrite reconnect_loop_S, Hstep. cbn [length Nat.add app].
  rewrite reconnect_loop_S, Hstep. cbn [length Nat.add app].
  rewrite reconnect_loop_S, Hstep. reflexivity.
Qed.

Lemma attemptReconnect_without_device_witness :
  device (clear_session sample_session) = None
  /\ attemptReconnect dead_browser 0%nat (clear_session sample_session)
     = (Done false, clear_session sample_session,
        [EvDelay 3000; EvDelay 3000; EvDelay 3000]).
Proof.
  split; [reflexivity|].
  exact (attemptReconnect_without_device dead_browser 0%nat
           (clear_session sample_session) eq_refl).
Defined.

(** X13.  [runTestSequence()] does not look at the results of its four
    color commands: on a session marked connected with a protocol
    recorded it returns [true] after the four 500 ms pauses whatever the
    platform does, even if every write fails.  It returns [false] without
    any platform call when the session is not marked connected, or when
    no protocol is recorded (the TypeError of the first command is
    caught). *)
Theorem runTestSequence_ignores_failures (br : Browser) (tick : nat) (c : Controller) :
  match isConnected c, protocol c with
  | true, Some _ =>
      exists c' t,
        runTestSequence br tick c = (Done true, c', t)
        /\ delays t = [500; 500; 500; 500]
  | _, _ => runTestSequence br tick c = (Done false, c, [])
  end.
Proof.
  unfold runTestSequence.
  cbv beta iota zeta delta [hbind hgets htry lift emit hret].
  destruct (isConnected c) eqn:Hconn; cbn [negb];
    [|destruct (protocol c); reflexivity].
  destruct (protocol c) as [p|] eqn:Hp.
  - cbn [length app Nat.add].
    do 4 (match goal with
          | |- context [setColorRGB ?x ?y ?z ?q ?tk ?cc] =>
              let H := fresh "Hp" in
              destruct (setColorRGB_returns x y z q tk cc p ltac:(assumption))
                as (? & ? & ? & -> & H)
          end; cbn [length app Nat.add]).
    do 2 eexists. split; [reflexivity|].
    repeat (rewrite ?delays_app, ?delays_OnPlatform; cbn [delays app]).
    reflexivity.
  - unfold setColorRGB. cbv beta iota zeta delta [bind gets throw].
    rewrite Hp. reflexivity.
Qed.

(** X30.  The status helpers follow the session.  After a [connect] that
    returns, [getConnectedDevices()] lists exactly one entry, with the
    name of the device held, its id as both [mac] and [id], and the
    protocol given to [connect], and [getConnectionStatus()] reports
    connected with the same data.  After a following [disconnect()] the
    list is empty and the status reports not connected with no device,
    while the protocol, the name and the id stay recorded.  After a
    [connect] that throws, no connected device is listed. *)
Theorem status_follows_session (p : option Protocol) (br : Browser)
  (tick tick' : nat) (c : Controller) :
  let '(r, c', _) := connect p br tick c in
  match r with
  | Done _ =>
      exists d,
        device c' = Some d
        /\ BLEOps.getConnectedDevices c'
           = [BLEOps.mkConnectedDevice (Some (dev_name d)) (Some (dev_id d))
                (Some (dev_id d)) p]
        /\ BLEOps.getConnectionStatus c'
           = (true, Some (Some (dev_name d), Some (dev_id d), p))
        /\ let '(r2, c2, _) := disconnect (platform br) tick' c' in
           r2 = Returned tt
           /\ BLEOps.getConnectedDevices c2 = []
           /\ BLEOps.getConnectionStatus c2 = (false, None)
           /\ protocol c2 = p
           /\ deviceName c2 = Some (dev_name d)
           /\ deviceId c2 = Some (dev_id d)
  | Failed _ =>
      BLEOps.getConnectedDevices c' = []
      /\ fst (BLEOps.getConnectionStatus c') = false
  end.
Proof.
  destruct (connect_outcome p br tick c) as (r & c' & t & -> & _ & _ & _ & Hr).
  destruct r as [b|e].
  - destruct Hr as (_ & (Hconn & _ & (d0 & Hd0 & Hgatt)) & Hp & _ & (d & Hd & Hn & Hi)).
    assert (d0 = d) by congruence. subst d0.
    exists d. unfold BLEOps.getConnectedDevices, BLEOps.getConnectionStatus.
    rewrite Hconn, Hd, Hn, Hi, Hp.
    conjs; try reflexivity.
    destruct (disconnect_runs (platform br) tick' c') as (t1 & ->).
    { intros d' Hd'. congruence. }
    cbn [clear_session isConnected device protocol deviceName deviceId].
    conjs; auto.
  - destruct Hr as (Hconn & _).
    unfold BLEOps.getConnectedDevices, BLEOps.getConnectionStatus.
    rewrite Hconn. split; reflexivity.
Qed.

End Recovery.

(* ================================================================== *)
(** * Further properties of the device registry *)
(* ================================================================== *)

Section RegistryOperations.

Import Registry RegistryOps.

Lemma existsb_find {A} (p : A -> bool) (l : list A) :
  existsb p l = match find p l with Some _ => true | None => false end.
Proof.
  induction l as [|x l IH]; [reflexivity|]. simpl.
  destruct (p x); [reflexivity|exact IH].
Qed.

Lemma find_snoc {A} (p : A -> bool) (l : list A) (x : A) :
  find p (l ++ [x])
  = match find p l with
    | Some y => Some y
    | None => if p x then Some x else None
    end.
Proof.
  induction l as [|y l IH]; simpl; [reflexivity|].
  destruct (p y); [reflexivity|exact IH].
Qed.

(** X14.  [addDevice] never replaces a record: when a device with the
    same id is known it returns [false] and leaves the registry as it is;
    otherwise it returns [true] and appends the device.  Afterwards every
    id that was known is looked up to the same record as before, and the
    new id, if it was unknown, to the device added; groups and history are
    untouched. *)
Theorem addDevice_lookup (device : DeviceRecord) (m : Manager) (i : string) :
  addDevice device m
  = match getDeviceById (id device) m with
    | Some _ => (false, m)
    | None => (true, mkManager (devices m ++ [device]) (groups m) (connectionHistory m))
    end
  /\ getDeviceById i (snd (addDevice device m))
     = match getDeviceById i m with
       | Some d => Some d
       | None => if String.eqb (id device) i then Some device else None
       end
  /\ groups (snd (addDevice device m)) = groups m
  /\ connectionHistory (snd (addDevice device m)) = connectionHistory m.
Proof.
  unfold addDevice, getDeviceById. rewrite existsb_find.
  destruct (find (has_id (id device)) (devices m)) as [d0|] eqn:Hfind; simpl.
  - repeat split.
    destruct (find (has_id i) (devices m)) as [d|] eqn:Hi; [reflexivity|].
    destruct (String.eqb_spec (id device) i) as [<-|]; [congruence|reflexivity].
  - repeat split. rewrite find_snoc. reflexivity.
Qed.

Lemma update_first_ids (i : string) (f : DeviceRecord -> DeviceRecord)
  (l : list DeviceRecord) :
  (forall x, id (f x) = id x) ->
  map id (update_first (has_id i) f l) = map id l.
Proof.
  intros Hid. induction l as [|x l IH]; [reflexivity|]. simpl.
  destruct (has_id i x); simpl; [now rewrite Hid|now rewrite IH].
Qed.

Lemma find_device_update_other (i j : string) (f : DeviceRecord -> DeviceRecord)
  (l : list DeviceRecord) :
  (forall x, id (f x) = id x) ->
  i <> j ->
  find (has_id i) (update_first (has_id j) f l) = find (has_id i) l.
Proof.
  intros Hid Hij. unfold has_id. induction l as [|x l IH]; [reflexivity|]. simpl.
  destruct (String.eqb_spec (id x) j) as [Hxj|Hxj]; simpl.
  - rewrite Hid.
    destruct (String.eqb_spec (id x) i); [congruence|reflexivity].
  - destruct (String.eqb (id x) i); [reflexivity|exact IH].
Qed.

(** Lookup after an assignment to the device with id [j]. *)
Lemma getDeviceById_update_device (i j : string) (f : DeviceRecord -> DeviceRecord)
  (m : Manager) :
  (forall x, id (f x) = id x) ->
  getDeviceById i (update_device j f m)
  = if String.eqb i j then option_map f (getDeviceById i m) else getDeviceById i m.
Proof.
  intros Hid. unfold getDeviceById, update_device. simpl.
  destruct (String.eqb_spec i j) as [->|Hij].
  - now apply find_device_update_first.
  - now apply find_device_update_other.
Qed.

(** ** [trim] *)

Lemma is_white_space2_first (c1 c2 : ascii) :
  JS.is_white_space2 c1 c2 = true -> JS.is_white_space c1 = false.
Proof.
  unfold JS.is_white_space2, JS.is_white_space. intros H.
  apply andb_prop in H. destruct H as (H & _). apply Z.eqb_eq in H. rewrite H.
  reflexivity.
Qed.

Lemma is_white_space3_first (c1 c2 c3 : ascii) :
  JS.is_white_space3 c1 c2 c3 = true ->
  JS.is_white_space c1 = false /\ JS.is_white_space2 c1 c2 = false.
Proof.
  unfold JS.is_white_space3, JS.is_white_space2, JS.is_white_space. cbv zeta. intros H.
  destruct (Z.eqb_spec (JS.code c1) 0xE1) as [E|_]; [rewrite E; split; reflexivity|].
  destruct (Z.eqb_spec (JS.code c1) 0xE2) as [E|_]; [rewrite E; split; reflexivity|].
  destruct (Z.eqb_spec (JS.code c1) 0xE3) as [E|_]; [rewrite E; split; reflexivity|].
  destruct (Z.eqb_spec (JS.code c1) 0xEF) as [E|_]; [rewrite E; split; reflexivity|].
  discriminate H.
Qed.

(** A white space character in front is dropped by [trim_start]. *)
Lemma trim_start_white_space_char (w s : string) :
  JS.white_space_char w = true -> JS.trim_start (w ++ s) = JS.trim_start s.
Proof.
  intros Hw. destruct w as [|c1 [|c2 [|c3 [|c4 w]]]]; try discriminate Hw;
    cbn [JS.white_space_char] in Hw; cbn [append JS.trim_start].
  - rewrite Hw. reflexivity.
  - rewrite (is_white_space2_first _ _ Hw), Hw. reflexivity.
  - destruct (is_white_space3_first _ _ _ Hw) as (H1 & H2).
    rewrite H1, H2, Hw. reflexivity.
Qed.

(** [trim_start] either finds no white space in front and returns the
    string, or drops one white space character and goes on. *)
Lemma trim_start_cases (s : string) :
  (JS.starts_with_white_space s = false /\ JS.trim_start s = s)
  \/ (exists w r, s = (w ++ r)%string /\ JS.white_space_char w = true
                  /\ JS.trim_start s = JS.trim_start r).
Proof.
  destruct s as [|c1 r1]; [left; split; reflexivity|].
  destruct (JS.is_white_space c1) eqn:E1.
  { right. exists (String c1 EmptyString), r1. cbn. rewrite E1. auto. }
  destruct r1 as [|c2 r2]; [left; cbn; rewrite E1; split; reflexivity|].
  destruct (JS.is_white_space2 c1 c2) eqn:E2.
  { right. exists (String c1 (String c2 EmptyString)), r2. cbn. rewrite E1, E2. auto. }
  destruct r2 as [|c3 r3]; [left; cbn; rewrite E1, E2; split; reflexivity|].
  destruct (JS.is_white_space3 c1 c2 c3) eqn:E3.
  { right. exists (String c1 (String c2 (String c3 EmptyString))), r3.
    cbn. rewrite E1, E2, E3. auto. }
  left. cbn. rewrite E1, E2, E3. split; reflexivity.
Qed.

Lemma white_space_char_length (w : string) :
  JS.white_space_char w = true -> (0 < String.length w)%nat.
Proof. destruct w; [discriminate|simpl; lia]. Qed.

Lemma length_append (a b : string) :
  String.length (a ++ b) = (String.length a + String.length b)%nat.
Proof. induction a as [|c a IH]; simpl; [reflexivity|now rewrite IH]. Qed.

Lemma append_assoc (a b c : string) : ((a ++ b) ++ c = a ++ (b ++ c))%string.
Proof. induction a as [|x a IH]; simpl; [reflexivity|now rewrite IH]. Qed.

(** What [trim_start] drops is white space only, and what it returns
    starts with none. *)
Lemma trim_start_split (s : string) :
  JS.starts_with_white_space (JS.trim_start s) = false
  /\ exists pre, s = (pre ++ JS.trim_start s)%string /\ JS.blank pre = true.
Proof.
  remember (String.length s) as n eqn:Hn.
  revert s Hn. induction n as [n IH] using lt_wf_ind. intros s Hn.
  destruct (trim_start_cases s) as [(Hs & Ht)|(w & r & Hs & Hw & Ht)].
  - rewrite Ht. split; [exact Hs|]. exists EmptyString. split; reflexivity.
  - rewrite Ht.
    assert (Hlt : (String.length r < n)%nat).
    { subst s n. rewrite length_append.
      pose proof (white_space_char_length w Hw). lia. }
    destruct (IH _ Hlt r eq_refl) as (Hstart & pre & Hpre & Hblank).
    split; [exact Hstart|].
    exists (w ++ pre)%string. split.
    + rewrite append_assoc, <- Hpre. exact Hs.
    + unfold JS.blank in *. rewrite trim_start_white_space_char by exact Hw.
      exact Hblank.
Qed.

(** What [trim_end] drops is white space only. *)
Lemma trim_end_split (s : string) :
  exists post, s = (trim_end s ++ post)%string /\ JS.blank post = true.
Proof.
  induction s as [|c s IH].
  - exists EmptyString. split; reflexivity.
  - cbn [trim_end]. destruct (JS.blank (String c s)) eqn:E.
    + exists (String c s). split; [reflexivity|exact E].
    + destruct IH as (post & Hpost & Hblank).
      exists post. split; [|exact Hblank].
      cbn [append]. now rewrite <- Hpost.
Qed.

(** What [trim_end] returns ends with no white space character. *)
Lemma trim_end_last (s : string) : ends_with_white_space (trim_end s) = false.
Proof.
  induction s as [|c s IH]; [reflexivity|].
  cbn [trim_end]. destruct (JS.blank (String c s)) eqn:E; [reflexivity|].
  cbn [ends_with_white_space]. rewrite IH, orb_false_r.
  destruct (JS.white_space_char (String c (trim_end s))) eqn:Hw; [|reflexivity].
  exfalso. destruct (trim_end_split s) as (post & Hpost & Hblank).
  unfold JS.blank in *.
  assert (H : JS.trim_start (String c s) = JS.trim_start post).
  { rewrite Hpost at 1.
    change (String c (trim_end s ++ post)) with (String c (trim_end s) ++ post)%string.
    now apply trim_start_white_space_char. }
  rewrite H, Hblank in E. discriminate.
Qed.

Lemma starts_with_white_space_append (a b : string) :
  JS.starts_with_white_space a = true -> JS.starts_with_white_space (a ++ b) = true.
Proof.
  destruct a as [|c1 [|c2 [|c3 a]]]; cbn; try discriminate.
  - rewrite orb_false_r. intros ->. reflexivity.
  - rewrite orb_false_r. intros H. apply orb_prop in H. destruct H as [->|H].
    + reflexivity.
    + rewrite H. cbn. apply orb_true_r.
  - intros H. exact H.
Qed.

(** [trim_end] brings no white space to the front. *)
Lemma trim_end_first (s : string) :
  JS.starts_with_white_space s = false ->
  JS.starts_with_white_space (trim_end s) = false.
Proof.
  intros Hs. destruct (JS.starts_with_white_space (trim_end s)) eqn:E; [|reflexivity].
  destruct (trim_end_split s) as (post & Hpost & _).
  rewrite Hpost in Hs.
  rewrite (starts_with_white_space_append _ post E) in Hs. discriminate.
Qed.

(** [s.trim()] is [s] without a prefix and a suffix of white space, and
    has white space at neither end. *)
Lemma trim_edges (s : string) :
  JS.starts_with_white_space (trim s) = false
  /\ ends_with_white_space (trim s) = false
  /\ exists pre post,
       s = (pre ++ trim s ++ post)%string
       /\ JS.blank pre = true /\ JS.blank post = true.
Proof.
  unfold trim.
  destruct (trim_start_split s) as (Hstart & pre & Hpre & Hbpre).
  destruct (trim_end_split (JS.trim_start s)) as (post & Hpost & Hbpost).
  split; [now apply trim_end_first|]. split; [apply trim_end_last|].
  exists pre, post. split; [|split; assumption].
  rewrite <- Hpost. exact Hpre.
Qed.

Example trim_samples :
  trim "  Desk lamp  " = "Desk lamp"%string
  /\ trim (JS.nbsp ++ "Desk" ++ JS.nbsp) = "Desk"%string
  /\ trim (JS.ideographic_space ++ " Desk" ++ JS.utf8 [0xEF; 0xBB; 0xBF; 0x09])
     = "Desk"%string
  /\ trim JS.nbsp = ""%string
  /\ trim (JS.utf8 [0x61; 0xC3; 0xA0]) = JS.utf8 [0x61; 0xC3; 0xA0].
Proof. vm_compute. repeat split. Qed.

(** X15.  [renameDevice] stores the trimmed name or throws.  When it
    succeeds, the name stored for the device is the new name without the
    white space (of any encoding length, as U+00A0) in front and behind:
    it is not empty, starts and ends with no white space character, and
    what was cut off is white space only.  The other devices, the device
    ids, the groups and the history are unchanged.  It throws exactly when
    the trimmed name is empty or the id is unknown. *)
Theorem renameDevice_stores_trimmed_name (deviceId newName : string) (now : Z)
  (m : Manager) :
  match renameDevice deviceId newName now m with
  | Ok m' =>
      trim newName <> ""%string
      /\ JS.starts_with_white_space (trim newName) = false
      /\ ends_with_white_space (trim newName) = false
      /\ (exists pre post,
            newName = (pre ++ trim newName ++ post)%string
            /\ JS.blank pre = true /\ JS.blank post = true)
      /\ (exists dev,
            getDeviceById deviceId m = Some dev
            /\ getDeviceById deviceId m'
               = Some (set_updatedAt now (set_name (trim newName) dev)))
      /\ (forall j,
            getDeviceById j m'
            = if String.eqb j deviceId
              then option_map
                     (fun d => set_updatedAt now (set_name (trim newName) d))
                     (getDeviceById j m)
              else getDeviceById j m)
      /\ map id (devices m') = map id (devices m)
      /\ groups m' = groups m
      /\ connectionHistory m' = connectionHistory m
  | Throw message =>
      (message = "Name darf nicht leer sein"%string /\ trim newName = ""%string)
      \/ (message = "Gerät nicht gefunden"%string
          /\ trim newName <> ""%string /\ getDeviceById deviceId m = None)
  end.
Proof.
  unfold renameDevice.
  destruct (String.eqb_spec newName "") as [->|Hne]; simpl; [left; split; reflexivity|].
  destruct (String.eqb_spec (trim newName) "") as [Ht|Ht]; simpl;
    [left; split; [reflexivity|exact Ht]|].
  destruct (getDeviceById deviceId m) as [dev|] eqn:Hdev;
    [|right; split; [reflexivity|split; [exact Ht|reflexivity]]].
  destruct (trim_edges newName) as (Hstart & Hend & Hsplit).
  split; [exact Ht|]. split; [exact Hstart|]. split; [exact Hend|].
  split; [exact Hsplit|].
  split.
  { exists dev. split; [reflexivity|].
    rewrite getDeviceById_update_device by reflexivity.
    rewrite String.eqb_refl, Hdev. reflexivity. }
  split.
  { intros j. now apply getDeviceById_update_device. }
  split; [|split; reflexivity]. simpl. now apply update_first_ids.
Qed.

(** X16.  [setDeviceProtocol] accepts the two ids of the protocol table
    only: any other protocol name throws 'Ungültiges Protokoll', even for
    an unknown device; a valid name on an unknown device throws 'Gerät
    nicht gefunden'.  On success the device carries the new protocol,
    which the lookup of [sendHardwareCommand] finds. *)
Theorem setDeviceProtocol_validates (deviceId protocol : string) (now : Z)
  (m : Manager) :
  match setDeviceProtocol deviceId protocol now m with
  | Ok m' =>
      (protocol = "ELK_BLEDOM"%string \/ protocol = "GENERIC"%string)
      /\ find_protocol protocol <> None
      /\ (exists dev,
            getDeviceById deviceId m = Some dev
            /\ getDeviceById deviceId m'
               = Some (set_updatedAt now (set_protocol protocol dev)))
      /\ groups m' = groups m
  | Throw msg =>
      if String.eqb protocol "ELK_BLEDOM" || String.eqb protocol "GENERIC"
      then msg = "Gerät nicht gefunden"%string /\ getDeviceById deviceId m = None
      else msg = "Ungültiges Protokoll"%string
  end.
Proof.
  unfold setDeviceProtocol, find_protocol. simpl.
  destruct (String.eqb_spec protocol "ELK_BLEDOM") as [->|H1]; simpl.
  - destruct (getDeviceById deviceId m) as [dev|] eqn:Hdev; [|split; reflexivity].
    split; [left; reflexivity|]. split; [discriminate|]. split; [|reflexivity].
    exists dev. split; [reflexivity|].
    rewrite getDeviceById_update_device by reflexivity.
    rewrite String.eqb_refl, Hdev. reflexivity.
  - destruct (String.eqb_spec protocol "GENERIC") as [->|H2]; simpl; [|reflexivity].
    destruct (getDeviceById deviceId m) as [dev|] eqn:Hdev; [|split; reflexivity].
    split; [right; reflexivity|]. split; [discriminate|]. split; [|reflexivity].
    exists dev. split; [reflexivity|].
    rewrite getDeviceById_update_device by reflexivity.
    rewrite String.eqb_refl, Hdev. reflexivity.
Qed.

(** X17.  [toggleFavorite] and [toggleAutoConnect] return the new value
    of the flag, and toggling twice restores the device record up to its
    [updatedAt] stamp; groups are untouched. *)
Theorem toggle_twice_restores (deviceId : string) (t1 t2 : Z) (m : Manager)
  (dev : DeviceRecord) :
  getDeviceById deviceId m = Some dev ->
  (exists m1 m2,
      toggleFavorite deviceId t1 m = Ok (negb (favorite dev), m1)
      /\ toggleFavorite deviceId t2 m1 = Ok (favorite dev, m2)
      /\ getDeviceById deviceId m2 = Some (set_updatedAt t2 dev)
      /\ groups m2 = groups m)
  /\ (exists m1 m2,
      toggleAutoConnect deviceId t1 m = Ok (negb (autoConnect dev), m1)
      /\ toggleAutoConnect deviceId t2 m1 = Ok (autoConnect dev, m2)
      /\ getDeviceById deviceId m2 = Some (set_updatedAt t2 dev)
      /\ groups m2 = groups m).
Proof.
  intros Hdev. split.
  - unfold toggleFavorite. rewrite Hdev.
    do 2 eexists. split; [reflexivity|].
    rewrite getDeviceById_update_device by reflexivity.
    rewrite String.eqb_refl, Hdev. cbn [option_map].
    split; [destruct dev; simpl; rewrite negb_involutive; reflexivity|].
    split; [|reflexivity].
    rewrite !getDeviceById_update_device by reflexivity.
    rewrite String.eqb_refl, Hdev. simpl.
    destruct dev; simpl. rewrite negb_involutive. reflexivity.
  - unfold toggleAutoConnect. rewrite Hdev.
    do 2 eexists. split; [reflexivity|].
    rewrite getDeviceById_update_device by reflexivity.
    rewrite String.eqb_refl, Hdev. cbn [option_map].
    split; [destruct dev; simpl; rewrite negb_involutive; reflexivity|].
    split; [|reflexivity].
    rewrite !getDeviceById_update_device by reflexivity.
    rewrite String.eqb_refl, Hdev. simpl.
    destruct dev; simpl. rewrite negb_involutive. reflexivity.
Qed.

Lemma toggle_twice_restores_witness :
  getDeviceById "k3Yb0Q==" sample_manager = Some strip
  /\ exists m1 m2,
       toggleFavorite "k3Yb0Q==" 2000 sample_manager = Ok (true, m1)
       /\ toggleFavorite "k3Yb0Q==" 2001 m1 = Ok (false, m2)
       /\ getDeviceById "k3Yb0Q==" m2 = Some (set_updatedAt 2001 strip)
       /\ groups m2 = groups sample_manager.
Proof.
  split; [reflexivity|].
  exact (proj1 (toggle_twice_restores "k3Yb0Q==" 2000 2001 sample_manager strip
                  eq_refl)).
Defined.

Lemma find_NoDup_app (i : string) (l1 l2 : list DeviceRecord) (x : DeviceRecord) :
  NoDup (map id (l1 ++ x :: l2)) ->
  has_id i x = true ->
  find (has_id i) (l1 ++ l2) = None.
Proof.
  unfold has_id. intros Hnd Hx. apply String.eqb_eq in Hx.
  rewrite map_app in Hnd. simpl in Hnd. apply NoDup_remove_2 in Hnd.
  destruct (find (fun d => String.eqb (id d) i) (l1 ++ l2)) as [y|] eqn:Hy;
    [|reflexivity].
  apply find_some in Hy. destruct Hy as (Hin & Hid). apply String.eqb_eq in Hid.
  exfalso. apply Hnd. rewrite <- map_app, Hx, <- Hid. now apply in_map.
Qed.

(** X18.  [deleteDevice], when the user declines the confirmation,
    returns [false] and changes nothing.  When confirmed, on a registry
    with unique device ids, it removes the device, so that its id is no
    longer known while every other id is looked up as before, and it never
    touches the groups: a group that listed the device still lists its id
    afterwards. *)
Theorem deleteDevice_leaves_groups (deviceId g : string) (m : Manager)
  (dev : DeviceRecord) (G : Group) :
  getDeviceById deviceId m = Some dev ->
  NoDup (map id (devices m)) ->
  find_group g m = Some G ->
  In deviceId (g_devices G) ->
  deleteDevice deviceId false m = Ok (false, m)
  /\ exists m',
       deleteDevice deviceId true m = Ok (true, m')
       /\ getDeviceById deviceId m' = None
       /\ (forall j, getDeviceById j m'
                     = if String.eqb j deviceId then None else getDeviceById j m)
       /\ groups m' = groups m
       /\ connectionHistory m' = connectionHistory m
       /\ find_group g m' = Some G
       /\ In deviceId (g_devices G).
Proof.
  intros Hdev Hnd HG Hin. unfold deleteDevice.
  assert (Hfound : find (has_id deviceId) (devices m) <> None)
    by (unfold getDeviceById in Hdev; congruence).
  destruct (findIndex_Some _ _ Hfound) as (i & Hi). rewrite Hi.
  split; [reflexivity|]. eexists. split; [reflexivity|].
  destruct (findIndex_split _ _ _ Hi) as (l1 & x & l2 & Hl & Hx & Hl1 & Hsplice).
  assert (Hgone : find (has_id deviceId) (splice1 i (devices m)) = None).
  { rewrite Hsplice. rewrite Hl in Hnd.
    now apply (find_NoDup_app deviceId l1 l2 x). }
  unfold getDeviceById, find_group. cbn [devices groups connectionHistory].
  split; [exact Hgone|].
  split; [|split; [reflexivity|split; [reflexivity|split; [exact HG|exact Hin]]]].
  intros j. destruct (String.eqb_spec j deviceId) as [->|Hj]; [exact Hgone|].
  rewrite Hsplice, Hl. symmetry. apply find_skip_middle.
  unfold has_id in *. apply String.eqb_eq in Hx. apply String.eqb_neq. congruence.
Qed.

Lemma deleteDevice_leaves_groups_witness :
  getDeviceById "k3Yb0Q==" sample_manager = Some strip
  /\ NoDup (map id (devices sample_manager))
  /\ find_group "device_2_lamp" sample_manager = Some lamp
  /\ In "k3Yb0Q=="%string (g_devices lamp)
  /\ deleteDevice "k3Yb0Q==" false sample_manager = Ok (false, sample_manager)
  /\ exists m',
       deleteDevice "k3Yb0Q==" true sample_manager = Ok (true, m')
       /\ getDeviceById "k3Yb0Q==" m' = None
       /\ find_group "device_2_lamp" m' = Some lamp
       /\ In "k3Yb0Q=="%string (g_devices lamp).
Proof.
  assert (Hnd : NoDup (map id (devices sample_manager)))
    by (repeat constructor; simpl; tauto).
  assert (Hin : In "k3Yb0Q=="%string (g_devices lamp)) by (left; reflexivity).
  split; [reflexivity|]. split; [exact Hnd|]. split; [reflexivity|].
  split; [exact Hin|].
  destruct (deleteDevice_leaves_groups "k3Yb0Q==" "device_2_lamp" sample_manager
              strip lamp eq_refl Hnd eq_refl Hin)
    as (Hno & m' & Hyes & Hgone & _ & _ & _ & Hstill & Hlisted).
  split; [exact Hno|]. exists m'. auto.
Defined.

Lemma valid_name (name : string) :
  trim name <> ""%string ->
  String.eqb name "" || (String.length (trim name) =? 0)%nat = false.
Proof.
  intros Ht.
  destruct (String.eqb_spec name "") as [->|_]; [now elim Ht|]. simpl.
  destruct (trim name); [now elim Ht|reflexivity].
Qed.

Lemma truthy_Some (s : string) : s <> ""%string -> truthy (Some s) = true.
Proof. intros H. simpl. destruct (String.eqb_spec s ""); [congruence|reflexivity]. Qed.

Lemma find_group_update_groups (i j : string) (f : Group -> Group) (l : list Group) :
  (forall x, g_id (f x) = g_id x) ->
  i <> j ->
  find (has_g_id i) (update_first (has_g_id j) f l) = find (has_g_id i) l.
Proof.
  intros Hid Hij. rewrite find_group_update_first by exact Hid.
  destruct (String.eqb_spec i j); [congruence|reflexivity].
Qed.

(** [createGroup] under a parent whose level is computed. *)
Lemma createGroup_under_parent (fuel : nat) (name description pid newId : string)
  (tc tu tp : Z) (m : Manager) (L : Z) :
  trim name <> ""%string ->
  pid <> ""%string ->
  getGroupLevel fuel pid (groups m) = Some L ->
  let g := mkGroup newId (trim name) description [] (Some pid) [] (L + 1) tc tu in
  exists m',
    createGroup fuel name description (Some pid) newId tc tu tp m = Some (Ok (g, m'))
    /\ devices m' = devices m
    /\ connectionHistory m' = connectionHistory m
    /\ match find_group pid m with
       | Some P =>
           find_group pid m'
           = Some (set_g_updatedAt tp (set_subGroups (subGroups P ++ [newId]) P))
       | None => groups m' = groups m ++ [g]
       end
    /\ (find_group newId m = None -> find_group newId m' = Some g)
    /\ (forall i, i <> pid -> i <> newId -> find_group i m' = find_group i m).
Proof.
  intros Hname Hpid Hlevel g.
  unfold createGroup. rewrite (valid_name name Hname), (truthy_Some pid Hpid).
  cbn [or_empty]. rewrite Hlevel. cbn [option_map].
  eexists. split; [reflexivity|]. cbn [devices groups connectionHistory].
  split; [reflexivity|]. split; [reflexivity|].
  unfold find_group. cbn [groups].
  split; [|split].
  - rewrite find_snoc, find_group_update_first by reflexivity.
    rewrite String.eqb_refl.
    destruct (find (has_g_id pid) (groups m)) as [P|] eqn:HP; cbn [option_map].
    + reflexivity.
    + f_equal. clear - HP. induction (groups m) as [|x l IH]; [reflexivity|].
      simpl in *. destruct (has_g_id pid x); [discriminate|]. now rewrite IH.
  - intros Hfresh. rewrite find_snoc.
    destruct (String.eqb_spec newId pid) as [->|Hne].
    + rewrite find_group_update_first by reflexivity.
      rewrite String.eqb_refl, Hfresh. cbn [option_map].
      unfold has_g_id. cbn [g_id]. now rewrite String.eqb_refl.
    + rewrite find_group_update_groups by (auto; reflexivity).
      rewrite Hfresh. unfold has_g_id. cbn [g_id]. now rewrite String.eqb_refl.
  - intros i Hip Hin. rewrite find_snoc.
    rewrite find_group_update_groups by (auto; reflexivity).
    destruct (find (has_g_id i) (groups m)); [reflexivity|].
    unfold has_g_id. cbn [g_id].
    destruct (String.eqb_spec newId i); [congruence|reflexivity].
Qed.

(** X19.  [createGroup] with a valid name and a non-empty parent id
    whose level [getGroupLevel] computes as [L] succeeds: the new group has
    the trimmed name, level [L + 1], the given parent and no members or
    subgroups; it is appended to the list.  Afterwards every group that
    was known is found as before, except that the parent, if it is known,
    has the new id appended to its [subGroups] (and a new [updatedAt]);
    the new id is found as the new group unless an older group has it.
    With an unknown parent id the group is still created, at level 1, and
    no other group changes. *)
Theorem createGroup_links_parent (fuel : nat) (name description pid newId : string)
  (tc tu tp : Z) (m : Manager) (L : Z) :
  trim name <> ""%string ->
  pid <> ""%string ->
  getGroupLevel fuel pid (groups m) = Some L ->
  let g := mkGroup newId (trim name) description [] (Some pid) [] (L + 1) tc tu in
  exists m',
    createGroup fuel name description (Some pid) newId tc tu tp m = Some (Ok (g, m'))
    /\ devices m' = devices m
    /\ connectionHistory m' = connectionHistory m
    /\ (forall i,
          find_group i m'
          = match find_group i m with
            | Some X =>
                Some (if String.eqb i pid
                      then set_g_updatedAt tp (set_subGroups (subGroups X ++ [newId]) X)
                      else X)
            | None => if String.eqb newId i then Some g else None
            end)
    /\ match find_group pid m with
       | Some _ => True
       | None => L = 0 /\ groups m' = groups m ++ [g]
       end.
Proof.
  intros Hname Hpid Hlevel g.
  destruct (createGroup_under_parent fuel name description pid newId tc tu tp m L
              Hname Hpid Hlevel) as (m' & Hrun & Hdevs & Hhist & Hparent & _ & _).
  exists m'. split; [exact Hrun|]. split; [exact Hdevs|]. split; [exact Hhist|].
  assert (Hgroups : groups m'
                    = update_first (has_g_id pid)
                        (fun p => set_g_updatedAt tp
                                    (set_subGroups (subGroups p ++ [newId]) p))
                        (groups m) ++ [g]).
  { unfold createGroup in Hrun. rewrite (valid_name name Hname) in Hrun.
    rewrite (truthy_Some pid Hpid) in Hrun. cbn [or_empty] in Hrun.
    rewrite Hlevel in Hrun. cbn [option_map] in Hrun.
    injection Hrun as <-. reflexivity. }
  split.
  - intros i. unfold find_group. rewrite Hgroups, find_snoc.
    rewrite find_group_update_first by reflexivity.
    destruct (find (has_g_id i) (groups m)) as [X|];
      destruct (String.eqb i pid); cbn [option_map]; try reflexivity;
      unfold has_g_id; cbn [g_id]; reflexivity.
  - destruct (find_group pid m) as [P|] eqn:HP; [exact I|].
    split; [|exact Hparent].
    destruct fuel as [|fuel']; [discriminate|].
    cbn [getGroupLevel] in Hlevel. unfold find_group in HP.
    rewrite HP in Hlevel. congruence.
Qed.

Lemma createGroup_links_parent_witness :
  trim " Shelf " <> ""%string
  /\ "device_2_lamp"%string <> ""%string
  /\ getGroupLevel 5 "device_2_lamp" (groups sample_manager) = Some 1
  /\ exists m',
       createGroup 5 " Shelf " "" (Some "device_2_lamp"%string) "device_4_shelf"
         2000 2001 2002 sample_manager
       = Some (Ok (mkGroup "device_4_shelf" "Shelf" "" []
                     (Some "device_2_lamp"%string) [] 2 2000 2001, m'))
       /\ find_group "device_2_lamp" m'
          = Some (set_g_updatedAt 2002
                    (set_subGroups ["device_3_bulb"%string; "device_4_shelf"%string]
                       lamp)).
Proof.
  assert (Hname : trim " Shelf " <> ""%string) by discriminate.
  assert (Hpid : "device_2_lamp"%string <> ""%string) by discriminate.
  split; [exact Hname|]. split; [exact Hpid|]. split; [reflexivity|].
  destruct (createGroup_links_parent 5 " Shelf " "" "device_2_lamp" "device_4_shelf"
              2000 2001 2002 sample_manager 1 Hname Hpid eq_refl)
    as (m' & Hrun & _ & _ & Hfind & _).
  exists m'. split; [exact Hrun|].
  rewrite Hfind. reflexivity.
Defined.

(** X20.  On any registry, creating a group without a parent under a
    fresh, non-empty id and then a second group under it gives the first
    level 0 and the second level 1 with the first as its parent, and the
    first group, looked up afterwards, lists exactly the second one as its
    subgroup. *)
Theorem createGroup_nested (fuel : nat) (name1 name2 d1 d2 id1 id2 : string)
  (tc1 tu1 tp1 tc2 tu2 tp2 : Z) (m : Manager) :
  trim name1 <> ""%string ->
  trim name2 <> ""%string ->
  id1 <> ""%string ->
  find_group id1 m = None ->
  exists g1 m1 g2 m2,
    createGroup fuel name1 d1 None id1 tc1 tu1 tp1 m = Some (Ok (g1, m1))
    /\ createGroup (S fuel) name2 d2 (Some id1) id2 tc2 tu2 tp2 m1
       = Some (Ok (g2, m2))
    /\ level g1 = 0 /\ level g2 = 1
    /\ parentGroup g2 = Some id1
    /\ exists P, find_group id1 m2 = Some P /\ subGroups P = [id2] /\ level P = 0.
Proof.
  intros Hn1 Hn2 Hid1 Hfresh.
  unfold createGroup at 1. rewrite (valid_name name1 Hn1). cbn [truthy].
  do 2 eexists.
  assert (Hfind : find_group id1
                    (mkManager (devices m)
                       (groups m ++ [mkGroup id1 (trim name1) d1 [] None [] 0 tc1 tu1])
                       (connectionHistory m))
                  = Some (mkGroup id1 (trim name1) d1 [] None [] 0 tc1 tu1)).
  { unfold find_group in *. cbn [groups]. rewrite find_snoc, Hfresh.
    unfold has_g_id. cbn [g_id]. now rewrite String.eqb_refl. }
  assert (Hlevel : getGroupLevel (S fuel) id1
                     (groups m ++ [mkGroup id1 (trim name1) d1 [] None [] 0 tc1 tu1])
                   = Some 0).
  { unfold find_group in Hfind. cbn [groups] in Hfind.
    cbn [getGroupLevel]. rewrite Hfind. reflexivity. }
  destruct (createGroup_under_parent (S fuel) name2 d2 id1 id2 tc2 tu2 tp2
              (mkManager (devices m)
                 (groups m ++ [mkGroup id1 (trim name1) d1 [] None [] 0 tc1 tu1])
                 (connectionHistory m))
              0 Hn2 Hid1 Hlevel) as (m2 & Hrun & _ & _ & Hparent & _).
  rewrite Hfind in Hparent.
  do 2 eexists. split; [reflexivity|]. split; [exact Hrun|].
  split; [reflexivity|]. split; [reflexivity|]. split; [reflexivity|].
  eexists. split; [exact Hparent|]. split; reflexivity.
Qed.

Lemma createGroup_nested_witness :
  trim "Living Room" <> ""%string
  /\ trim "Lamp" <> ""%string
  /\ "device_1_living"%string <> ""%string
  /\ find_group "device_1_living" empty_manager = None
  /\ exists g1 m1 g2 m2,
       createGroup 0 "Living Room" "" None "device_1_living" 1 1 1 empty_manager
       = Some (Ok (g1, m1))
       /\ createGroup 1 "Lamp" "" (Some "device_1_living"%string) "device_2_lamp"
            2 2 2 m1
          = Some (Ok (g2, m2))
       /\ level g1 = 0 /\ level g2 = 1
       /\ parentGroup g2 = Some "device_1_living"%string
       /\ exists P, find_group "device_1_living" m2 = Some P
                    /\ subGroups P = ["device_2_lamp"%string] /\ level P = 0.
Proof.
  assert (H1 : trim "Living Room" <> ""%string) by discriminate.
  assert (H2 : trim "Lamp" <> ""%string) by discriminate.
  assert (H3 : "device_1_living"%string <> ""%string) by discriminate.
  split; [exact H1|]. split; [exact H2|]. split; [exact H3|].
  split; [reflexivity|].
  exact (createGroup_nested 0 "Living Room" "Lamp" "" "" "device_1_living"
           "device_2_lamp" 1 1 1 2 2 2 empty_manager H1 H2 H3 eq_refl).
Defined.

Lemma without_subset (d i : string) (l : list string) : In i (without d l) -> In i l.
Proof. unfold without. intros H. apply filter_In in H. tauto. Qed.

Lemma push_member_cases (d i : string) (g : Group) :
  In i (g_devices (push_member d g)) -> i = d \/ In i (g_devices g).
Proof.
  unfold push_member. destruct (includes d (g_devices g)); [tauto|]. simpl.
  intros H. apply in_app_or in H. destruct H as [H|[H|[]]]; auto.
Qed.

Lemma addDeviceToGroup_lookup (d g : string) (tg td : Z) (m m' : Manager) (i : string) :
  addDeviceToGroup d g tg td m = Ok m' ->
  getDeviceById i m'
  = if String.eqb i d
    then option_map (fun x => set_updatedAt td (set_group (Some g) x)) (getDeviceById i m)
    else getDeviceById i m.
Proof.
  unfold addDeviceToGroup.
  destruct (getDeviceById d m); [|discriminate].
  destruct (find_group g m); [|discriminate].
  intros [= <-]. unfold getDeviceById. cbn [devices].
  destruct (String.eqb_spec i d) as [->|Hid].
  - now apply find_device_update_first.
  - now apply find_device_update_other.
Qed.

Lemma addDeviceToGroup_consistent (d g : string) (tg td : Z) (m m' : Manager) :
  members_consistent m ->
  addDeviceToGroup d g tg td m = Ok m' ->
  members_consistent m'.
Proof.
  intros Hcons Hrun k K i Hk HK Hin.
  destruct (getDeviceById d m) as [dev|] eqn:Hdev;
    [|unfold addDeviceToGroup in Hrun; rewrite Hdev in Hrun; discriminate].
  rewrite (addDeviceToGroup_groups d g tg td m m' dev Hdev Hrun k) in HK.
  cbv zeta in HK.
  rewrite (addDeviceToGroup_lookup d g tg td m m' i Hrun).
  destruct (find_group k m) as [K0|] eqn:HK0;
    [|destruct (truthy (group dev) && String.eqb k (or_empty (group dev)));
      destruct (String.eqb k g); discriminate].
  (* members of the group before the push *)
  assert (Hbefore : forall B,
            (if truthy (group dev) && String.eqb k (or_empty (group dev))
             then option_map (fun x => set_g_devices (without d (g_devices x)) x) (Some K0)
             else Some K0) = Some B ->
            In i (g_devices B) ->
            i <> d /\ In i (g_devices K0)).
  { intros B HB HiB.
    destruct (truthy (group dev) && String.eqb k (or_empty (group dev))) eqn:Hold.
    - injection HB as <-. simpl in HiB. split; [|now apply without_subset in HiB].
      intros ->. now apply without_not_In in HiB.
    - injection HB as <-. split; [|exact HiB].
      intros ->. destruct (Hcons k K0 d Hk HK0 HiB) as (dev' & Hdev' & Hgrp).
      rewrite Hdev in Hdev'. injection Hdev' as <-.
      rewrite Hgrp in Hold. rewrite (truthy_Some k Hk) in Hold. simpl in Hold.
      rewrite String.eqb_refl in Hold. discriminate. }
  destruct (String.eqb_spec k g) as [->|Hkg].
  - destruct (if truthy (group dev) && String.eqb g (or_empty (group dev))
              then option_map (fun x => set_g_devices (without d (g_devices x)) x) (Some K0)
              else Some K0) as [B|] eqn:HB; [|discriminate].
    injection HK as <-. simpl in Hin.
    apply push_member_cases in Hin. destruct Hin as [->|Hin].
    + rewrite String.eqb_refl, Hdev. eexists. split; reflexivity.
    + destruct (Hbefore B eq_refl Hin) as (Hid & HiK).
      destruct (String.eqb_spec i d); [congruence|].
      exact (Hcons g K0 i Hk HK0 HiK).
  - destruct (Hbefore K HK Hin) as (Hid & HiK).
    destruct (String.eqb_spec i d); [congruence|].
    exact (Hcons k K0 i Hk HK0 HiK).
Qed.

(** ** Single membership *)










Lemma removeDeviceFromGroup_cases (d : string) (tg td : Z) (m : Manager) :
  match getDeviceById d m with
  | Some dev =>
      if truthy (group dev) then
        fst (removeDeviceFromGroup d tg td m) = true
        /\ (forall i,
              getDeviceById i (snd (removeDeviceFromGroup d tg td m))
              = if String.eqb i d
                then Some (set_updatedAt td (set_group None dev))
                else getDeviceById i m)
        /\ (forall k,
              find_group k (snd (removeDeviceFromGroup d tg td m))
              = if String.eqb k (or_empty (group dev))
                then option_map
                       (fun x => set_g_updatedAt tg
                                   (set_g_devices (without d (g_devices x)) x))
                       (find_group k m)
                else find_group k m)
      else removeDeviceFromGroup d tg td m = (false, m)
  | None => removeDeviceFromGroup d tg td m = (false, m)
  end.
Proof.
  unfold removeDeviceFromGroup.
  destruct (getDeviceById d m) as [dev|] eqn:Hdev; [|reflexivity].
  destruct (truthy (group dev)); [|reflexivity].
  cbn [fst snd]. split; [reflexivity|]. split.
  - intros i. unfold getDeviceById in *. cbn [devices].
    destruct (String.eqb_spec i d) as [->|Hid].
    + rewrite find_device_update_first by reflexivity. now rewrite Hdev.
    + now apply find_device_update_other.
  - intros k. unfold find_group. cbn [groups].
    now apply find_group_update_first.
Qed.

Lemma removeDeviceFromGroup_consistent (d : string) (tg td : Z) (m : Manager) :
  members_consistent m ->
  members_consistent (snd (removeDeviceFromGroup d tg td m)).
Proof.
  intros Hcons.
  pose proof (removeDeviceFromGroup_cases d tg td m) as Hcases.
  destruct (getDeviceById d m) as [dev|] eqn:Hdev; [|now rewrite Hcases].
  destruct (truthy (group dev)) eqn:Htruthy; [|now rewrite Hcases].
  destruct Hcases as (_ & Hdevs & Hgroups).
  intros k K i Hk HK Hin. rewrite Hgroups in HK. rewrite Hdevs.
  destruct (find_group k m) as [K0|] eqn:HK0;
    [|destruct (String.eqb k (or_empty (group dev))); discriminate].
  assert (Hi : i <> d /\ In i (g_devices K0)).
  { destruct (String.eqb_spec k (or_empty (group dev))) as [Hold|Hold].
    - injection HK as <-. simpl in Hin. split; [|now apply without_subset in Hin].
      intros ->. now apply without_not_In in Hin.
    - injection HK as <-. split; [|exact Hin].
      intros ->. destruct (Hcons k K0 d Hk HK0 Hin) as (dev' & Hdev' & Hgrp).
      rewrite Hdev in Hdev'. injection Hdev' as <-.
      rewrite Hgrp in Hold. now elim Hold. }
  destruct Hi as (Hid & HiK).
  destruct (String.eqb_spec i d); [congruence|].
  exact (Hcons k K0 i Hk HK0 HiK).
Qed.

Lemma update_device_consistent (j : string) (f : DeviceRecord -> DeviceRecord)
  (m : Manager) :
  (forall x, id (f x) = id x) ->
  (forall x, group (f x) = group x) ->
  members_consistent m ->
  members_consistent (update_device j f m).
Proof.
  intros Hid Hgrp Hcons k K i Hk HK Hin.
  change (find_group k (update_device j f m)) with (find_group k m) in HK.
  destruct (Hcons k K i Hk HK Hin) as (dev & Hdev & Hg).
  rewrite getDeviceById_update_device by exact Hid.
  destruct (String.eqb i j); rewrite Hdev; cbn [option_map];
    eexists; split; try reflexivity; [now rewrite Hgrp|exact Hg].
Qed.

Lemma addDevice_consistent (device : DeviceRecord) (m : Manager) :
  members_consistent m -> members_consistent (snd (addDevice device m)).
Proof.
  intros Hcons k K i Hk HK Hin.
  unfold addDevice in *. rewrite existsb_find in *.
  destruct (find (has_id (id device)) (devices m)) eqn:Hfind; cbn [snd] in *;
    [exact (Hcons k K i Hk HK Hin)|].
  change (find_group k m = Some K) in HK.
  destruct (Hcons k K i Hk HK Hin) as (dev & Hdev & Hg).
  exists dev. split; [|exact Hg].
  unfold getDeviceById in *. cbn [devices]. rewrite find_snoc, Hdev. reflexivity.
Qed.

Lemma createGroup_consistent (fuel : nat) (name description : string)
  (parent : option string) (newId : string) (tc tu tp : Z) (m m' : Manager)
  (g : Group) :
  members_consistent m ->
  createGroup fuel name description parent newId tc tu tp m = Some (Ok (g, m')) ->
  members_consistent m'.
Proof.
  intros Hcons Hrun k K i Hk HK Hin.
  unfold createGroup in Hrun.
  destruct (String.eqb name "" || (String.length (trim name) =? 0)%nat);
    [discriminate|].
  destruct (if truthy parent
            then option_map (fun l => l + 1)
                   (getGroupLevel fuel (or_empty parent) (groups m))
            else Some 0) as [l|]; [|discriminate].
  injection Hrun as <- <-.
  unfold find_group in HK. cbn [groups] in HK. rewrite find_snoc in HK.
  change (getDeviceById i {| devices := devices m; groups := _;
                             connectionHistory := connectionHistory m |})
    with (getDeviceById i m).
  assert (Hold : forall G0, find (has_g_id k) (groups m) = Some G0 ->
                   In i (g_devices G0) ->
                   exists dev, getDeviceById i m = Some dev /\ group dev = Some k)
    by (intros G0 HG0 Hi0; exact (Hcons k G0 i Hk HG0 Hi0)).
  destruct (truthy parent).
  - rewrite find_group_update_first in HK by reflexivity.
    destruct (find (has_g_id k) (groups m)) as [G0|] eqn:HG0.
    + destruct (String.eqb k (or_empty parent)); cbn [option_map] in HK;
        injection HK as <-; apply (Hold G0 eq_refl); exact Hin.
    + destruct (String.eqb k (or_empty parent)); cbn [option_map] in HK;
        destruct (has_g_id k _); try discriminate;
        injection HK as <-; destruct Hin.
  - destruct (find (has_g_id k) (groups m)) as [G0|] eqn:HG0.
    + injection HK as <-. apply (Hold G0 eq_refl); exact Hin.
    + destruct (has_g_id k _); try discriminate. injection HK as <-. destruct Hin.
Qed.


Lemma after_call_consistent (m : Manager) (c : Call) :
  members_consistent m -> members_consistent (after_call m c).
Proof.
  intros Hcons.
  destruct c as [dv | deviceId nm now | deviceId pr now | deviceId now
                 | deviceId now | fuel nm ds parent newId tc tu tp
                 | deviceId groupId tg td | deviceId tg td | dv act now | ];
    cbn [after_call].
  - now apply addDevice_consistent.
  - unfold renameDevice.
    destruct (_ || _); [exact Hcons|].
    destruct (getDeviceById deviceId m); [|exact Hcons].
    now apply update_device_consistent.
  - unfold setDeviceProtocol.
    destruct (negb _); [exact Hcons|].
    destruct (getDeviceById deviceId m); [|exact Hcons].
    now apply update_device_consistent.
  - unfold toggleAutoConnect.
    destruct (getDeviceById deviceId m); [|exact Hcons].
    now apply update_device_consistent.
  - unfold toggleFavorite.
    destruct (getDeviceById deviceId m); [|exact Hcons].
    now apply update_device_consistent.
  - destruct (createGroup fuel nm ds parent newId tc tu tp m)
      as [[[g m']|]|] eqn:Hrun; try exact Hcons.
    exact (createGroup_consistent _ _ _ _ _ _ _ _ _ _ _ Hcons Hrun).
  - destruct (addDeviceToGroup deviceId groupId tg td m) as [m'|] eqn:Hrun;
      [|exact Hcons].
    exact (addDeviceToGroup_consistent _ _ _ _ _ _ Hcons Hrun).
  - now apply removeDeviceFromGroup_consistent.
  - exact Hcons.
  - exact Hcons.
Qed.

Lemma after_calls_consistent (calls : list Call) (m : Manager) :
  members_consistent m -> members_consistent (after_calls calls m).
Proof.
  unfold after_calls. revert m.
  induction calls as [|c calls IH]; intros m Hcons; [exact Hcons|].
  simpl. apply IH. now apply after_call_consistent.
Qed.

(** X21.  In every registry reached from the empty one by calls of
    [addDevice], [renameDevice], [setDeviceProtocol], the two toggles,
    [createGroup], [addDeviceToGroup], [removeDeviceFromGroup],
    [addToHistory] and [clearHistory], in any number and order and with
    any arguments, a device id listed in a group (looked up by a non-empty
    id) belongs to a known device whose group reference is that group, and
    is listed in no group with another id. *)
Theorem single_membership_reachable (calls : list Call) (g1 g2 i : string)
  (G1 G2 : Group) :
  let m := after_calls calls empty_manager in
  g1 <> ""%string -> g2 <> ""%string -> g1 <> g2 ->
  find_group g1 m = Some G1 ->
  find_group g2 m = Some G2 ->
  In i (g_devices G1) ->
  (exists dev, getDeviceById i m = Some dev /\ group dev = Some g1)
  /\ ~ In i (g_devices G2).
Proof.
  intros m H1 H2 Hneq HG1 HG2 Hin.
  assert (Hcons : members_consistent m).
  { apply after_calls_consistent. intros g G j _ HG. discriminate. }
  destruct (Hcons g1 G1 i H1 HG1 Hin) as (dev & Hdev & Hg).
  split; [exists dev; split; assumption|].
  intros Hin2. destruct (Hcons g2 G2 i H2 HG2 Hin2) as (dev' & Hdev' & Hg').
  congruence.
Qed.

Lemma single_membership_reachable_witness :
  let m := after_calls sample_calls empty_manager in
  exists G1 G2,
    find_group "device_2_lamp" m = Some G1
    /\ find_group "device_1_living" m = Some G2
    /\ In "k3Yb0Q=="%string (g_devices G1)
    /\ (exists dev, getDeviceById "k3Yb0Q==" m = Some dev
                    /\ group dev = Some "device_2_lamp"%string)
    /\ ~ In "k3Yb0Q=="%string (g_devices G2).
Proof.
  cbv zeta.
  destruct (find_group "device_2_lamp" (after_calls sample_calls empty_manager))
    as [G1|] eqn:H1; [|vm_compute in H1; discriminate].
  destruct (find_group "device_1_living" (after_calls sample_calls empty_manager))
    as [G2|] eqn:H2; [|vm_compute in H2; discriminate].
  assert (Hin : In "k3Yb0Q=="%string (g_devices G1)).
  { vm_compute in H1. injection H1 as <-. left; reflexivity. }
  exists G1, G2. split; [reflexivity|]. split; [reflexivity|]. split; [exact Hin|].
  exact (single_membership_reachable sample_calls "device_2_lamp" "device_1_living"
           "k3Yb0Q==" G1 G2 ltac:(discriminate) ltac:(discriminate)
           ltac:(discriminate) H1 H2 Hin).
Defined.

Lemma find_none_not_in (i : string) (l : list DeviceRecord) :
  find (has_id i) l = None -> ~ In i (map id l).
Proof.
  intros Hfind Hin. apply in_map_iff in Hin. destruct Hin as (x & Hx & Hin).
  apply (find_none _ _ Hfind) in Hin. unfold has_id in Hin.
  rewrite Hx, String.eqb_refl in Hin. discriminate.
Qed.

Lemma after_call_ids (m : Manager) (c : Call) :
  NoDup (map id (devices m)) -> NoDup (map id (devices (after_call m c))).
Proof.
  intros Hnd.
  destruct c as [dv | deviceId nm now | deviceId pr now | deviceId now
                 | deviceId now | fuel nm ds parent newId tc tu tp
                 | deviceId groupId tg td | deviceId tg td | dv act now | ];
    cbn [after_call].
  - unfold addDevice. rewrite existsb_find.
    destruct (find (has_id (id dv)) (devices m)) eqn:Hfind; cbn [snd devices];
      [exact Hnd|].
    rewrite map_app. simpl. apply NoDup_app; [exact Hnd|repeat constructor; auto|].
    intros a Ha [<-|[]]. now apply (find_none_not_in _ _ Hfind).
  - unfold renameDevice. destruct (_ || _); [exact Hnd|].
    destruct (getDeviceById deviceId m); [|exact Hnd].
    cbn [update_device devices]. now rewrite update_first_ids.
  - unfold setDeviceProtocol. destruct (negb _); [exact Hnd|].
    destruct (getDeviceById deviceId m); [|exact Hnd].
    cbn [update_device devices]. now rewrite update_first_ids.
  - unfold toggleAutoConnect. destruct (getDeviceById deviceId m); [|exact Hnd].
    cbn [update_device devices]. now rewrite update_first_ids.
  - unfold toggleFavorite. destruct (getDeviceById deviceId m); [|exact Hnd].
    cbn [update_device devices]. now rewrite update_first_ids.
  - unfold createGroup. destruct (_ || _); [exact Hnd|].
    destruct (if truthy parent then _ else _); exact Hnd.
  - unfold addDeviceToGroup. destruct (getDeviceById deviceId m); [|exact Hnd].
    destruct (find_group groupId m); [|exact Hnd].
    cbn [devices]. now rewrite update_first_ids.
  - unfold removeDeviceFromGroup. destruct (getDeviceById deviceId m); [|exact Hnd].
    destruct (truthy _); [|exact Hnd].
    cbn [snd devices]. now rewrite update_first_ids.
  - exact Hnd.
  - exact Hnd.
Qed.

(** X22.  In every registry reached from the empty one by the same
    calls, no two devices share an id. *)
Theorem device_ids_unique_reachable (calls : list Call) :
  NoDup (map id (devices (after_calls calls empty_manager))).
Proof.
  unfold after_calls.
  assert (H : forall m, NoDup (map id (devices m)) ->
                NoDup (map id (devices (fold_left after_call calls m)))).
  { induction calls as [|c calls IH]; intros m Hnd; [exact Hnd|].
    simpl. apply IH. now apply after_call_ids. }
  apply H. constructor.
Qed.

(** X23.  [removeDeviceFromGroup] undoes [addDeviceToGroup]: after
    adding known device [d] to known group [g] (non-empty id), removing it
    returns [true], leaves [d] without a group reference and [g] without
    [d] in its member list; a second removal returns [false] and changes
    nothing. *)
Theorem removeDeviceFromGroup_undoes_add (d g : string) (tg td tg' td' tg'' td'' : Z)
  (m : Manager) :
  getDeviceById d m <> None ->
  find_group g m <> None ->
  g <> ""%string ->
  exists m1 m2,
    addDeviceToGroup d g tg td m = Ok m1
    /\ removeDeviceFromGroup d tg' td' m1 = (true, m2)
    /\ (exists dev, getDeviceById d m2 = Some dev /\ group dev = None)
    /\ (exists G, find_group g m2 = Some G /\ ~ In d (g_devices G))
    /\ removeDeviceFromGroup d tg'' td'' m2 = (false, m2).
Proof.
  intros Hd Hg Hne.
  destruct (getDeviceById d m) as [dev|] eqn:Hdev; [|congruence].
  destruct (find_group g m) as [G|] eqn:HG; [|congruence].
  destruct (addDeviceToGroup_device d g tg td m dev G Hdev HG) as (m1 & Hrun1 & Hdev1).
  assert (Hg1 : find_group g m1 <> None)
    by (apply (addDeviceToGroup_keeps_groups d g tg td m m1 g Hrun1); congruence).
  pose proof (removeDeviceFromGroup_cases d tg' td' m1) as Hcases.
  rewrite Hdev1 in Hcases. cbn [group set_updatedAt set_group] in Hcases.
  rewrite (truthy_Some g Hne) in Hcases. cbn [or_empty] in Hcases.
  destruct Hcases as (Hfst & Hdevs & Hgroups).
  exists m1, (snd (removeDeviceFromGroup d tg' td' m1)).
  split; [exact Hrun1|].
  split; [rewrite <- Hfst; apply surjective_pairing|].
  split; [|split].
  - eexists. rewrite Hdevs, String.eqb_refl. split; reflexivity.
  - rewrite Hgroups, String.eqb_refl.
    destruct (find_group g m1) as [G1|]; [|congruence].
    eexists. split; [reflexivity|]. simpl. apply without_not_In.
  - unfold removeDeviceFromGroup at 1.
    rewrite Hdevs, String.eqb_refl. reflexivity.
Qed.

Lemma removeDeviceFromGroup_undoes_add_witness :
  getDeviceById "k3Yb0Q==" sample_manager <> None
  /\ find_group "device_3_bulb" sample_manager <> None
  /\ "device_3_bulb"%string <> ""%string
  /\ exists m1 m2,
       addDeviceToGroup "k3Yb0Q==" "device_3_bulb" 2000 2001 sample_manager = Ok m1
       /\ removeDeviceFromGroup "k3Yb0Q==" 2002 2003 m1 = (true, m2)
       /\ (exists dev, getDeviceById "k3Yb0Q==" m2 = Some dev /\ group dev = None)
       /\ (exists G, find_group "device_3_bulb" m2 = Some G
                     /\ ~ In "k3Yb0Q=="%string (g_devices G))
       /\ removeDeviceFromGroup "k3Yb0Q==" 2004 2005 m2 = (false, m2).
Proof.
  split; [simpl; discriminate|]. split; [simpl; discriminate|].
  split; [discriminate|].
  apply (removeDeviceFromGroup_undoes_add "k3Yb0Q==" "device_3_bulb"
           2000 2001 2002 2003 2004 2005 sample_manager);
    simpl; discriminate.
Defined.

Lemma slice0_nonneg {A} (limit : Z) (l : list A) :
  0 <= limit -> slice0 limit l = firstn (Z.to_nat limit) l.
Proof.
  intros H. unfold slice0. destruct (Z.ltb_spec limit 0); [lia|reflexivity].
Qed.

(** X24.  After [addToHistory(device, action)], [getHistory(limit)] for
    a limit of at least 1 starts with the entry just added, followed by
    the newest of the older entries, and holds at most [limit] entries
    (and never more than 100). *)
Theorem getHistory_newest_first (dev : DeviceRecord) (a : Action) (now limit : Z)
  (m : Manager) :
  1 <= limit ->
  getHistory limit (addToHistory dev a now m)
  = mkHistoryEntry (id dev) (name dev) a now
    :: firstn (Z.to_nat (Z.min limit 100) - 1) (connectionHistory m)
  /\ (length (getHistory limit (addToHistory dev a now m))
      <= Nat.min (Z.to_nat limit) 100)%nat.
Proof.
  intros Hlimit. unfold getHistory.
  rewrite addToHistory_history, slice0_nonneg by lia. rewrite firstn_firstn.
  split.
  - replace (Nat.min (Z.to_nat limit) 100) with (S (Z.to_nat (Z.min limit 100) - 1))
      by lia.
    reflexivity.
  - apply firstn_le_length.
Qed.

Lemma getHistory_newest_first_witness :
  1 <= 20
  /\ getHistory 20 (addToHistory strip connected 2000 sample_manager)
     = [mkHistoryEntry "k3Yb0Q==" "Strip" connected 2000].
Proof.
  split; [lia|].
  exact (proj1 (getHistory_newest_first strip connected 2000 20 sample_manager
                  ltac:(lia))).
Defined.

(** X25.  [getRSSILevel] never ranks a stronger reading below a weaker
    one (readings other than 0), and a reading of 0 is reported as
    unknown, like a missing one. *)
Theorem getRSSILevel_monotone (r1 r2 : Z) :
  r1 <> 0 -> r2 <> 0 -> r1 <= r2 ->
  rank (getRSSILevel (Some r1)) <= rank (getRSSILevel (Some r2))
  /\ 0 <= rank (getRSSILevel (Some r1))
  /\ getRSSILevel (Some 0) = unknown
  /\ getRSSILevel None = unknown.
Proof.
  intros H1 H2 Hle. unfold getRSSILevel.
  destruct (Z.eqb_spec r1 0); [congruence|].
  destruct (Z.eqb_spec r2 0); [congruence|].
  split; [|split; [|split; reflexivity]].
  - repeat match goal with
           | |- context [?a <=? ?b] => destruct (Z.leb_spec a b)
           end; simpl; lia.
  - repeat match goal with
           | |- context [?a <=? ?b] => destruct (Z.leb_spec a b)
           end; simpl; lia.
Qed.

Lemma getRSSILevel_monotone_witness :
  -85 <> 0 /\ -60 <> 0 /\ -85 <= -60
  /\ getRSSILevel (Some (-85)) = poor
  /\ getRSSILevel (Some (-60)) = good
  /\ rank (getRSSILevel (Some (-85))) <= rank (getRSSILevel (Some (-60))).
Proof.
  split; [lia|]. split; [lia|]. split; [lia|].
  split; [reflexivity|]. split; [reflexivity|].
  exact (proj1 (getRSSILevel_monotone (-85) (-60) ltac:(lia) ltac:(lia) ltac:(lia))).
Defined.

(** X26.  [sendHardwareCommand] throws without writing when there is no
    hardware connection; with one (and a known protocol), a color command
    whose data lacks a channel returns [false] without writing, a
    complete one writes the protocol's color frame with each channel
    reduced modulo 256 (values are not clamped), and a command other than
    color, brightness, on and off throws without writing. *)
Theorem sendHardwareCommand_edges (hw : HardwareConnection) (p : Protocol)
  (command : string) (data : option CommandData) (accepted : bool) :
  find_protocol (hw_protocol hw) = Some p ->
  sendHardwareCommand None command data accepted
  = (Throw "Keine Hardware-Verbindung", None)
  /\ sendHardwareCommand (Some hw) "color" data accepted
     = match data with
       | Some (mkCommandData (Some r) (Some g) (Some b) _) =>
           (if accepted then Ok true else Throw "NetworkError",
            Some (hw_characteristic hw,
                  match p with
                  | ELK_BLEDOM =>
                      [0x7E; 0x00; 0x05; r mod 256; g mod 256; b mod 256; 0x00; 0xEF]
                  | GENERIC => [0x02; r mod 256; g mod 256; b mod 256]
                  end))
       | _ => (Ok false, None)
       end
  /\ (if existsb (String.eqb command) ["color"; "brightness"; "on"; "off"]%string
      then True
      else sendHardwareCommand (Some hw) command data accepted
           = (Throw ("Unbekannter Befehl: " ++ command), None)).
Proof.
  intros Hp. split; [reflexivity|]. split.
  - unfold sendHardwareCommand. rewrite Hp.
    cbn [hardware_frame String.eqb Ascii.eqb Bool.eqb].
    destruct data as [[[r|] [g|] [b|] v]|]; try reflexivity.
    destruct p; reflexivity.
  - unfold sendHardwareCommand, hardware_frame. rewrite Hp. cbn [existsb].
    destruct (String.eqb command "color"); [exact I|].
    destruct (String.eqb command "brightness"); [exact I|].
    destruct (String.eqb command "on"); [exact I|].
    destruct (String.eqb command "off"); [exact I|].
    reflexivity.
Qed.

Lemma sendHardwareCommand_edges_witness :
  find_protocol "ELK_BLEDOM" = Some ELK_BLEDOM
  /\ sendHardwareCommand (Some (mkHardwareConnection 3%nat "ELK_BLEDOM")) "color"
       (Some (mkCommandData (Some 300) (Some 0) (Some (-1)) None)) true
     = (Ok true, Some (3%nat, [0x7E; 0x00; 0x05; 44; 0; 255; 0x00; 0xEF])).
Proof.
  split; [reflexivity|].
  exact (proj1 (proj2 (sendHardwareCommand_edges
                         (mkHardwareConnection 3%nat "ELK_BLEDOM") ELK_BLEDOM "color"
                         (Some (mkCommandData (Some 300) (Some 0) (Some (-1)) None))
                         true eq_refl))).
Defined.

End RegistryOperations.

(* ================================================================== *)
(** * Properties of the abstraction layer's frames *)
(* ================================================================== *)

Section LayerFrames.

Import Layer.

(** X27.  For every color order, known or not, [convertColorForLEDType]
    returns the three channel values it was given, rearranged: no value is
    lost, duplicated or changed. *)
Theorem convertColorForLEDType_permutes (colorOrder : string) (r g b : Z) :
  let '(cr, cg, cb) := convertColorForLEDType colorOrder r g b in
  Permutation [cr; cg; cb] [r; g; b].
Proof.
  unfold convertColorForLEDType.
  repeat match goal with
         | |- context [String.eqb ?a ?b] => destruct (String.eqb a b)
         end.
  - apply perm_swap.
  - apply Permutation_rev.
  - apply (Permutation_trans (l' := [r; b; g])); [apply perm_swap|].
    apply perm_skip, perm_swap.
  - apply (Permutation_trans (l' := [g; r; b])); [|apply perm_swap].
    apply perm_skip, perm_swap.
  - apply perm_skip, perm_swap.
  - apply Permutation_refl.
Qed.

(** X28.  [setPixel] throws its range error exactly when the index is at
    least the pixel count; a negative index is not rejected.  Otherwise
    the frame it hands to [writeValue] is the 8-byte pixel frame whose
    third and fourth byte are the high and low byte of the index modulo
    65536, followed by the three channels modulo 256. *)
Theorem setPixel_index_bytes (pixelCount index r g b : Z) :
  match setPixel_frame pixelCount index r g b with
  | None => pixelCount <= index
  | Some frame =>
      index < pixelCount
      /\ exists hi lo,
           frame = [0x7E; 0x01; hi; lo; r mod 256; g mod 256; b mod 256; 0xEF]
           /\ 0 <= hi <= 255 /\ 0 <= lo <= 255
           /\ hi * 256 + lo = index mod 65536
  end.
Proof.
  unfold setPixel_frame.
  destruct (Z.leb_spec pixelCount index) as [H|H]; [exact H|].
  split; [exact H|].
  exists ((index / 256) mod 256), (index mod 256).
  split.
  - cbn [JS.Uint8Array map]. rewrite !land_0xFF, Z.shiftr_div_pow2 by lia.
    change (2 ^ 8) with 256. rewrite !Z.mod_mod by lia. reflexivity.
  - pose proof (Z.mod_pos_bound (index / 256) 256 ltac:(lia)).
    pose proof (Z.mod_pos_bound index 256 ltac:(lia)).
    split; [lia|]. split; [lia|].
    change 65536 with (256 * 256).
    rewrite Z.rem_mul_r by lia. lia.
Qed.

(** The chunks from offset [i] on make up the rest of the buffer, and
    each holds between 1 and 512 bytes. *)
Lemma chunks_from_concat (cmd : list Z) :
  forall fuel i,
    (length cmd <= i + fuel)%nat ->
    concat (chunks_from fuel i cmd) = skipn i cmd
    /\ Forall (fun chunk => (1 <= length chunk <= 512)%nat) (chunks_from fuel i cmd).
Proof.
  induction fuel as [|fuel IH]; intros i Hlen.
  - simpl. split; [|constructor]. symmetry. apply skipn_all2. lia.
  - cbn [chunks_from].
    destruct (Nat.ltb_spec i (length cmd)) as [Hi|Hi].
    + destruct (IH (i + 512)%nat ltac:(lia)) as (Hcat & Hall).
      cbn [concat]. rewrite Hcat. unfold slice. split.
      * replace (Nat.min (i + 512) (length cmd) - i)%nat
          with (Nat.min 512 (length (skipn i cmd))) by (rewrite length_skipn; lia).
        replace (i + 512)%nat with (512 + i)%nat by lia.
        rewrite <- skipn_skipn, <- firstn_firstn, firstn_all.
        apply firstn_skipn.
      * constructor; [|exact Hall].
        rewrite length_firstn, length_skipn. lia.
    + simpl. split; [|constructor]. symmetry. apply skipn_all2. lia.
Qed.

(** X29.  The buffer [updateBuffer] builds for [n] pixels has [3n + 5]
    bytes, all in [0,255], starting with 0x7E and ending with 0xEF.  What
    it hands to [writeValue], as long as no write is rejected, is that
    buffer, whole if it has at most 512 bytes, otherwise in chunks of 1 to
    512 bytes whose concatenation is the buffer: no byte is lost, repeated
    or reordered by the chunking. *)
Theorem updateBuffer_chunks (colorOrder : string) (pixelData : list (Z * Z * Z)) :
  let cmd := updateBuffer_cmd colorOrder pixelData in
  concat (updateBuffer_writes colorOrder pixelData) = cmd
  /\ Forall (fun chunk => (1 <= length chunk <= 512)%nat)
       (updateBuffer_writes colorOrder pixelData)
  /\ (if (length cmd <=? 512)%nat
      then updateBuffer_writes colorOrder pixelData = [cmd]
      else (2 <= length (updateBuffer_writes colorOrder pixelData))%nat)
  /\ length cmd = (3 * length pixelData + 5)%nat
  /\ hd_error cmd = Some 0x7E /\ last cmd 0 = 0xEF
  /\ Forall JS.is_byte cmd.
Proof.
  intros cmd. unfold updateBuffer_writes. fold cmd.
  assert (Hlen : length cmd = (3 * length pixelData + 5)%nat).
  { unfold cmd, updateBuffer_cmd. cbn [app length]. rewrite length_app. cbn [length].
    assert (H : length (flat_map (pixel_bytes colorOrder) pixelData)
                = (3 * length pixelData)%nat).
    { induction pixelData as [|[[r g] b] l IH]; [reflexivity|].
      cbn [flat_map]. rewrite length_app, IH. unfold pixel_bytes.
      destruct (convertColorForLEDType colorOrder r g b) as [[cr cg] cb].
      cbn [length]. lia. }
    rewrite H. lia. }
  split; [|split; [|split; [|split; [exact Hlen|split; [reflexivity|split]]]]].
  - destruct (Nat.ltb_spec 512 (length cmd)).
    + apply (chunks_from_concat cmd (length cmd) 0). lia.
    + cbn [concat]. apply app_nil_r.
  - destruct (Nat.ltb_spec 512 (length cmd)).
    + apply (chunks_from_concat cmd (length cmd) 0). lia.
    + constructor; [lia|constructor].
  - destruct (Nat.leb_spec (length cmd) 512) as [Hle|Hgt];
      destruct (Nat.ltb_spec 512 (length cmd)) as [Hlt|Hge]; try lia.
    + reflexivity.
    + destruct (chunks_from_concat cmd (length cmd) 0 ltac:(lia)) as (Hcat & Hall).
      cbn [skipn] in Hcat.
      destruct (chunks_from (length cmd) 0 cmd) as [|x [|y l]].
      * cbn [concat] in Hcat. rewrite <- Hcat in Hgt. simpl in Hgt. lia.
      * cbn [concat] in Hcat. rewrite app_nil_r in Hcat.
        apply Forall_inv in Hall. rewrite Hcat in Hall. lia.
      * cbn [length]. lia.
  - unfold cmd, updateBuffer_cmd. cbn [app].
    rewrite !app_comm_cons. apply last_last.
  - unfold cmd, updateBuffer_cmd. cbn [app].
    assert (Hb : forall z, JS.is_byte (Z.land z 0xFF)).
    { intros z. rewrite land_0xFF. unfold JS.is_byte.
      pose proof (Z.mod_pos_bound z 256 ltac:(lia)). lia. }
    repeat (constructor; [first [apply Hb | unfold JS.is_byte; lia]|]).
    apply Forall_app. split; [|repeat constructor; unfold JS.is_byte; lia].
    apply Forall_flat_map. apply Forall_forall. intros [[r g] b] _.
    unfold pixel_bytes. destruct (convertColorForLEDType colorOrder r g b) as [[cr cg] cb].
    assert (Hm : forall z, JS.is_byte (z mod 256)).
    { intros z. unfold JS.is_byte.
      pose proof (Z.mod_pos_bound z 256 ltac:(lia)). lia. }
    repeat constructor; apply Hm.
Qed.

End LayerFrames.
